(** * funcsamp2D: convergence-error estimation of 2D sample sequences

    A shallow embedding of [funcsamp2D.cpp] (Per Christensen, Pixar) and the
    properties of its integrand catalogue, corpus reader, convergence
    estimator and reporter.

    Modelling conventions.
    - A C [double] is an IEEE 754 binary64 number: Rocq's primitive [float],
      every arithmetic operation rounded to nearest-even once (the x86-64
      SSE2 code that [g++] emits, no fused multiply-add).
    - A C [int] is a [Z]; every [int] the program computes is a loop counter
      bounded by [numSamples], [numSequences] or [NUMFUNCTIONS], or such a
      counter plus one, so no wrap-around is ever reached.
    - [exp] and [sin] of the C mathematical library and the conversion of a
      text to a [double] done inside [fscanf] are parameters ([Libc]).
    - The global [samplePoints] has static storage: it starts zeroed.  An
      index outside [MAXTABLES] x [MAXSAMPLES] is undefined behaviour and
      stops the model with [OutOfBounds].
    - Locals read before any assignment ([c] in [skipLine], [x] and [y] in
      [main]) have an indeterminate value, supplied by [Indeterminate].
    - [malloc] succeeds, and [stdout] is the list of the calls of [printf]
      and [fflush] in order.
    - A [float] has one NaN, the NaN of a C [double] has a sign bit also,
      which [printf] prints: the model keeps that bit next to [sumerror] and
      [aveerror], the doubles on the way to [printf] ([nan_sign]). *)

From Stdlib Require Import ZArith List String Ascii Bool Lia.
From Stdlib Require Import Floats DecimalString.
Import ListNotations.

Set Warnings "-inexact-float".

Local Open Scope Z_scope.

(** ** C doubles *)

Abbreviation double := float.

Declare Scope double_scope.
Delimit Scope double_scope with double.
Bind Scope double_scope with float.

Notation "a + b" := (PrimFloat.add a b) : double_scope.
Notation "a - b" := (PrimFloat.sub a b) : double_scope.
Notation "a * b" := (PrimFloat.mul a b) : double_scope.
Notation "a / b" := (PrimFloat.div a b) : double_scope.
Notation "- a" := (PrimFloat.opp a) : double_scope.
Notation "a < b" := (PrimFloat.ltb a b) : double_scope.
Notation "a <= b" := (PrimFloat.leb a b) : double_scope.
Notation "a > b" := (PrimFloat.ltb b a) (only parsing) : double_scope.
Notation "a >= b" := (PrimFloat.leb b a) (only parsing) : double_scope.

(** [fabs] and [sqrt] are exact, respectively correctly rounded, in IEEE 754. *)
Definition fabs (a : double) : double := PrimFloat.abs a.
Definition sqrt (a : double) : double := PrimFloat.sqrt a.

(** The sign bit of a NaN.  The SSE2 instructions of x86-64 give an
    operation with a NaN operand that operand, sign bit included (the first
    operand if both are NaNs), and an invalid operation on two numbers
    ([0.0 / 0], [inf - inf]) the default NaN, whose sign bit is set.
    [nan_sign a sa b sb] is the sign bit of the NaN that an arithmetic
    operation on [a] and [b] gives, if it gives one, [sa] and [sb] being the
    sign bits of [a] and [b] where they are NaNs.  [fabs] clears the sign
    bit, of a NaN also. *)
Definition nan_sign (a : double) (sa : bool) (b : double) (sb : bool) : bool :=
  if PrimFloat.is_nan a then sa else if PrimFloat.is_nan b then sb else true.

(** Conversion of an [int] to [double] (exact: an [int] has 32 bits). *)
Definition double_of_int (n : Z) : double :=
  if n <? 0 then PrimFloat.opp (PrimFloat.of_uint63 (Uint63.of_Z (- n)))
  else PrimFloat.of_uint63 (Uint63.of_Z n).

(** [#define MIN(a,b) ((a < b) ? (a) : (b))] and
    [#define MAX(a,b) ((a > b) ? (a) : (b))] *)
Definition MIN (a b : double) : double := if (a < b)%double then a else b.
Definition MAX (a b : double) : double := if (a > b)%double then a else b.

Definition MAXSAMPLES : Z := 4096.
Definition MAXTABLES : Z := 10000.
Definition NUMFUNCTIONS : Z := 18.

(** [M_PI] of <math.h>, the double nearest to pi. *)
Definition M_PI : double := 3.14159265358979323846%float.

(** [typedef struct Point { double x, y; } Point;] *)
Record Point : Set := mkPoint { Point_x : double; Point_y : double }.

(** [typedef struct Functions { const char* name; double refValue; }] *)
Record Functions : Set := mkFunctions { name : string; refValue : double }.

(** Known functions and their reference values. *)
Definition functionTable : list Functions :=
  [ (* Discontinuous 2D functions: *)
    mkFunctions "quarterdisk" 0.5%float;
    mkFunctions "fulldisk" 0.5%float;
    mkFunctions "triangle" 0.5%float;
    (* Piece-wise linear 2D functions: *)
    mkFunctions "quarterdiskramp" 0.505273%float;
    mkFunctions "fulldiskramp" 0.505273%float;
    mkFunctions "triangleramp" 0.5%float;
    (* Smooth 2D functions: *)
    mkFunctions "quartergaussian" 0.55774629%float;
    mkFunctions "fullgaussian" 0.851121%float;
    mkFunctions "bilinear" 0.25%float;
    mkFunctions "biquadratic" (1.0%float / 9.0%float)%double;
    mkFunctions "sinxy" 0.0%float;
    mkFunctions "sininvr" (-0.220242)%float;
    (* Discontinuous 1D function: *)
    mkFunctions "stepx" (1.0%float / M_PI)%double;
    (* Piece-wise linear 1D function: *)
    mkFunctions "rampx" 0.3%float;
    (* Smooth 1D functions: *)
    mkFunctions "lineary" 0.5%float;
    mkFunctions "gaussianx" 0.74682413%float;
    mkFunctions "siny" (2.0%float / M_PI)%double;
    mkFunctions "sin2x" 0.0%float ].

(** ** The C library *)

(** The characters still to be read from a [FILE*] opened for reading. *)
Definition stream := list ascii.

(** What the program takes from the C library without defining it: [exp]
    and [sin] of <math.h>, and [scan_double], the conversion that [fscanf]
    performs for one [%lf] once white space is skipped: on a text that
    starts with a floating-point number it gives the number, on any other
    text nothing (a matching failure), and in both cases the text that is
    left to read. *)
Class Libc : Type := {
  exp : double -> double;
  sin : double -> double;
  scan_double : stream -> option double * stream
}.

(** ** The integrand library *)

Section Integrands.
Context {libc : Libc}.
Local Open Scope double_scope.

(** Returns 1 if point radius < sqrt(2/pi), 0 otherwise. *)
Definition quarterdisk (x y : double) : double :=
  let radius2 := 2.0%float / M_PI in
  let r2 := x * x + y * y in
  if r2 < radius2 then 1.0%float else 0.0%float.

(** Returns 1 if point radius < 1/sqrt(2 pi), 0 otherwise. *)
Definition fulldisk (x y : double) : double :=
  let radius2 := 1.0%float / (2.0%float * M_PI) in
  let x := x - 0.5%float in
  let y := y - 0.5%float in
  let r2 := x * x + y * y in
  if r2 < radius2 then 1.0%float else 0.0%float.

Definition triangle (x y : double) : double :=
  if x + y < 1.0%float then 1.0%float else 0.0%float.

Definition quarterdiskramp (x y : double) : double :=
  let innerRadius := 0.7%float in
  let outerRadius := 0.9%float in
  let r := sqrt (x * x + y * y) in
  if r <= innerRadius then 1.0%float
  else if r >= outerRadius then 0.0%float
  else 1.0%float - (r - innerRadius) / (outerRadius - innerRadius).

Definition fulldiskramp (x y : double) : double :=
  let innerRadius := 0.35%float in
  let outerRadius := 0.45%float in
  let x := x - 0.5%float in
  let y := y - 0.5%float in
  let r := sqrt (x * x + y * y) in
  if r <= innerRadius then 1.0%float
  else if r >= outerRadius then 0.0%float
  else 1.0%float - (r - innerRadius) / (outerRadius - innerRadius).

Definition triangleramp (x y : double) : double :=
  let ymx := 5.0%float * (y - x) in
  let ymx :=
    if ymx >= 0.5%float then 0.5%float
    else if ymx <= (-0.5)%float then (-0.5)%float
    else ymx in
  ymx + 0.5%float.

Definition quartergaussian2D (x y : double) : double :=
  exp ((- x) * x - y * y).

Definition fullgaussian2D (x y : double) : double :=
  let x := x - 0.5%float in
  let y := y - 0.5%float in
  exp ((- x) * x - y * y).

Definition bilinear (x y : double) : double := x * y.

Definition biquadratic (x y : double) : double := x * x * y * y.

Definition sinxy (x y : double) : double := sin (M_PI * (x + y)).

Definition sininvr (x y : double) : double :=
  let r := sqrt (x * x + y * y) in
  if r > 0.0%float then sin (M_PI / r) else 1.0%float.

Definition step (x : double) : double :=
  if x < 1.0%float / M_PI then 1.0%float else 0.0%float.

Definition ramp (x : double) : double :=
  let left := 0.2%float in
  let right := 0.4%float in
  if x <= left then 1.0%float
  else if x >= right then 0.0%float
  else 1.0%float - (x - left) / (right - left).

Definition linear (x : double) : double := x.

Definition gaussian1D (x : double) : double := exp ((- x) * x).

Definition sinx (x : double) : double := sin (M_PI * x).

Definition sin2x (x : double) : double := sin (2.0%float * M_PI * x).

(** The [switch] of [evaluateFunction], on the sample already fetched.
    A [functionNum] outside 0..17 leaves [result] at its initial 0.0. *)
Definition applyFunction (functionNum : Z) (sample : Point) : double :=
  let x := Point_x sample in
  let y := Point_y sample in
  match functionNum with
  (* 2D: *)
  | 0 => quarterdisk x y
  | 1 => fulldisk x y
  | 2 => triangle x y
  | 3 => quarterdiskramp x y
  | 4 => fulldiskramp x y
  | 5 => triangleramp x y
  | 6 => quartergaussian2D x y
  | 7 => fullgaussian2D x y
  | 8 => bilinear x y
  | 9 => biquadratic x y
  | 10 => sinxy x y
  | 11 => sininvr x y
  (* 1D: *)
  | 12 => step x
  | 13 => ramp x
  | 14 => linear y
  | 15 => gaussian1D x
  | 16 => sinx y
  | 17 => sin2x x
  | _ => 0.0%float
  end.

End Integrands.

(** ** Streams, [fscanf] and [skipLine] *)

Definition newline : ascii := "010"%char.

(** [isspace] in the C locale: space, and the controls \t \n \v \f \r. *)
Definition isspace (c : ascii) : bool :=
  let n := N_of_ascii c in
  (n =? 32)%N || ((9 <=? n)%N && (n <=? 13)%N).

(** The white-space directive of a [fscanf] format, and the white space
    that [%lf] skips before it converts. *)
Fixpoint skip_space (fd : stream) : stream :=
  match fd with
  | c :: fd' => if isspace c then skip_space fd' else fd
  | [] => []
  end.

(** [fscanf(fd, "%c", &c)]: at end of file nothing is stored, [c] keeps the
    value it had (the return value is ignored by the only caller). *)
Definition fscanf_c (fd : stream) (c : ascii) : ascii * stream :=
  match fd with
  | [] => (c, [])
  | ch :: fd' => (ch, fd')
  end.

(** One pass through [do { fscanf(fd, "%c", &c); } while (c != '\n');]:
    the stream when the loop is left, or the state it goes on with. *)
Definition skipLine_body (st : ascii * stream) : stream + ascii * stream :=
  let (c, fd) := fscanf_c (snd st) (fst st) in
  if Ascii.eqb c newline then inl fd else inr (c, fd).

(** The loop of [skipLine] run for at most [fuel] passes, from the value
    [c] holds on entry (it is declared without an initialiser). *)
Fixpoint skipLine_steps (fuel : nat) (st : ascii * stream) : option stream :=
  match fuel with
  | O => None
  | S fuel' =>
      match skipLine_body st with
      | inl fd => Some fd
      | inr st' => skipLine_steps fuel' st'
      end
  end.

(** [skipLine] in closed form: the stream after the next newline, or [None]
    when the loop never ends.  ([skipLine_steps_iff] and
    [skipLine_never_returns] relate it to the loop.) *)
Fixpoint skipLine (c : ascii) (fd : stream) : option stream :=
  match fd with
  | [] => if Ascii.eqb c newline then Some [] else None
  | ch :: fd' => if Ascii.eqb ch newline then Some fd' else skipLine ch fd'
  end.

(** [ok = fscanf(fd, "%lf %lf", &x, &y)]: the value returned, [x] and [y]
    afterwards, and the stream.  End of file before the first conversion
    gives [EOF] (-1); a failure later gives the number of values stored. *)
Definition fscanf_lf_lf {libc : Libc} (fd : stream) (x y : double)
  : Z * double * double * stream :=
  match skip_space fd with
  | [] => (-1, x, y, [])
  | fd1 =>
      match scan_double fd1 with
      | (None, fd2) => (0, x, y, fd2)
      | (Some vx, fd2) =>
          match skip_space fd2 with
          | [] => (1, vx, y, [])
          | fd3 =>
              match scan_double fd3 with
              | (None, fd4) => (1, vx, y, fd4)
              | (Some vy, fd4) => (2, vx, vy, fd4)
              end
          end
      end
  end.

(** [strcmp]: the sign of the first difference, 0 for equal strings. *)
Definition strcmp (a b : string) : Z :=
  match String.compare a b with
  | Eq => 0
  | Lt => -1
  | Gt => 1
  end.

(** ** [atoi] *)

Definition is_digit (c : ascii) : bool :=
  let n := N_of_ascii c in (48 <=? n)%N && (n <=? 57)%N.

Definition digit_value (c : ascii) : Z := Z.of_N (N_of_ascii c) - 48.

Fixpoint atoi_digits (acc : Z) (s : string) : Z :=
  match s with
  | String c s' =>
      if is_digit c then atoi_digits (10 * acc + digit_value c) s' else acc
  | EmptyString => acc
  end.

Fixpoint skip_space_string (s : string) : string :=
  match s with
  | String c s' => if isspace c then skip_space_string s' else s
  | EmptyString => EmptyString
  end.

(** The value of an out-of-range text is undefined in C; this is glibc's:
    [(int) strtol(s, NULL, 10)], [strtol] saturating at the 64-bit [long]. *)
Definition atoi (s : string) : Z :=
  let v :=
    match skip_space_string s with
    | String "-" s' => - atoi_digits 0 s'
    | String "+" s' => atoi_digits 0 s'
    | s' => atoi_digits 0 s'
    end in
  let long := Z.max (- 2 ^ 63) (Z.min (2 ^ 63 - 1) v) in
  (long + 2 ^ 31) mod 2 ^ 32 - 2 ^ 31.

(** ** [printf] *)

Definition nl : string := String newline EmptyString.

(** [%i] *)
Definition format_i (n : Z) : string := NilZero.string_of_int (Z.to_int n).

Definition digit_char (d : Z) : ascii := ascii_of_N (Z.to_N (48 + d)).

(** The [n] low decimal digits of [v], most significant first. *)
Fixpoint fixed_digits (n : nat) (v : Z) : string :=
  match n with
  | O => EmptyString
  | S n' => fixed_digits n' (v / 10) ++ String (digit_char (v mod 10)) EmptyString
  end.

(** The integer nearest to [num / den], ties to the even one. *)
Definition round_half_even (num den : Z) : Z :=
  let q := num / den in
  match 2 * (num mod den) ?= den with
  | Lt => q
  | Gt => q + 1
  | Eq => if Z.even q then q else q + 1
  end.

(** [m * 2^e] in millionths, rounded. *)
Definition millionths (m : positive) (e : Z) : Z :=
  if 0 <=? e then Z.pos m * 2 ^ e * 10 ^ 6
  else round_half_even (Z.pos m * 10 ^ 6) (2 ^ (- e)).

Definition sign_string (s : bool) : string := if s then "-" else "".

(** [%f]: fixed notation with the default precision 6, correctly rounded
    as glibc does; [inf] and [nan] for the values that are no numbers, each
    after its sign: [negative_nan] is the sign bit of [a] if it is a NaN. *)
Definition format_f (negative_nan : bool) (a : double) : string :=
  match Prim2SF a with
  | S754_nan => sign_string negative_nan ++ "nan"
  | S754_infinity s => sign_string s ++ "inf"
  | S754_zero s => sign_string s ++ "0.000000"
  | S754_finite s m e =>
      let n := millionths m e in
      sign_string s ++ format_i (n / 10 ^ 6) ++ "." ++ fixed_digits 6 (n mod 10 ^ 6)
  end.

(** What the program does to [stdout]. *)
Inductive event : Set :=
  | Printf (text : string)
  | Fflush.

(** ** Results of the phases that may not complete *)

(** A phase completes with a value, never returns (the loop of [skipLine]
    at end of file), or indexes [samplePoints] outside the array. *)
Inductive result (A : Type) : Type :=
  | Ok (a : A)
  | Hang
  | OutOfBounds (t s : Z).

Arguments Ok {A} a.
Arguments Hang {A}.
Arguments OutOfBounds {A} t s.

Definition bind {A B : Type} (r : result A) (k : A -> result B) : result B :=
  match r with
  | Ok a => k a
  | Hang => Hang
  | OutOfBounds t s => OutOfBounds t s
  end.

Notation "x <- r ;; k" := (bind r (fun x => k))
  (at level 61, r at next level, right associativity).
Notation "' p <- r ;; k" := (bind r (fun p => k))
  (at level 61, p pattern, r at next level, right associativity).

(** [for (i = from; i < from + n; i++) body], [n] passes. *)
Fixpoint for_loop {St : Type} (n : nat) (i : Z) (body : Z -> St -> result St)
  (st : St) : result St :=
  match n with
  | O => Ok st
  | S n' => st' <- body i st;; for_loop n' (i + 1) body st'
  end.

(** The same with a body that may [break]: it returns [inl] to leave the
    loop and [inr] to go on. *)
Fixpoint for_loop_break {St : Type} (n : nat) (i : Z)
  (body : Z -> St -> result (St + St)) (st : St) : result St :=
  match n with
  | O => Ok st
  | S n' =>
      r <- body i st;;
      match r with
      | inl st' => Ok st'
      | inr st' => for_loop_break n' (i + 1) body st'
      end
  end.

(** ** The sample table *)

(** [Point samplePoints[MAXTABLES][MAXSAMPLES];] *)
Definition table := Z -> Z -> Point.

Definition in_bounds (t s : Z) : bool :=
  (0 <=? t) && (t <? MAXTABLES) && (0 <=? s) && (s <? MAXSAMPLES).

(** Static storage is zero-initialised. *)
Definition samplePoints_init : table :=
  fun _ _ => mkPoint 0.0%float 0.0%float.

Definition table_get (samplePoints : table) (t s : Z) : result Point :=
  if in_bounds t s then Ok (samplePoints t s) else OutOfBounds t s.

Definition table_set (samplePoints : table) (t s : Z) (p : Point)
  : result table :=
  if in_bounds t s
  then Ok (fun t' s' => if (t' =? t) && (s' =? s) then p else samplePoints t' s')
  else OutOfBounds t s.

(** [sumresults[t]] and [sumresults[t] = v] on the array that [main]
    allocates with [numSequences] cells. *)
Definition array_get (a : list double) (t : Z) : double :=
  nth (Z.to_nat t) a 0.0%float.

Fixpoint array_set_nat (a : list double) (t : nat) (v : double) : list double :=
  match a, t with
  | [], _ => []
  | _ :: a', O => v :: a'
  | d :: a', S t' => d :: array_set_nat a' t' v
  end.

Definition array_set (a : list double) (t : Z) (v : double) : list double :=
  array_set_nat a (Z.to_nat t) v.

(** ** The corpus reader *)

(** The values of the locals that are read before they are assigned: [c]
    of the call of [skipLine] number [line] after sequence [t] (the three
    calls on the header have [t = -1]), and [x] and [y] of [main]. *)
Record Indeterminate : Type := {
  indet_c : Z -> Z -> ascii;
  indet_x : double;
  indet_y : double
}.

(** The variables of [main] that the reading loops change. *)
Record reader_state : Type := mkReader {
  r_fd : stream;
  r_x : double;
  r_y : double;
  r_samplePoints : table
}.

Section Program.
Context {libc : Libc}.
Variable indet : Indeterminate.

(** [for (line = 0; line < n; line++) skipLine(fd);] *)
Definition skipLines (t : Z) (n : nat) (fd : stream) : result stream :=
  for_loop n 0
    (fun line fd =>
       match skipLine (indet_c indet t line) fd with
       | Some fd' => Ok fd'
       | None => Hang
       end) fd.

(** The body of [for (s = 0; s < numSamples; s++)] of the reader. *)
Definition read_sample (t s : Z) (st : reader_state)
  : result (reader_state + reader_state) :=
  let '(ok, x, y, fd) := fscanf_lf_lf (r_fd st) (r_x st) (r_y st) in
  if ok =? -1 then Ok (inl (mkReader fd x y (r_samplePoints st)))
    (* too few sample points? *)
  else
    samplePoints <- table_set (r_samplePoints st) t s (mkPoint x y);;
    Ok (inr (mkReader fd x y samplePoints)).

(** The body of [for (t = 0; t < numSequences; t++)] of the reader. *)
Definition read_sequence (numSamples : Z) (t : Z) (st : reader_state)
  : result reader_state :=
  st <- for_loop_break (Z.to_nat numSamples) 0 (read_sample t) st;;
  (* Skip newline and one-line comment (Sequence number) *)
  fd <- skipLines t 2 (r_fd st);;
  Ok (mkReader fd (r_x st) (r_y st) (r_samplePoints st)).

(** From [fopen] to the end of the reading loops. *)
Definition read_tables (numSamples numSequences : Z) (fd : stream)
  : result reader_state :=
  (* Skip comments on first 3 lines *)
  fd <- skipLines (-1) 3 fd;;
  for_loop (Z.to_nat numSequences) 0 (read_sequence numSamples)
    (mkReader fd (indet_x indet) (indet_y indet) samplePoints_init).

(** ** The convergence estimator and the reporter *)

(** [evaluateFunction]: evaluate function at sample point s from table t. *)
Definition evaluateFunction (samplePoints : table) (functionNum t s : Z)
  : result double :=
  sample <- table_get samplePoints t s;;
  Ok (applyFunction functionNum sample).

(** What one pass of the loop over the sample counts computes; the program
    prints [aveerror] at one count in four and never prints [maxerror]. *)
Record row : Set := mkRow {
  sampleCount : Z;
  aveerror : double;
  maxerror : double
}.

(** The variables of [main] that the estimating loops change, with the
    rows computed so far. *)
Record estimator_state : Type := mkEstimator {
  sumresults : list double;
  stdout : list event;
  rows : list row
}.

Section Estimator.
Variable samplePoints : table.
Variables functionNumber numSequences : Z.
Variable reference : double.
Local Open Scope double_scope.

(** The body of [for (t = 0; t < numSequences; t++)] of the estimator, on
    [sumresults], [sumerror] and [maxerror], and on the sign bit that
    [sumerror] has if it is a NaN ([error] comes out of [fabs]: its sign bit
    is clear). *)
Definition sequence_body (s t : Z) (st : list double * double * double * bool)
  : result (list double * double * double * bool) :=
  let '(sumresults, sumerror, maxerror, sumerror_sign) := st in
  result <- evaluateFunction samplePoints functionNumber t s;;
  let sumresults := array_set sumresults t (array_get sumresults t + result) in
  let estimate := array_get sumresults t / double_of_int (s + 1) in
  let error := fabs (estimate - reference) in
  let sumerror_sign := nan_sign sumerror sumerror_sign error false in
  let sumerror := sumerror + error in
  let maxerror := MAX error maxerror in
  Ok (sumresults, sumerror, maxerror, sumerror_sign).

(** [printf("%i %f\n", s+1, aveerror);] with the sign bit that [aveerror]
    has if it is a NaN. *)
Definition report_line (count : Z) (aveerror_sign : bool) (aveerror : double)
  : string :=
  (format_i count ++ " " ++ format_f aveerror_sign aveerror ++ nl)%string.

(** The body of [for (s = 0; s < numSamples; s++)]. *)
Definition sample_body (s : Z) (st : estimator_state) : result estimator_state :=
  '(sumresults, sumerror, maxerror, sumerror_sign) <-
    for_loop (Z.to_nat numSequences) 0 (sequence_body s)
      (sumresults st, 0.0%float, 0.0%float, false);;
  let aveerror_sign :=
    nan_sign sumerror sumerror_sign (double_of_int numSequences) false in
  let aveerror := sumerror / double_of_int numSequences in
  (* Print error for 4, 8, 12, 16, ... samples *)
  let stdout :=
    if Z.rem (s + 1) 4 =? 0
    then (stdout st
          ++ [Printf (report_line (s + 1) aveerror_sign aveerror); Fflush])%list
    else stdout st in
  Ok (mkEstimator sumresults stdout
        (rows st ++ [mkRow (s + 1) aveerror maxerror])%list).

(** From the allocation of [sumresults] to the end of the loop over the
    sample counts. *)
Definition estimate_errors (numSamples : Z) : result estimator_state :=
  for_loop (Z.to_nat numSamples) 0 sample_body
    (mkEstimator (repeat 0.0%float (Z.to_nat numSequences)) [] []).

End Estimator.

(** ** [main] *)

(** [functionTable[i]] *)
Definition functionTable_at (i : Z) : Functions :=
  nth (Z.to_nat i) functionTable (mkFunctions "" 0.0%float).

(** Find function name in table of known functions: the value of [i] after
    [for (i = 0; i < NUMFUNCTIONS; i++) { match = (strcmp(functionName,
    functionTable[i].name) == 0); if (match) break; }], from [i] on with
    [n] entries to go. *)
Fixpoint find_function_from (n : nat) (i : Z) (functionName : string) : Z :=
  match n with
  | O => i
  | S n' =>
      if strcmp functionName (name (functionTable_at i)) =? 0 then i
      else find_function_from n' (i + 1) functionName
  end.

Definition find_function (functionName : string) : Z :=
  find_function_from (Z.to_nat NUMFUNCTIONS) 0 functionName.

Definition usage : string :=
  ("Usage: funcsamp2D functionName samplesFilename [numSamples numSequences]"
   ++ nl)%string.

Definition unknown_function (functionName : string) : string :=
  ("Unknown function: '" ++ functionName ++ "'" ++ nl)%string.

Definition cannot_open (samplesFilename : string) : string :=
  ("cannot open file '" ++ samplesFilename ++ "'" ++ nl)%string.

(** How a run ends: the exit status with all that was printed, no end at
    all, or undefined behaviour at an index of [samplePoints]. *)
Inductive outcome : Set :=
  | Exited (status : Z) (out : list event)
  | NeverReturns
  | Undefined (t s : Z).

(** [main], on the files that [fopen] can open for reading and on [argv]
    (the program name first). *)
Definition main (fopen : string -> option stream) (argv : list string)
  : outcome :=
  let argc := Z.of_nat (List.length argv) in
  if (argc <? 3) || (argc >? 5) then Exited 1 [Printf usage]
  else
    let functionName := nth 1 argv EmptyString in
    let i := find_function functionName in
    if i =? NUMFUNCTIONS then Exited 1 [Printf (unknown_function functionName)]
    else
      let functionNumber := i in
      let reference := refValue (functionTable_at i) in
      let samplesFilename := nth 2 argv EmptyString in
      let numSamples := if argc >? 3 then atoi (nth 3 argv EmptyString) else 1024 in
      let numSequences := if argc >? 4 then atoi (nth 4 argv EmptyString) else 100 in
      (* Open file with tables of sample points *)
      match fopen samplesFilename with
      | None => Exited 1 [Printf (cannot_open samplesFilename)]
      | Some fd =>
          match
            (st <- read_tables numSamples numSequences fd;;
             estimate_errors (r_samplePoints st) functionNumber numSequences
               reference numSamples)
          with
          | Ok st => Exited 0 (stdout st)
          | Hang => NeverReturns
          | OutOfBounds t s => Undefined t s
          end
      end.

End Program.

(** ** A conversion for decimal texts *)

(** [scan_double] for the texts the sample generators write: an optional
    sign, decimal digits with an optional point, an optional decimal
    exponent; the value is the double nearest to the number written, ties
    to even.  (The other forms that [strtod] accepts, hexadecimal numbers,
    [inf] and [nan], are not read: only the runs on concrete files below
    use this instance, and their files hold decimal numbers.) *)

Fixpoint span_digits (fd : stream) : list ascii * stream :=
  match fd with
  | c :: fd' =>
      if is_digit c then let (ds, rest) := span_digits fd' in (c :: ds, rest)
      else ([], fd)
  | [] => ([], [])
  end.

Definition digits_value (ds : list ascii) : Z :=
  fold_left (fun acc c => 10 * acc + digit_value c) ds 0.

Definition scan_sign (fd : stream) : bool * stream :=
  match fd with
  | "-"%char :: fd' => (true, fd')
  | "+"%char :: fd' => (false, fd')
  | _ => (false, fd)
  end.

Definition scan_exponent (fd : stream) : Z * stream :=
  match fd with
  | c :: fd1 =>
      if Ascii.eqb c "e" || Ascii.eqb c "E" then
        let (neg, fd2) := scan_sign fd1 in
        match span_digits fd2 with
        | ([], _) => (0, fd)
        | (ds, fd3) => (if neg then - digits_value ds else digits_value ds, fd3)
        end
      else (0, fd)
  | [] => (0, fd)
  end.

(** The double nearest to [(-1)^neg * m * 10^p]. *)
Definition decimal_value (neg : bool) (m p : Z) : double :=
  match m with
  | Z.pos m' =>
      if 0 <=? p then
        SF2Prim (binary_normalize prec emax
                   (if neg then - (m * 10 ^ p) else m * 10 ^ p) 0 false)
      else
        SF2Prim (SFdiv prec emax (S754_finite neg m' 0)
                   (S754_finite false (Z.to_pos (10 ^ (- p))) 0))
  | _ => if neg then (-0.0)%float else 0.0%float
  end.

Definition decimal_scan (fd : stream) : option double * stream :=
  let (neg, fd1) := scan_sign fd in
  let (ip, fd2) := span_digits fd1 in
  let (fp, fd3) :=
    match fd2 with
    | "."%char :: fd' => span_digits fd'
    | _ => ([], fd2)
    end in
  match (ip ++ fp)%list with
  | [] => (None, fd)
  | ds =>
      let (ex, fd4) := scan_exponent fd3 in
      (Some (decimal_value neg (digits_value ds)
               (ex - Z.of_nat (List.length fp))), fd4)
  end.

(** The C library with this conversion, whatever [exp] and [sin] are. *)
Definition libc_decimal (exp sin : double -> double) : Libc :=
  {| exp := exp; sin := sin; scan_double := decimal_scan |}.

(** The text of a file, line by line, each line ended by a newline. *)
Fixpoint file_of_lines (lines : list string) : stream :=
  match lines with
  | [] => []
  | l :: lines' =>
      (list_ascii_of_string l ++ newline :: file_of_lines lines')%list
  end.

(** ** The estimator as the specification states it *)

(** The indices [from], [from + 1], ..., [n] of them. *)
Fixpoint Zseq (from : Z) (n : nat) : list Z :=
  match n with
  | O => []
  | S n' => from :: Zseq (from + 1) n'
  end.

Section Specification.
Context {libc : Libc}.
Variable Sequence : table.
Variable Integrand : Z.
Variable numSequences : Z.
Variable referenceValue : double.
Local Open Scope double_scope.

(** The running sum of sequence [t] once the samples 0..s are added. *)
Definition runningSum (t s : Z) : double :=
  fold_left (fun sum i => sum + applyFunction Integrand (Sequence t i))
    (Zseq 0 (Z.to_nat (s + 1)%Z)) 0.0%float.

(** estimate = runningSum / (s+1) *)
Definition estimate (t s : Z) : double :=
  runningSum t s / double_of_int (s + 1).

(** error = |estimate - referenceValue| *)
Definition error (t s : Z) : double :=
  fabs (estimate t s - referenceValue).

(** The per-sequence errors at sample index [s], sequence 0 first. *)
Definition errors (s : Z) : list double :=
  map (fun t => error t s) (Zseq 0 (Z.to_nat numSequences)).


(** averageError: the sum of the per-sequence errors over numSequences,
    their mean ([averageError_mean]). *)
Definition averageError (s : Z) : double :=
  fold_left PrimFloat.add (errors s) 0.0%float / double_of_int numSequences.

(** The sign bit that the sum of [l], taken from the left from [sum], has
    if it is a NaN, [sign] being the one of [sum]; the elements of [l] are
    values of [fabs]. *)
Fixpoint sum_nan_sign (l : list double) (sum : double) (sign : bool) : bool :=
  match l with
  | [] => sign
  | e :: l' => sum_nan_sign l' (sum + e) (nan_sign sum sign e false)
  end.

(** The sign bit that averageError has if it is a NaN. *)
Definition averageError_nan_sign (s : Z) : bool :=
  nan_sign (fold_left PrimFloat.add (errors s) 0.0%float)
    (sum_nan_sign (errors s) 0.0%float false)
    (double_of_int numSequences) false.


(** The maximum as the loop accumulates it, from 0. *)
Definition maxError (s : Z) : double :=
  fold_left (fun m e => MAX e m) (errors s) 0.0%float.

(** What the reporter prints for sample index [s]. *)
Definition report (s : Z) : list event :=
  if Z.rem (s + 1) 4 =? 0
  then [Printf (report_line (s + 1) (averageError_nan_sign s) (averageError s));
        Fflush]
  else [].

End Specification.

(** ** Orders and signs of doubles *)

Definition SFis_nan (x : spec_float) : bool :=
  match x with
  | S754_nan => true
  | _ => false
  end.

(** Zero with the sign bit clear, a positive number, plus infinity, or
    not a number: anything but a negative value or minus zero. *)
Definition SFnot_negative (x : spec_float) : bool :=
  match x with
  | S754_zero false | S754_infinity false | S754_finite false _ _ | S754_nan => true
  | _ => false
  end.

Definition not_negative (a : double) : bool := SFnot_negative (Prim2SF a).

(** A key whose lexicographic order is the order of the numbers. *)
Definition SFkey (x : spec_float) : Z * Z * Z :=
  match x with
  | S754_infinity true => (-2, 0, 0)
  | S754_finite true m e => (-1, - e, Z.neg m)
  | S754_zero _ => (0, 0, 0)
  | S754_nan => (0, 0, 0)
  | S754_finite false m e => (1, e, Z.pos m)
  | S754_infinity false => (2, 0, 0)
  end.

Definition key_lt (a b : Z * Z * Z) : Prop :=
  let '(a1, a2, a3) := a in
  let '(b1, b2, b3) := b in
  a1 < b1 \/ (a1 = b1 /\ (a2 < b2 \/ (a2 = b2 /\ a3 < b3))).

Definition key_le (a b : Z * Z * Z) : Prop :=
  let '(a1, a2, a3) := a in
  let '(b1, b2, b3) := b in
  a1 < b1 \/ (a1 = b1 /\ (a2 < b2 \/ (a2 = b2 /\ a3 <= b3))).

(** ** What is printed *)

(** The texts printed, in order. *)
Fixpoint printed (out : list event) : list string :=
  match out with
  | [] => []
  | Printf text :: out' => text :: printed out'
  | Fflush :: out' => printed out'
  end.

(** The line that [main] prints for the sample count [count], and its
    flush. *)
Definition checkpoint {libc : Libc} (samplePoints : table)
  (functionNumber numSequences : Z) (reference : double) (count : Z)
  : list event :=
  [Printf (format_i count ++ " "
           ++ format_f (averageError_nan_sign samplePoints functionNumber
                          numSequences reference (count - 1))
                (averageError samplePoints functionNumber numSequences
                   reference (count - 1))
           ++ nl)%string;
   Fflush].

(** The text [part] occurs in [text]. *)
Definition contains (text part : string) : Prop :=
  exists before after, text = (before ++ part ++ after)%string.

(** What follows the first point of a text. *)
Fixpoint after_point (s : string) : option string :=
  match s with
  | EmptyString => None
  | String c s' => if Ascii.eqb c "." then Some s' else after_point s'
  end.

(** The text has a point and exactly six characters after it, all digits. *)
Definition six_decimals (s : string) : bool :=
  match after_point s with
  | Some f =>
      (String.length f =? 6)%nat && forallb is_digit (list_ascii_of_string f)
  | None => false
  end.

(** A text with no point in it. *)
Fixpoint pointless (s : string) : bool :=
  match s with
  | EmptyString => true
  | String c s' => negb (Ascii.eqb c ".") && pointless s'
  end.

(** Zero or a number: neither an infinity nor [nan]. *)
Definition finite (a : double) : bool :=
  match Prim2SF a with
  | S754_zero _ | S754_finite _ _ _ => true
  | S754_infinity _ | S754_nan => false
  end.

(** ** The catalogue as the specification presents it *)

(** Each integrand: its name, its evaluation function on a sample point
    (x, y) and its reference value, in the order of [functionTable].  The
    six functions of one variable are bound to a coordinate as the
    [switch] of [evaluateFunction] binds them. *)
Definition catalog {libc : Libc}
  : list (string * (double -> double -> double) * double) :=
  [ ("quarterdisk", quarterdisk, 0.5%float);
    ("fulldisk", fulldisk, 0.5%float);
    ("triangle", triangle, 0.5%float);
    ("quarterdiskramp", quarterdiskramp, 0.505273%float);
    ("fulldiskramp", fulldiskramp, 0.505273%float);
    ("triangleramp", triangleramp, 0.5%float);
    ("quartergaussian", quartergaussian2D, 0.55774629%float);
    ("fullgaussian", fullgaussian2D, 0.851121%float);
    ("bilinear", bilinear, 0.25%float);
    ("biquadratic", biquadratic, (1.0%float / 9.0%float)%double);
    ("sinxy", sinxy, 0.0%float);
    ("sininvr", sininvr, (-0.220242)%float);
    ("stepx", fun x _ => step x, (1.0%float / M_PI)%double);
    ("rampx", fun x _ => ramp x, 0.3%float);
    ("lineary", fun _ y => linear y, 0.5%float);
    ("gaussianx", fun x _ => gaussian1D x, 0.74682413%float);
    ("siny", fun _ y => sinx y, (2.0%float / M_PI)%double);
    ("sin2x", fun x _ => sin2x x, 0.0%float) ]%string.

(** How [main] ends once the integrand is resolved: from the opening of
    the samples file on. *)
Definition run_resolved {libc : Libc} (indet : Indeterminate)
  (fopen : string -> option stream) (functionNumber : Z) (reference : double)
  (samplesFilename : string) (numSamples numSequences : Z) : outcome :=
  match fopen samplesFilename with
  | None => Exited 1 [Printf (cannot_open samplesFilename)]
  | Some fd =>
      match
        (st <- read_tables indet numSamples numSequences fd;;
         estimate_errors (r_samplePoints st) functionNumber numSequences
           reference numSamples)
      with
      | Ok st => Exited 0 (stdout st)
      | Hang => NeverReturns
      | OutOfBounds t s => Undefined t s
      end
  end.

(** ** How a phase ends, and the capacity of the sample table *)

(** The phase indexed [samplePoints] outside the array. *)
Definition is_OutOfBounds {A : Type} (r : result A) : bool :=
  match r with
  | OutOfBounds _ _ => true
  | _ => false
  end.

(** The phase never returns. *)
Definition is_Hang {A : Type} (r : result A) : bool :=
  match r with
  | Hang => true
  | _ => false
  end.

(** [numSamples <= MAXSAMPLES] and [numSequences <= MAXTABLES]. *)
Definition within_capacity (numSamples numSequences : Z) : bool :=
  (numSamples <=? MAXSAMPLES) && (numSequences <=? MAXTABLES).

(** A loop nest over no sample at all: one of its bounds is not positive. *)
Definition no_access (numSamples numSequences : Z) : bool :=
  (numSamples <=? 0) || (numSequences <=? 0).

(** ** Checks by computation *)

(** For the sample indices [s], ..., [s + k - 1] of a sequence that stays
    at the centroid (0.5, 0.5): the running sum of [bilinear], from [sum],
    divided by the sample count is 0.25. *)
Fixpoint centroid_estimates (k : nat) (s : Z) (sum : double) : bool :=
  match k with
  | O => true
  | S k' =>
      let sum := (sum + bilinear 0.5%float 0.5%float)%double in
      PrimFloat.Leibniz.eqb (sum / double_of_int (s + 1))%double 0.25%float
      && centroid_estimates k' (s + 1) sum
  end.

(** Zero divided by each of the counts [from], ..., [from + k - 1] is zero. *)
Definition zero_over_counts (from : Z) (k : nat) : bool :=
  forallb
    (fun n => PrimFloat.Leibniz.eqb (0%float / double_of_int n)%double 0%float)
    (Zseq from k).

(** ** Sample files and tables *)

(** A file system that holds one file. *)
Definition only_file (filename : string) (fd : stream) (path : string)
  : option stream :=
  if String.eqb path filename then Some fd else None.

(** Indeterminate values: [c] in every call of [skipLine], [x], [y]. *)
Definition indeterminate (c : ascii) (x y : double) : Indeterminate :=
  {| indet_c := fun _ _ => c; indet_x := x; indet_y := y |}.

(** The rows of the estimator on the table read from a file. *)
Definition rows_of_file {libc : Libc} (indet : Indeterminate) (fd : stream)
  (functionNumber numSamples numSequences : Z) : result (list row) :=
  st <- read_tables indet numSamples numSequences fd;;
  est <- estimate_errors (r_samplePoints st) functionNumber numSequences
           (refValue (functionTable_at functionNumber)) numSamples;;
  Ok (rows est).

(** One sequence of four samples, the corners of the unit square. *)
Definition four_corners : stream :=
  file_of_lines
    ["// Table of 1 sequence of 4 samples"; "// (the corners)";
     "// Sequence 0:";
     "0 0"; "1 0"; "0 1"; "1 1";
     "// end"]%string.

(** The table that holds the four corners as sequence 0. *)
Definition corner_table : table :=
  fun t s =>
    match t, s with
    | 0, 0 => mkPoint 0.0%float 0.0%float
    | 0, 1 => mkPoint 1.0%float 0.0%float
    | 0, 2 => mkPoint 0.0%float 1.0%float
    | 0, 3 => mkPoint 1.0%float 1.0%float
    | _, _ => mkPoint 0.0%float 0.0%float
    end.

(** Three sequences of four samples, all at (0.003, 0.003). *)
Definition three_alike : stream :=
  file_of_lines
    ["// Table of 3 sequences of 4 samples"; "// (all alike)";
     "// Sequence 0:";
     "0.003 0.003"; "0.003 0.003"; "0.003 0.003"; "0.003 0.003";
     "// Sequence 1:";
     "0.003 0.003"; "0.003 0.003"; "0.003 0.003"; "0.003 0.003";
     "// Sequence 2:";
     "0.003 0.003"; "0.003 0.003"; "0.003 0.003"; "0.003 0.003";
     "// end"]%string.

(** One sequence of four samples far outside the unit square. *)
Definition far_outside : stream :=
  file_of_lines
    ["// Table of 1 sequence of 4 samples"; "// (far outside the unit square)";
     "// Sequence 0:";
     "1e308 1e308"; "-1e308 1e308"; "0 0"; "0 0";
     "// end"]%string.

(** One sequence of four samples whose sum overflows. *)
Definition four_huge : stream :=
  file_of_lines
    ["// Table of 1 sequence of 4 samples"; "// (huge ordinates)";
     "// Sequence 0:";
     "0 1e308"; "0 1e308"; "0 1e308"; "0 1e308";
     "// end"]%string.

(** One sequence of 4097 samples, one more than a row of the table. *)
Definition one_too_many : stream :=
  file_of_lines
    (["// Table of 1 sequence of 4097 samples"%string;
      "// (all at the origin)"%string; "// Sequence 0:"%string]
     ++ repeat "0 0"%string (Z.to_nat (MAXSAMPLES + 1)) ++ ["// end"%string])%list.

(** A file declared to hold one sequence of 10 samples that ends after
    two pairs. *)
Definition two_pairs : stream :=
  file_of_lines
    ["// Table of 1 sequence of 10 samples"; "// (cut after two)";
     "// Sequence 0:";
     "0.9 0.9"; "0.9 0.9"]%string.

(** A file whose sequence 0 holds two pairs of the 10 declared and is
    followed by two more lines. *)
Definition short_sequence : stream :=
  file_of_lines
    ["// Table of 1 sequence of 10 samples"; "// (two only)";
     "// Sequence 0:";
     "0.1 0.1"; "0.1 0.1";
     "// Sequence 1:"; "// (none)"]%string.

(** The file [two_pairs] cut inside the line that follows the two pairs. *)
Definition cut_in_a_line : stream :=
  (two_pairs ++ list_ascii_of_string "// Sequence 1:")%list.

(** One sequence of four samples, all at the centroid of the unit square. *)
Definition four_centroids : stream :=
  file_of_lines
    ["// Table of 1 sequence of 4 samples"; "// (the centroid)";
     "// Sequence 0:";
     "0.5 0.5"; "0.5 0.5"; "0.5 0.5"; "0.5 0.5";
     "// end"]%string.

(** ** Proof automation *)

(** The cases of a comparison of two finite numbers of the same sign. *)
Ltac key_cases :=
  rewrite Pos.compare_cont_spec; cbn;
  match goal with
  | |- context [Pos.compare ?m ?n] => destruct (Pos.compare_spec m n)
  end;
  match goal with
  | |- context [Z.compare ?a ?b] => destruct (Z.compare_spec a b)
  end; cbn;
  (split; [try discriminate; intros; lia | intros; try reflexivity; exfalso; lia]).

(** The 256 cases of a character. *)
Ltac ascii_cases c :=
  destruct c as [[|] [|] [|] [|] [|] [|] [|] [|]].

(** ** Tables that agree on a block *)

(** The table [inside] on the sequences below [numSequences] and the
    samples below [numSamples], the table [outside] everywhere else. *)
Definition overlay (numSamples numSequences : Z) (inside outside : table)
  : table :=
  fun t s =>
    if (0 <=? t) && (t <? numSequences) && (0 <=? s) && (s <? numSamples)
    then inside t s else outside t s.

(** ** The sign of a double *)

(** The number is NaN, or its sign bit is [s]. *)
Definition SFsign_is (s : bool) (x : spec_float) : bool :=
  match x with
  | S754_nan => true
  | S754_zero sx | S754_infinity sx | S754_finite sx _ _ => Bool.eqb sx s
  end.

(** ** The parts of the decimal conversion *)

(** The digits after the point, as [decimal_scan] reads them. *)
Definition scan_fraction (fd : stream) : list ascii * stream :=
  match fd with
  | "."%char :: fd' => span_digits fd'
  | _ => ([], fd)
  end.

(** ** The samples file as the head of the source describes it *)

(** A text with no newline in it. *)
Definition one_line (text : string) : bool :=
  forallb (fun ch => negb (Ascii.eqb ch newline)) (list_ascii_of_string text).

(** A text that the decimal conversion reads in full, and its value. *)
Definition number_text (text : string) : bool :=
  match decimal_scan (list_ascii_of_string text) with
  | (Some _, []) => true
  | _ => false
  end.

Definition number_value (text : string) : double :=
  match fst (decimal_scan (list_ascii_of_string text)) with
  | Some v => v
  | None => 0.0%float
  end.

(** A sample is written as the texts of x and y with a space between
    them, on a line of its own. *)
Definition sample_line (p : string * string) : string :=
  (fst p ++ " " ++ snd p)%string.

Definition sample_point (p : string * string) : Point :=
  mkPoint (number_value (fst p)) (number_value (snd p)).

(** A sequence in the file: its samples, one per line, and the line that
    follows them (the comment that numbers the next sequence). *)
Definition sequence_lines (sq : list (string * string) * string) : list string :=
  (map sample_line (fst sq) ++ [snd sq])%list.

(** Three lines of header (the last one numbers sequence 0), then the
    sequences. *)
Definition corpus_file (h1 h2 h3 : string)
  (seqs : list (list (string * string) * string)) : stream :=
  file_of_lines ([h1; h2; h3] ++ flat_map sequence_lines seqs).

(** A sequence of [numSamples] samples, all numbers, followed by one line. *)
Definition well_formed (numSamples : Z) (sq : list (string * string) * string)
  : bool :=
  (Z.of_nat (List.length (fst sq)) =? numSamples)
  && forallb (fun p => number_text (fst p) && number_text (snd p)) (fst sq)
  && one_line (snd sq).

(** The table that the file describes: sample [s] of sequence [t], and
    zero where the file has none. *)
Definition corpus_table (seqs : list (list (string * string) * string)) : table :=
  fun t s =>
    if (0 <=? t) && (0 <=? s) then
      match nth_error seqs (Z.to_nat t) with
      | Some sq =>
          match nth_error (fst sq) (Z.to_nat s) with
          | Some p => sample_point p
          | None => mkPoint 0.0%float 0.0%float
          end
      | None => mkPoint 0.0%float 0.0%float
      end
    else mkPoint 0.0%float 0.0%float.

(** A character with which no text that [strtod] converts starts: not
    white space, a digit, a sign or a point, and not the first letter of
    [inf] or [nan]. *)
Definition starts_no_number (c : ascii) : bool :=
  negb (isspace c || is_digit c
        || existsb (Ascii.eqb c) (list_ascii_of_string "+-.iInN")).

(** A text that starts with such a character (a comment does). *)
Definition no_number (text : string) : bool :=
  match list_ascii_of_string text with
  | [] => false
  | c :: _ => starts_no_number c
  end.

(** A well-formed file of one sequence of four samples (it is
    [four_corners]). *)
Definition corner_sequences : list (list (string * string) * string) :=
  [([("0", "0"); ("1", "0"); ("0", "1"); ("1", "1")], "// end")]%string.

(** ** A file that ends inside a sequence *)




(** ** Files whose lines are all ended *)




(** ** Counting with doubles *)

(** The number of the samples 0, ..., s of sequence [t] at which the
    integrand is 1. *)
Definition hits {libc : Libc} (samplePoints : table) (functionNumber t s : Z) : Z :=
  Z.of_nat
    (List.length
       (filter
          (fun i =>
             PrimFloat.Leibniz.eqb
               (applyFunction functionNumber (samplePoints t i)) 1.0%float)
          (Zseq 0 (Z.to_nat (s + 1))))).

(** Adding 1.0 or 0.0 to each of the counts [from], ..., [from + k - 1]
    as a double is exact. *)
Definition counts_exactly (from : Z) (k : nat) : bool :=
  forallb
    (fun n =>
       PrimFloat.Leibniz.eqb (double_of_int n + 1.0%float)%double
         (double_of_int (n + 1))
       && PrimFloat.Leibniz.eqb (double_of_int n + 0.0%float)%double
            (double_of_int n))
    (Zseq from k).

(** The quotient of the count [h] by the count [n] is from 0 to 1, and
    its distance to each of the [references] is at most the greater of
    the distances of 0 and of 1 to that reference. *)
Definition quotient_bounded (references : list double) (h n : double) : bool :=
  let q := (h / n)%double in
  (0%float <= q)%double && (q <= 1%float)%double
  && forallb
       (fun reference =>
          (fabs (q - reference) <= MAX reference (fabs (1%float - reference)))%double)
       references.

(** The same for the [k] counts [h], [h + 1], ... *)
Fixpoint quotients_bounded_from (references : list double) (k : nat)
  (h n : double) : bool :=
  match k with
  | O => true
  | S k' =>
      quotient_bounded references h n
      && quotients_bounded_from references k' (h + 1%float)%double n
  end.

(** The same for the [k] counts [n], [n + 1], ... and, for each of them,
    the counts from 0 to it; [count] is [n] as a natural number. *)
Fixpoint quotients_bounded (references : list double) (k count : nat)
  (n : double) : bool :=
  match k with
  | O => true
  | S k' =>
      quotients_bounded_from references (S count) 0%float n
      && quotients_bounded references k' (S count) (n + 1%float)%double
  end.

(** ** Tables made from a table *)

(** The table with the coordinates of every sample exchanged. *)
Definition exchanged (samplePoints : table) : table :=
  fun t s => mkPoint (Point_y (samplePoints t s)) (Point_x (samplePoints t s)).

(** The table [samplePoints] with every y replaced by [y], and with
    every x replaced by [x]. *)
Definition with_y (y : double) (samplePoints : table) : table :=
  fun t s => mkPoint (Point_x (samplePoints t s)) y.

Definition with_x (x : double) (samplePoints : table) : table :=
  fun t s => mkPoint x (Point_y (samplePoints t s)).

(* ================================================================= *)
(** * Properties *)

(** ** The models of the C library on examples *)

(** [M_PI] is the double 0x400921FB54442D18. *)
Example M_PI_bits : Prim2SF M_PI = S754_finite false 0x1921FB54442D18 (-51).
Proof. reflexivity. Qed.

(** The decimal conversion gives the doubles that the compiler gives for
    the same texts as literals. *)
Example decimal_scan_literals :
  map (fun text => decimal_scan (list_ascii_of_string text))
    ["0.505273"; "-0.220242"; "3.14159265358979323846"; "1e308"; "1e309";
     "4.9e-324"; "0.003 0.003"; "// Sequence 0:"]%string
  = [(Some 0.505273, []); (Some (-0.220242), []); (Some M_PI, []);
     (Some 1e308, []); (Some infinity, []); (Some 4.9e-324, []);
     (Some 0.003, list_ascii_of_string " 0.003");
     (None, list_ascii_of_string "// Sequence 0:")]%float.
Proof. vm_compute. reflexivity. Qed.

Example fscanf_lf_lf_examples :
  forall exp sin x y,
  map (fun text =>
         fscanf_lf_lf (libc := libc_decimal exp sin) (list_ascii_of_string text) x y)
    ["0.25 0.75 rest"; "0.25"; "0.25 rest"; "rest"; "   "; ""]%string
  = [(2, 0.25%float, 0.75%float, list_ascii_of_string " rest");
     (1, 0.25%float, y, []);
     (1, 0.25%float, y, list_ascii_of_string "rest");
     (0, x, y, list_ascii_of_string "rest");
     (-1, x, y, []);
     (-1, x, y, [])].
Proof. intros exp sin x y. vm_compute. reflexivity. Qed.

Example format_f_examples :
  map (format_f false)
    [0.25; 0.003; 0.49700000000000005; 123456.7890125; -0.0;
     1e22; infinity; neg_infinity; nan]%float
  = ["0.250000"; "0.003000"; "0.497000"; "123456.789012"; "-0.000000";
     "10000000000000000000000.000000"; "inf"; "-inf"; "nan"]%string /\
  map (format_f true) [0.25; -0.0; infinity; nan]%float
  = ["0.250000"; "-0.000000"; "inf"; "-nan"]%string.
Proof. vm_compute. split; reflexivity. Qed.

Example atoi_examples :
  map atoi ["1024"; "100"; " 42abc"; "-3"; "abc"; ""]%string
  = [1024; 100; 42; -3; 0; 0].
Proof. vm_compute. reflexivity. Qed.

(** [skipLine] leaves the stream after the first newline, whatever [c]
    held. *)
Lemma skipLine_line (c : ascii) (line : string) (rest : stream) :
  forallb (fun ch => negb (Ascii.eqb ch newline)) (list_ascii_of_string line)
  = true ->
  skipLine c (list_ascii_of_string line ++ newline :: rest) = Some rest.
Proof.
  revert c. induction line as [|ch line IH]; intros c H; cbn in *.
  - reflexivity.
  - apply andb_prop in H. destruct H as [Hch Hline].
    destruct (Ascii.eqb ch newline); [discriminate | apply IH, Hline].
Qed.

(** ** [skipLine]: the closed form and the loop *)

Lemma skipLine_steps_sound :
  forall fuel c fd r,
  skipLine_steps fuel (c, fd) = Some r -> skipLine c fd = Some r.
Proof.
  induction fuel as [|fuel IH]; intros c fd r H; [discriminate|].
  cbn [skipLine_steps] in H. unfold skipLine_body in H. cbn [fst snd] in H.
  destruct fd as [|ch fd']; cbn [fscanf_c skipLine] in *.
  - destruct (Ascii.eqb c newline) eqn:E.
    + exact H.
    + apply IH in H. cbn [skipLine] in H. rewrite E in H. discriminate.
  - destruct (Ascii.eqb ch newline); [exact H | apply IH, H].
Qed.

Lemma skipLine_steps_complete :
  forall fd c r,
  skipLine c fd = Some r ->
  skipLine_steps (S (List.length fd)) (c, fd) = Some r.
Proof.
  induction fd as [|ch fd' IH]; intros c r H; cbn [skipLine] in H.
  - cbn. unfold skipLine_body. cbn.
    destruct (Ascii.eqb c newline); [exact H | discriminate].
  - cbn [List.length skipLine_steps]. unfold skipLine_body.
    cbn [fst snd fscanf_c].
    destruct (Ascii.eqb ch newline); [exact H | apply IH, H].
Qed.

(** [skipLine] returns a stream exactly when the loop leaves with it
    after some number of passes. *)
Lemma skipLine_steps_iff :
  forall c fd r,
  skipLine c fd = Some r <-> exists fuel, skipLine_steps fuel (c, fd) = Some r.
Proof.
  intros c fd r. split.
  - intros H. exists (S (List.length fd)). apply skipLine_steps_complete, H.
  - intros [fuel H]. eapply skipLine_steps_sound, H.
Qed.

(** When [skipLine] is [None] no number of passes ends the loop. *)
Lemma skipLine_never_returns :
  forall c fd,
  skipLine c fd = None -> forall fuel, skipLine_steps fuel (c, fd) = None.
Proof.
  intros c fd H fuel.
  destruct (skipLine_steps fuel (c, fd)) as [r|] eqn:E; [|reflexivity].
  apply skipLine_steps_sound in E. congruence.
Qed.

(** ** Order and sign of doubles through their specification *)

Lemma is_nan_spec (a : double) : PrimFloat.is_nan a = SFis_nan (Prim2SF a).
Proof.
  unfold PrimFloat.is_nan. rewrite FloatAxioms.eqb_spec.
  destruct (Prim2SF a) as [s|s| |s m e]; try destruct s; cbn; try reflexivity;
    unfold SFeqb; cbn; rewrite Z.compare_refl, Pos.compare_cont_refl; reflexivity.
Qed.

Lemma SFltb_key x y :
  SFis_nan x = false -> SFis_nan y = false ->
  (SFltb x y = true <-> key_lt (SFkey x) (SFkey y)).
Proof.
  intros Hx Hy.
  destruct x as [sx|sx| |sx mx ex], y as [sy|sy| |sy my ey]; try discriminate;
    unfold SFltb, SFcompare, SFkey, key_lt;
    try destruct sx; try destruct sy; cbn;
    try (split; [intros; lia | intros; (reflexivity || (exfalso; lia))]);
    try (split; [discriminate | intros; exfalso; lia]);
    key_cases.
Qed.

Lemma SFleb_key x y :
  SFis_nan x = false -> SFis_nan y = false ->
  (SFleb x y = true <-> key_le (SFkey x) (SFkey y)).
Proof.
  intros Hx Hy.
  destruct x as [sx|sx| |sx mx ex], y as [sy|sy| |sy my ey]; try discriminate;
    unfold SFleb, SFcompare, SFkey, key_le;
    try destruct sx; try destruct sy; cbn;
    try (split; [intros; lia | intros; (reflexivity || (exfalso; lia))]);
    try (split; [discriminate | intros; exfalso; lia]);
    key_cases.
Qed.

Lemma SFltb_not_nan x y : SFltb x y = true -> SFis_nan x = false /\ SFis_nan y = false.
Proof.
  unfold SFltb, SFcompare.
  destruct x as [sx|sx| |sx mx ex], y as [sy|sy| |sy my ey]; cbn;
    try discriminate; auto.
Qed.

Lemma SFleb_not_nan x y : SFleb x y = true -> SFis_nan x = false /\ SFis_nan y = false.
Proof.
  unfold SFleb, SFcompare.
  destruct x as [sx|sx| |sx mx ex], y as [sy|sy| |sy my ey]; cbn;
    try discriminate; auto.
Qed.

(** A number is at most itself. *)
Lemma double_le_refl (a : double) :
  PrimFloat.is_nan a = false -> (a <= a)%double = true.
Proof.
  rewrite is_nan_spec, FloatAxioms.leb_spec. intros Ha.
  apply SFleb_key; auto.
  unfold key_le. destruct (SFkey (Prim2SF a)) as [[a1 a2] a3]. lia.
Qed.

(** [a <= b < c] gives [a <= c]. *)
Lemma double_le_lt_trans (a b c : double) :
  (a <= b)%double = true -> (b < c)%double = true -> (a <= c)%double = true.
Proof.
  rewrite !FloatAxioms.leb_spec, FloatAxioms.ltb_spec. intros Hab Hbc.
  destruct (SFleb_not_nan _ _ Hab) as [Ha Hb].
  destruct (SFltb_not_nan _ _ Hbc) as [_ Hc].
  apply SFleb_key in Hab; auto. apply SFltb_key in Hbc; auto.
  apply SFleb_key; auto.
  unfold key_le, key_lt in *.
  destruct (SFkey (Prim2SF a)) as [[a1 a2] a3].
  destruct (SFkey (Prim2SF b)) as [[b1 b2] b3].
  destruct (SFkey (Prim2SF c)) as [[c1 c2] c3]. lia.
Qed.

(** Of two numbers, the one that is not below the other is at least it. *)
Lemma double_not_lt_le (a b : double) :
  PrimFloat.is_nan a = false -> PrimFloat.is_nan b = false ->
  (a < b)%double = false -> (b <= a)%double = true.
Proof.
  rewrite !is_nan_spec, FloatAxioms.leb_spec, FloatAxioms.ltb_spec.
  intros Ha Hb Hlt.
  apply SFleb_key; auto.
  destruct (SFltb (Prim2SF a) (Prim2SF b)) eqn:E; [discriminate|].
  assert (~ key_lt (SFkey (Prim2SF a)) (SFkey (Prim2SF b))) as Hn.
  { intros Hk. apply SFltb_key in Hk; auto. congruence. }
  unfold key_le, key_lt in *.
  destruct (SFkey (Prim2SF a)) as [[a1 a2] a3].
  destruct (SFkey (Prim2SF b)) as [[b1 b2] b3]. lia.
Qed.

Lemma double_lt_not_nan (a b : double) :
  (a < b)%double = true ->
  PrimFloat.is_nan a = false /\ PrimFloat.is_nan b = false.
Proof.
  rewrite !is_nan_spec, FloatAxioms.ltb_spec. apply SFltb_not_nan.
Qed.

Lemma binary_round_aux_not_negative mx ex lx :
  SFnot_negative (binary_round_aux prec emax false mx ex lx) = true.
Proof.
  unfold binary_round_aux.
  destruct (shr_fexp prec emax mx ex lx) as [mrs' e'].
  destruct (shr_fexp prec emax _ e' loc_Exact) as [mrs'' e''].
  destruct (shr_m mrs''); try reflexivity.
  destruct (e'' <=? emax - prec); reflexivity.
Qed.

Lemma binary_normalize_not_negative m e :
  0 <= m -> SFnot_negative (binary_normalize prec emax m e false) = true.
Proof.
  intros Hm. destruct m as [|p|p]; [reflexivity| |lia].
  unfold binary_normalize, binary_round.
  destruct (shl_align p e _) as [mz ez]. apply binary_round_aux_not_negative.
Qed.

Lemma SFadd_not_negative x y :
  SFnot_negative x = true -> SFnot_negative y = true ->
  SFnot_negative (SFadd prec emax x y) = true.
Proof.
  intros Hx Hy.
  destruct x as [sx|sx| |sx mx ex]; try destruct sx; try discriminate;
  destruct y as [sy|sy| |sy my ey]; try destruct sy; try discriminate;
    try reflexivity.
  unfold SFadd. apply binary_normalize_not_negative. cbn. lia.
Qed.

Lemma SFdiv_not_negative x y :
  SFnot_negative x = true -> SFnot_negative y = true ->
  SFnot_negative (SFdiv prec emax x y) = true.
Proof.
  intros Hx Hy.
  destruct x as [sx|sx| |sx mx ex]; try destruct sx; try discriminate;
  destruct y as [sy|sy| |sy my ey]; try destruct sy; try discriminate;
    try reflexivity.
  unfold SFdiv.
  destruct (SFdiv_core_binary prec emax (Z.pos mx) ex (Z.pos my) ey)
    as [[mz ez] lz].
  apply binary_round_aux_not_negative.
Qed.

Lemma fabs_not_negative a : not_negative (fabs a) = true.
Proof.
  unfold not_negative, fabs. rewrite abs_spec.
  destruct (Prim2SF a) as [s|s| |s m e]; reflexivity.
Qed.

Lemma add_not_negative a b :
  not_negative a = true -> not_negative b = true ->
  not_negative (a + b)%double = true.
Proof.
  unfold not_negative. rewrite FloatAxioms.add_spec. apply SFadd_not_negative.
Qed.

Lemma div_not_negative a b :
  not_negative a = true -> not_negative b = true ->
  not_negative (a / b)%double = true.
Proof.
  unfold not_negative. rewrite FloatAxioms.div_spec. apply SFdiv_not_negative.
Qed.

Lemma double_of_int_not_negative n :
  0 <= n -> not_negative (double_of_int n) = true.
Proof.
  intros Hn. unfold double_of_int, not_negative.
  destruct (n <? 0) eqn:E; [apply Z.ltb_lt in E; lia|].
  rewrite of_uint63_spec. apply binary_normalize_not_negative.
  apply Uint63.to_Z_bounded.
Qed.

(** What is not negative and is a number is at least zero. *)
Lemma not_negative_ge_0 a :
  not_negative a = true -> PrimFloat.is_nan a = false ->
  (0%float <= a)%double = true.
Proof.
  unfold not_negative. rewrite is_nan_spec, FloatAxioms.leb_spec.
  change (Prim2SF 0%float) with (S754_zero false).
  destruct (Prim2SF a) as [s|s| |s m e]; try destruct s;
    try discriminate; reflexivity.
Qed.

(** Zero over anything is a zero or not a number. *)
Lemma zero_div_sign (b : double) :
  (0%float / b < 0%float)%double = false /\
  (PrimFloat.is_nan (0%float / b)%double = false ->
   (0%float <= 0%float / b)%double = true).
Proof.
  rewrite is_nan_spec, FloatAxioms.ltb_spec, FloatAxioms.leb_spec,
    FloatAxioms.div_spec.
  change (Prim2SF 0%float) with (S754_zero false).
  destruct (Prim2SF b) as [s|s| |s m e]; cbn; split;
    try reflexivity; try discriminate.
Qed.

Lemma not_negative_lt_0 a :
  not_negative a = true -> (a < 0%float)%double = false.
Proof.
  unfold not_negative. rewrite FloatAxioms.ltb_spec.
  change (Prim2SF 0%float) with (S754_zero false).
  destruct (Prim2SF a) as [s|s| |s m e]; try destruct s;
    try discriminate; reflexivity.
Qed.

(** ** Loops and arrays *)

Lemma Zseq_length from n : List.length (Zseq from n) = n.
Proof. revert from. induction n as [|n IH]; intros from; cbn; [reflexivity | now rewrite IH]. Qed.

Lemma Zseq_app from n m :
  Zseq from (n + m) = (Zseq from n ++ Zseq (from + Z.of_nat n) m)%list.
Proof.
  revert from. induction n as [|n IH]; intros from.
  - cbn. now rewrite Z.add_0_r.
  - cbn [Nat.add Zseq app]. rewrite IH. do 3 f_equal. lia.
Qed.

Lemma Zseq_snoc from n :
  Zseq from (S n) = (Zseq from n ++ [from + Z.of_nat n])%list.
Proof. replace (S n) with (n + 1)%nat by lia. now rewrite Zseq_app. Qed.

Lemma In_Zseq i from n : In i (Zseq from n) <-> from <= i < from + Z.of_nat n.
Proof.
  revert from. induction n as [|n IH]; intros from; cbn [Zseq In].
  - lia.
  - rewrite IH. lia.
Qed.

Lemma nth_error_Zseq from n k :
  (k < n)%nat -> nth_error (Zseq from n) k = Some (from + Z.of_nat k).
Proof.
  revert from k. induction n as [|n IH]; intros from k Hk; [lia|].
  destruct k as [|k]; cbn.
  - f_equal. lia.
  - rewrite IH by lia. f_equal. lia.
Qed.

Lemma for_loop_app {St : Type} (a b : nat) (i : Z) (body : Z -> St -> result St) (st : St) :
  for_loop (a + b) i body st =
  bind (for_loop a i body st) (for_loop b (i + Z.of_nat a) body).
Proof.
  revert i st. induction a as [|a IH]; intros i st.
  - cbn. now rewrite Z.add_0_r.
  - cbn [Nat.add for_loop]. destruct (body i st) as [st'| |t s]; cbn [bind]; try reflexivity.
    rewrite IH. do 2 f_equal. lia.
Qed.

Lemma array_get_middle (done : list double) (v : double) (rest : list double) :
  array_get (done ++ v :: rest) (Z.of_nat (List.length done)) = v.
Proof.
  unfold array_get. rewrite Nat2Z.id. induction done as [|d done IH]; cbn; auto.
Qed.

Lemma array_set_middle (done : list double) (v w : double) (rest : list double) :
  array_set (done ++ v :: rest) (Z.of_nat (List.length done)) w = (done ++ w :: rest)%list.
Proof.
  unfold array_set. rewrite Nat2Z.id. induction done as [|d done IH]; cbn; [reflexivity|].
  now rewrite IH.
Qed.

Section EstimatorProperties.
Context {libc : Libc}.
Variable samplePoints : table.
Variables functionNumber numSequences : Z.
Variable reference : double.

Local Abbreviation value t s := (applyFunction functionNumber (samplePoints t s)).
Local Abbreviation error_of s v :=
  (fabs (PrimFloat.sub (PrimFloat.div v (double_of_int (s + 1))) reference)).

(** One pass of the loop over the sequences [t0 .. t0 + k - 1]: the cells
    already visited and those beyond are kept, each visited cell gets the
    value of its sequence at [s] added, and the errors are summed and
    maximised in the order of the sequences. *)
Lemma sequence_loop_spec s :
  forall k (done : list double) (g : Z -> double) (rest : list double)
    (sumerror maxerror : double) (sign : bool),
  (forall t, Z.of_nat (List.length done) <= t < Z.of_nat (List.length done) + Z.of_nat k ->
             in_bounds t s = true) ->
  for_loop k (Z.of_nat (List.length done))
    (sequence_body samplePoints functionNumber reference s)
    (done ++ map g (Zseq (Z.of_nat (List.length done)) k) ++ rest, sumerror, maxerror, sign)%list
  = Ok (A := list double * double * double * bool)
       ((done ++ map (fun t => g t + value t s)%double (Zseq (Z.of_nat (List.length done)) k) ++ rest)%list,
        fold_left PrimFloat.add
          (map (fun t => error_of s (g t + value t s)%double) (Zseq (Z.of_nat (List.length done)) k))
          sumerror,
        fold_left (fun m e => MAX e m)
          (map (fun t => error_of s (g t + value t s)%double) (Zseq (Z.of_nat (List.length done)) k))
          maxerror,
        sum_nan_sign
          (map (fun t => error_of s (g t + value t s)%double) (Zseq (Z.of_nat (List.length done)) k))
          sumerror sign).
Proof.
  induction k as [|k IH]; intros done g rest sumerror maxerror sign Hb.
  - reflexivity.
  - cbn [for_loop Zseq map app fold_left sum_nan_sign].
    unfold sequence_body at 1. unfold evaluateFunction, table_get.
    rewrite Hb by lia. cbn [bind].
    rewrite array_get_middle, array_set_middle, array_get_middle.
    specialize (IH (done ++ [g (Z.of_nat (List.length done)) + value (Z.of_nat (List.length done)) s]%double)%list g rest).
    rewrite length_app in IH. cbn [List.length] in IH.
    replace (Z.of_nat (List.length done + 1)) with (Z.of_nat (List.length done) + 1) in IH by lia.
    rewrite <- !app_assoc in IH. cbn [app] in IH.
    rewrite IH.
    + reflexivity.
    + intros t Ht. apply Hb. lia.
Qed.

Lemma runningSum_step t s :
  0 <= s ->
  runningSum samplePoints functionNumber t s =
  (runningSum samplePoints functionNumber t (s - 1) + value t s)%double.
Proof.
  intros Hs. unfold runningSum.
  replace (Z.to_nat (s + 1)) with (S (Z.to_nat s)) by lia.
  rewrite Zseq_snoc, fold_left_app. cbn [fold_left].
  replace (s - 1 + 1) with s by lia.
  replace (0 + Z.of_nat (Z.to_nat s)) with s by lia. reflexivity.
Qed.



(** One pass of the loop over the sample counts. *)
Lemma sample_body_spec s st :
  0 <= s ->
  (forall t, 0 <= t < numSequences -> in_bounds t s = true) ->
  sumresults st = map (fun t => runningSum samplePoints functionNumber t (s - 1)) (Zseq 0 (Z.to_nat numSequences)) ->
  sample_body samplePoints functionNumber numSequences reference s st =
  Ok (mkEstimator
        (map (fun t => runningSum samplePoints functionNumber t s) (Zseq 0 (Z.to_nat numSequences)))
        (stdout st ++ report samplePoints functionNumber numSequences reference s)
        (rows st ++ [mkRow (s + 1)
                       (averageError samplePoints functionNumber numSequences reference s)
                       (maxError samplePoints functionNumber numSequences reference s)])).
Proof.
  intros Hs Hb Hsum. unfold sample_body. rewrite Hsum.
  pose proof (sequence_loop_spec s (Z.to_nat numSequences) []
                (fun t => runningSum samplePoints functionNumber t (s - 1)) []
                0%float 0%float false) as H.
  cbn [List.length app Z.of_nat] in H. rewrite !app_nil_r in H.
  rewrite H by (intros t Ht; apply Hb; lia). clear H. cbn [bind].
  assert (map (fun t => error_of s (runningSum samplePoints functionNumber t (s - 1) + value t s)%double)
              (Zseq 0 (Z.to_nat numSequences))
          = errors samplePoints functionNumber numSequences reference s) as He.
  { unfold errors. apply map_ext. intros t. unfold error, estimate.
    now rewrite (runningSum_step t s Hs). }
  rewrite He.
  assert (map (fun t => (runningSum samplePoints functionNumber t (s - 1) + value t s)%double)
              (Zseq 0 (Z.to_nat numSequences))
          = map (fun t => runningSum samplePoints functionNumber t s) (Zseq 0 (Z.to_nat numSequences))) as Hr.
  { apply map_ext. intros t. now rewrite (runningSum_step t s Hs). }
  rewrite Hr.
  unfold report, averageError, averageError_nan_sign, maxError.
  f_equal. f_equal. destruct (Z.rem (s + 1) 4 =? 0); [reflexivity | now rewrite app_nil_r].
Qed.

End EstimatorProperties.

Section EstimatorRuns.
Context {libc : Libc}.
Variable samplePoints : table.
Variables functionNumber numSequences : Z.
Variable reference : double.

Local Abbreviation running s :=
  (map (fun t => runningSum samplePoints functionNumber t s)
     (Zseq 0 (Z.to_nat numSequences))).
Local Abbreviation row_of s :=
  (mkRow (s + 1)
     (averageError samplePoints functionNumber numSequences reference s)
     (maxError samplePoints functionNumber numSequences reference s)).
Local Abbreviation report_of :=
  (report samplePoints functionNumber numSequences reference).

(** The loop over the sample counts [s0 .. s0 + k - 1]. *)
Lemma samples_loop_spec :
  forall k s0 st,
  0 <= s0 ->
  (forall t s, 0 <= t < numSequences -> s0 <= s < s0 + Z.of_nat k ->
               in_bounds t s = true) ->
  sumresults st = running (s0 - 1) ->
  for_loop k s0 (sample_body samplePoints functionNumber numSequences reference) st
  = Ok (mkEstimator (running (s0 + Z.of_nat k - 1))
          (stdout st ++ flat_map report_of (Zseq s0 k))
          (rows st ++ map (fun s => row_of s) (Zseq s0 k))).
Proof.
  induction k as [|k IH]; intros s0 st Hs Hb Hsum.
  - cbn. rewrite !app_nil_r, Z.add_0_r, <- Hsum. now destruct st.
  - cbn [for_loop Zseq flat_map map].
    rewrite sample_body_spec; auto; [|intros t Ht; apply Hb; lia].
    cbn [bind]. rewrite IH; cbn [sumresults stdout rows]; try lia.
    + rewrite <- !app_assoc. cbn [app].
      replace (s0 + 1 + Z.of_nat k - 1) with (s0 + Z.of_nat (S k) - 1) by lia.
      reflexivity.
    + intros t s Ht Hs'. apply Hb; lia.
    + replace (s0 + 1 - 1) with s0 by lia. reflexivity.
Qed.

Lemma in_bounds_within t s :
  0 <= t < MAXTABLES -> 0 <= s < MAXSAMPLES -> in_bounds t s = true.
Proof.
  intros Ht Hs. unfold in_bounds.
  repeat (apply andb_true_intro; split); lia.
Qed.

Lemma running_initial :
  repeat 0%float (Z.to_nat numSequences) = running (-1).
Proof.
  generalize (Z.to_nat numSequences) as n. generalize 0 as from.
  intros from n. revert from. induction n as [|n IH]; intros from.
  - reflexivity.
  - cbn [repeat Zseq map]. now rewrite <- IH.
Qed.

(** When the loops stay inside [samplePoints] (the declared counts are
    within its capacity, or one of them is not positive) the estimator
    completes, with the running sums, the rows and the output of the
    specification. *)
Lemma estimate_errors_spec numSamples :
  within_capacity numSamples numSequences || no_access numSamples numSequences
  = true ->
  estimate_errors samplePoints functionNumber numSequences reference numSamples
  = Ok (mkEstimator (running (numSamples - 1))
          (flat_map report_of (Zseq 0 (Z.to_nat numSamples)))
          (map (fun s => row_of s) (Zseq 0 (Z.to_nat numSamples)))).
Proof.
  intros H. unfold estimate_errors.
  rewrite samples_loop_spec; cbn [sumresults stdout rows app]; try lia.
  - replace (0 + Z.of_nat (Z.to_nat numSamples) - 1)
      with (Z.of_nat (Z.to_nat numSamples) - 1) by lia.
    f_equal. f_equal. apply map_ext. intros t. unfold runningSum.
    do 2 f_equal. lia.
  - intros t s Ht Hs. unfold within_capacity, no_access in H.
    apply in_bounds_within; lia.
  - apply running_initial.
Qed.

End EstimatorRuns.

Lemma within_capacity_intro numSamples numSequences :
  numSamples <= MAXSAMPLES -> numSequences <= MAXTABLES ->
  within_capacity numSamples numSequences || no_access numSamples numSequences
  = true.
Proof.
  intros HN Hn. unfold within_capacity.
  apply orb_true_intro. left. apply andb_true_intro. split; lia.
Qed.

(** ** The accumulated maximum and sum *)

Lemma double_le_trans (a b c : double) :
  (a <= b)%double = true -> (b <= c)%double = true -> (a <= c)%double = true.
Proof.
  rewrite !FloatAxioms.leb_spec. intros Hab Hbc.
  destruct (SFleb_not_nan _ _ Hab) as [Ha Hb].
  destruct (SFleb_not_nan _ _ Hbc) as [_ Hc].
  apply SFleb_key in Hab; auto. apply SFleb_key in Hbc; auto.
  apply SFleb_key; auto.
  unfold key_le in *.
  destruct (SFkey (Prim2SF a)) as [[a1 a2] a3].
  destruct (SFkey (Prim2SF b)) as [[b1 b2] b3].
  destruct (SFkey (Prim2SF c)) as [[c1 c2] c3]. lia.
Qed.


(** The maximum accumulated from [m0] is a number, at least [m0], at
    least every number of the list, and is [m0] or in the list. *)
Lemma fold_MAX_spec (l : list double) :
  forall m0,
  PrimFloat.is_nan m0 = false ->
  PrimFloat.is_nan (fold_left (fun m e => MAX e m) l m0) = false /\
  (m0 <= fold_left (fun m e => MAX e m) l m0)%double = true /\
  (forall e, In e l -> PrimFloat.is_nan e = false ->
             (e <= fold_left (fun m e => MAX e m) l m0)%double = true) /\
  (fold_left (fun m e => MAX e m) l m0 = m0 \/
   In (fold_left (fun m e => MAX e m) l m0) l).
Proof.
  induction l as [|e l IH]; intros m0 H0; cbn [fold_left].
  - repeat split; auto using double_le_refl; intros e [].
  - change (MAX e m0) with (if (m0 < e)%double then e else m0).
    destruct (m0 < e)%double eqn:Hlt.
    + destruct (double_lt_not_nan _ _ Hlt) as [_ He].
      destruct (IH e He) as (Hm & Hle & Hall & Hin).
      split; [exact Hm|]. split; [|split].
      * apply double_le_trans with e; [|exact Hle].
        apply double_le_lt_trans with m0; [apply double_le_refl, H0 | exact Hlt].
      * intros e' [<-|He'] Hn; [exact Hle | apply Hall; assumption].
      * right. destruct Hin as [->|Hin]; [now left | now right].
    + destruct (IH m0 H0) as (Hm & Hle & Hall & Hin).
      split; [exact Hm|]. split; [exact Hle|split].
      * intros e' [<-|He'] Hn; [|apply Hall; assumption].
        apply double_le_trans with m0; [|exact Hle].
        apply double_not_lt_le; assumption.
      * destruct Hin as [->|Hin]; [now left | right; now right].
Qed.

Lemma fold_add_not_negative (l : list double) :
  forall a,
  not_negative a = true ->
  (forall e, In e l -> not_negative e = true) ->
  not_negative (fold_left PrimFloat.add l a) = true.
Proof.
  induction l as [|e l IH]; intros a Ha Hl; cbn [fold_left]; [exact Ha|].
  apply IH.
  - apply add_not_negative; [exact Ha | apply Hl; now left].
  - intros e' He'. apply Hl. now right.
Qed.

Section ErrorProperties.
Context {libc : Libc}.
Variable samplePoints : table.
Variables functionNumber numSequences : Z.
Variable reference : double.

Local Abbreviation errors_at s :=
  (errors samplePoints functionNumber numSequences reference s).

Lemma errors_not_negative s e : In e (errors_at s) -> not_negative e = true.
Proof.
  unfold errors. rewrite in_map_iff. intros (t & <- & _).
  apply fabs_not_negative.
Qed.

(** The average error is never negative: it is not below zero, and it is
    at least zero when it is a number. *)
Lemma averageError_sign s :
  (averageError samplePoints functionNumber numSequences reference s < 0%float)%double
    = false /\
  (PrimFloat.is_nan
     (averageError samplePoints functionNumber numSequences reference s) = false ->
   (0%float <= averageError samplePoints functionNumber numSequences reference s)%double
     = true).
Proof.
  destruct (Z.le_gt_cases 0 numSequences) as [Hn|Hn].
  - assert (not_negative
              (averageError samplePoints functionNumber numSequences reference s)
            = true) as H.
    { unfold averageError. apply div_not_negative.
      - apply fold_add_not_negative; [reflexivity | apply errors_not_negative].
      - apply double_of_int_not_negative, Hn. }
    split; [apply not_negative_lt_0, H | apply not_negative_ge_0, H].
  - unfold averageError, errors.
    replace (Z.to_nat numSequences) with O by lia. cbn [Zseq map fold_left].
    apply zero_div_sign.
Qed.

(** The maximum error is a number, at least zero and at least every
    per-sequence error that is a number. *)
Lemma maxError_bounds s :
  PrimFloat.is_nan (maxError samplePoints functionNumber numSequences reference s)
    = false /\
  (0%float <= maxError samplePoints functionNumber numSequences reference s)%double
    = true /\
  forall e, In e (errors_at s) -> PrimFloat.is_nan e = false ->
    (e <= maxError samplePoints functionNumber numSequences reference s)%double
    = true.
Proof.
  destruct (fold_MAX_spec (errors_at s) 0%float eq_refl) as (Hm & H0 & Hall & _).
  unfold maxError. auto.
Qed.


End ErrorProperties.

(** ** C1: what the estimator computes *)



(** ** C7: the signs of the errors and their maximum *)

(** C7 as stated fails.  With three sequences alike under [lineary] the
    average of the three errors exceeds their maximum by one rounding
    step; on samples far outside the unit square under [bilinear] the
    running sum is infinity minus infinity and the average error is not a
    number, so it is not at least zero. *)
Lemma average_error_above_maximum :
  (forall exp sin indet,
     exists r1 r2 r3,
       rows_of_file (libc := libc_decimal exp sin) indet three_alike 14 4 3
       = Ok [r1; r2; r3; mkRow 4 0.49700000000000005%float 0.497%float] /\
       (0.49700000000000005%float <= 0.497%float)%double = false) /\
  (forall exp sin indet,
     exists r1 r2 r3,
       rows_of_file (libc := libc_decimal exp sin) indet far_outside 8 4 1
       = Ok [r1; r2; r3; mkRow 4 nan 0%float] /\
       (0%float <= nan)%double = false).
Proof.
  split; intros exp sin indet.
  - do 3 eexists. split; [vm_compute; reflexivity | reflexivity].
  - do 3 eexists. split; [vm_compute; reflexivity | reflexivity].
Qed.

(** C7, amended.  Within the capacity of the sample table the estimator
    completes, and in each of its rows the average error is never
    negative (it is at least zero unless it is not a number), the maximum
    error is at least zero, and every per-sequence error that is a number
    is at most the maximum error. *)
Theorem errors_signs_and_maximum :
  forall (libc : Libc) (samplePoints : table) (functionNumber numSequences : Z)
    (reference : double) (numSamples : Z),
  numSamples <= MAXSAMPLES -> numSequences <= MAXTABLES ->
  exists st,
    estimate_errors samplePoints functionNumber numSequences reference numSamples
    = Ok st /\
    List.length (rows st) = Z.to_nat numSamples /\
    forall r, In r (rows st) ->
      (aveerror r < 0%float)%double = false /\
      (PrimFloat.is_nan (aveerror r) = false ->
       (0%float <= aveerror r)%double = true) /\
      (0%float <= maxerror r)%double = true /\
      (forall e,
         In e (errors samplePoints functionNumber numSequences reference
                 (sampleCount r - 1)) ->
         PrimFloat.is_nan e = false -> (e <= maxerror r)%double = true).
Proof.
  intros libc samplePoints functionNumber numSequences reference numSamples HN Hn.
  eexists. split; [apply estimate_errors_spec, within_capacity_intro; assumption|].
  cbn [rows]. split; [now rewrite length_map, Zseq_length|].
  intros r Hr. apply in_map_iff in Hr. destruct Hr as (s & <- & _).
  cbn [aveerror maxerror sampleCount].
  replace (s + 1 - 1) with s by lia.
  destruct (averageError_sign samplePoints functionNumber numSequences
              reference s) as (Hlt & Hge).
  destruct (maxError_bounds samplePoints functionNumber numSequences reference s)
    as (_ & Hmax & Hall).
  split; [exact Hlt|]. split; [exact Hge|].
  split; [exact Hmax | exact Hall].
Qed.

Lemma errors_signs_and_maximum_witness :
  4 <= MAXSAMPLES /\ 3 <= MAXTABLES /\
  forall libc : Libc,
  exists st,
    estimate_errors samplePoints_init 14 3 0.5%float 4 = Ok st /\
    List.length (rows st) = Z.to_nat 4 /\
    forall r, In r (rows st) ->
      (aveerror r < 0%float)%double = false /\
      (PrimFloat.is_nan (aveerror r) = false ->
       (0%float <= aveerror r)%double = true) /\
      (0%float <= maxerror r)%double = true /\
      (forall e,
         In e (errors samplePoints_init 14 3 0.5%float (sampleCount r - 1)) ->
         PrimFloat.is_nan e = false -> (e <= maxerror r)%double = true).
Proof.
  split; [unfold MAXSAMPLES; lia|].
  split; [unfold MAXTABLES; lia|].
  intros libc.
  apply (errors_signs_and_maximum libc samplePoints_init 14 3 0.5%float 4);
    [unfold MAXSAMPLES | unfold MAXTABLES]; lia.
Defined.

(** ** The shape of what [%f] prints *)

Lemma string_app_assoc (a b c : string) :
  ((a ++ b) ++ c = a ++ (b ++ c))%string.
Proof. induction a as [|ch a IH]; cbn; [reflexivity | now rewrite IH]. Qed.

Lemma string_length_app (a b : string) :
  String.length (a ++ b) = (String.length a + String.length b)%nat.
Proof. induction a as [|ch a IH]; cbn; [reflexivity | now rewrite IH]. Qed.

Lemma list_ascii_of_string_app (a b : string) :
  list_ascii_of_string (a ++ b)
  = (list_ascii_of_string a ++ list_ascii_of_string b)%list.
Proof. induction a as [|ch a IH]; cbn; [reflexivity | now rewrite IH]. Qed.

Lemma after_point_app (a b : string) :
  pointless a = true -> after_point (a ++ "." ++ b) = Some b.
Proof.
  induction a as [|ch a IH]; cbn; [reflexivity|].
  intros H. apply andb_prop in H. destruct H as [Hc Ha].
  destruct (Ascii.eqb ch "."); [discriminate | apply IH, Ha].
Qed.

Lemma pointless_app (a b : string) :
  pointless a = true -> pointless b = true -> pointless (a ++ b) = true.
Proof.
  induction a as [|ch a IH]; cbn; [auto|].
  intros H Hb. apply andb_prop in H. destruct H as [Hc Ha].
  rewrite Hc. cbn. auto.
Qed.

Lemma pointless_uint (d : Decimal.uint) :
  pointless (NilEmpty.string_of_uint d) = true.
Proof. induction d; cbn; auto. Qed.

Lemma pointless_format_i (n : Z) : pointless (format_i n) = true.
Proof.
  unfold format_i, NilZero.string_of_int, NilZero.string_of_uint.
  destruct (Z.to_int n) as [d|d]; destruct d; cbn; auto using pointless_uint.
Qed.

Lemma is_digit_digit_char (d : Z) : 0 <= d < 10 -> is_digit (digit_char d) = true.
Proof.
  intros Hd. unfold is_digit, digit_char.
  rewrite N_ascii_embedding by lia.
  apply andb_true_intro. split; apply N.leb_le; lia.
Qed.

Lemma fixed_digits_length (n : nat) (v : Z) :
  String.length (fixed_digits n v) = n.
Proof.
  revert v. induction n as [|n IH]; intros v; cbn; [reflexivity|].
  rewrite string_length_app, IH. cbn. lia.
Qed.

Lemma fixed_digits_digits (n : nat) (v : Z) :
  forallb is_digit (list_ascii_of_string (fixed_digits n v)) = true.
Proof.
  revert v. induction n as [|n IH]; intros v; cbn; [reflexivity|].
  rewrite list_ascii_of_string_app, forallb_app, IH. cbn.
  rewrite is_digit_digit_char; [reflexivity|].
  apply Z.mod_pos_bound. lia.
Qed.

(** [%f] prints six decimals exactly for the doubles that are numbers. *)
Lemma six_decimals_format_f (negative_nan : bool) (a : double) :
  six_decimals (format_f negative_nan a) = finite a.
Proof.
  unfold format_f, finite.
  destruct (Prim2SF a) as [s|s| |s m e].
  - destruct s; reflexivity.
  - destruct s; reflexivity.
  - destruct negative_nan; reflexivity.
  - unfold six_decimals.
    rewrite <- string_app_assoc, after_point_app.
    + rewrite fixed_digits_length, fixed_digits_digits. reflexivity.
    + apply pointless_app; [destruct s; reflexivity | apply pointless_format_i].
Qed.

(** ** The sign of the NaN that is printed *)

Lemma shr_1_not_negative (mrs : shr_record) :
  0 <= shr_m mrs -> 0 <= shr_m (shr_1 mrs).
Proof.
  destruct mrs as [m r s]. destruct m as [|[p|p|]|p]; cbn; lia.
Qed.

Lemma iter_shr_1_not_negative (p : positive) :
  forall mrs, 0 <= shr_m mrs -> 0 <= shr_m (iter_pos shr_1 p mrs).
Proof.
  induction p as [p IH|p IH|]; intros mrs H; cbn [iter_pos].
  - apply IH, IH, shr_1_not_negative, H.
  - apply IH, IH, H.
  - apply shr_1_not_negative, H.
Qed.

Lemma shr_fexp_not_negative (m e : Z) (l : location) :
  0 <= m -> 0 <= shr_m (fst (shr_fexp prec emax m e l)).
Proof.
  intros Hm. unfold shr_fexp, shr.
  assert (0 <= shr_m (shr_record_of_loc m l)) as H
    by (destruct l as [|[| |]]; exact Hm).
  destruct (fexp prec emax (Zdigits2 m + e) - e) as [|p|p]; cbn [fst];
    [exact H | apply iter_shr_1_not_negative, H | exact H].
Qed.

Lemma round_nearest_even_not_negative (m : Z) (l : location) :
  0 <= m -> 0 <= round_nearest_even m l.
Proof.
  intros Hm. destruct l as [|[| |]]; cbn; try lia.
  destruct (IntDef.Z.even m); lia.
Qed.

(** Rounding a mantissa that is not negative never gives a NaN. *)
Lemma binary_round_aux_number (sx : bool) (mx ex : Z) (lx : location) :
  0 <= mx -> SFis_nan (binary_round_aux prec emax sx mx ex lx) = false.
Proof.
  intros Hm. unfold binary_round_aux.
  pose proof (shr_fexp_not_negative mx ex lx Hm) as H1.
  destruct (shr_fexp prec emax mx ex lx) as [mrs' e']. cbn [fst] in H1.
  pose proof (shr_fexp_not_negative
                (round_nearest_even (shr_m mrs') (loc_of_shr_record mrs')) e'
                loc_Exact (round_nearest_even_not_negative _ _ H1)) as H2.
  destruct (shr_fexp prec emax _ e' loc_Exact) as [mrs'' e'']. cbn [fst] in H2.
  destruct (shr_m mrs'') as [|m|m]; [reflexivity | | lia].
  destruct (e'' <=? emax - prec); reflexivity.
Qed.

Lemma binary_normalize_number (m e : Z) (szero : bool) :
  SFis_nan (binary_normalize prec emax m e szero) = false.
Proof.
  destruct m as [|p|p]; [reflexivity| |];
    unfold binary_normalize, binary_round;
    destruct (shl_align p e _) as [mz ez]; apply binary_round_aux_number; lia.
Qed.

(** The sum of two numbers is a NaN only for two infinities of opposite
    signs: never when neither is negative. *)
Lemma SFadd_number (x y : spec_float) :
  SFnot_negative x = true -> SFnot_negative y = true ->
  SFis_nan x = false -> SFis_nan y = false ->
  SFis_nan (SFadd prec emax x y) = false.
Proof.
  destruct x as [sx|sx| |sx mx ex], y as [sy|sy| |sy my ey];
    try destruct sx; try destruct sy; cbn [SFnot_negative SFis_nan];
    try discriminate; intros _ _ _ _; try reflexivity.
  unfold SFadd. apply binary_normalize_number.
Qed.

Lemma add_number (a b : double) :
  not_negative a = true -> not_negative b = true ->
  PrimFloat.is_nan a = false -> PrimFloat.is_nan b = false ->
  PrimFloat.is_nan (a + b)%double = false.
Proof.
  unfold not_negative. rewrite !is_nan_spec, FloatAxioms.add_spec.
  apply SFadd_number.
Qed.

Lemma double_of_int_number (n : Z) : PrimFloat.is_nan (double_of_int n) = false.
Proof.
  rewrite is_nan_spec. unfold double_of_int.
  destruct (n <? 0); rewrite ?opp_spec, of_uint63_spec.
  - pose proof (binary_normalize_number
                  (Uint63.to_Z (Uint63.of_Z (- n))) 0 false) as H.
    destruct (binary_normalize prec emax _ 0 false); cbn in *; congruence.
  - apply binary_normalize_number.
Qed.

(** A sum of values that are not negative is a NaN only with the NaN of
    one of them: its sign bit is clear, as theirs is. *)
Lemma sum_nan_sign_clear (l : list double) :
  forall (sum : double) (sign : bool),
  not_negative sum = true ->
  (PrimFloat.is_nan sum = true -> sign = false) ->
  (forall e, In e l -> not_negative e = true) ->
  PrimFloat.is_nan (fold_left PrimFloat.add l sum) = true ->
  sum_nan_sign l sum sign = false.
Proof.
  induction l as [|e l IH]; intros sum sign Hsum Hsign Hl Hnan;
    cbn [fold_left sum_nan_sign] in *; [auto|].
  apply IH.
  - apply add_not_negative; [exact Hsum | apply Hl; now left].
  - intros Hn. unfold nan_sign.
    destruct (PrimFloat.is_nan sum) eqn:E1; [auto|].
    destruct (PrimFloat.is_nan e) eqn:E2; [reflexivity|].
    rewrite add_number in Hn;
      [discriminate | exact Hsum | apply Hl; now left | exact E1 | exact E2].
  - intros e' He'. apply Hl. now right.
  - exact Hnan.
Qed.

(** The NaN of an average error has its sign bit set exactly when the
    division makes it, the sum of the errors being a number: it is printed
    as [-nan] then, and as [nan] when a per-sequence error is a NaN. *)
Lemma averageError_nan_sign_spec {libc : Libc} (samplePoints : table)
  (functionNumber numSequences : Z) (reference : double) (s : Z) :
  averageError_nan_sign samplePoints functionNumber numSequences reference s
  = negb (PrimFloat.is_nan
            (fold_left PrimFloat.add
               (errors samplePoints functionNumber numSequences reference s)
               0%float)).
Proof.
  unfold averageError_nan_sign, nan_sign.
  rewrite double_of_int_number.
  destruct (PrimFloat.is_nan (fold_left PrimFloat.add _ 0%float)) eqn:E;
    [|reflexivity].
  apply sum_nan_sign_clear;
    [reflexivity | reflexivity | intros e; apply errors_not_negative | exact E].
Qed.

(** Both signs on runs of [main]: the NaN of a running sum that goes from
    plus infinity to minus infinity reaches [printf] through [fabs], and the
    NaN of 0.0 / 0 comes from the division. *)
Example nan_printed_with_its_sign :
  forall exp sin indet,
  main (libc := libc_decimal exp sin) indet (only_file "far.data" far_outside)
    ["funcsamp2D"; "bilinear"; "far.data"; "4"; "1"]%string
  = Exited 0 [Printf ("4 nan" ++ nl)%string; Fflush] /\
  main (libc := libc_decimal exp sin) indet (only_file "far.data" far_outside)
    ["funcsamp2D"; "bilinear"; "far.data"; "4"; "0"]%string
  = Exited 0 [Printf ("4 -nan" ++ nl)%string; Fflush].
Proof. intros exp sin indet. split; vm_compute; reflexivity. Qed.

(** ** C2: the report *)

Section Report.
Context {libc : Libc}.
Variable samplePoints : table.
Variables functionNumber numSequences : Z.
Variable reference : double.

Local Abbreviation report_of :=
  (report samplePoints functionNumber numSequences reference).
Local Abbreviation checkpoint_of :=
  (checkpoint samplePoints functionNumber numSequences reference).

Lemma report_checkpoint s :
  0 <= s -> (s + 1) mod 4 = 0 -> report_of s = checkpoint_of (s + 1).
Proof.
  intros Hs Hm. unfold report, checkpoint, report_line.
  rewrite Z.rem_mod_nonneg, Hm by lia. cbn [Z.eqb].
  replace (s + 1 - 1) with s by lia. reflexivity.
Qed.

Lemma report_nothing s :
  0 <= s -> (s + 1) mod 4 <> 0 -> report_of s = [].
Proof.
  intros Hs Hm. unfold report. rewrite Z.rem_mod_nonneg by lia.
  destruct ((s + 1) mod 4 =? 0) eqn:E; [apply Z.eqb_eq in E; contradiction|].
  reflexivity.
Qed.

(** Four sample counts in a row from a multiple of four give one line. *)
Lemma report_four j :
  0 <= j ->
  flat_map report_of (Zseq (4 * j) 4) = checkpoint_of (4 * (j + 1)).
Proof.
  intros Hj. cbn [Zseq flat_map].
  rewrite !report_nothing by (try lia; Z.div_mod_to_equations; lia).
  rewrite report_checkpoint by (try lia; Z.div_mod_to_equations; lia).
  cbn [app]. rewrite app_nil_r. f_equal. lia.
Qed.

Lemma report_fours q :
  flat_map report_of (Zseq 0 (4 * q))
  = flat_map (fun k => checkpoint_of (4 * k)) (Zseq 1 q).
Proof.
  induction q as [|q IH]; [reflexivity|].
  replace (4 * S q)%nat with (4 * q + 4)%nat by lia.
  rewrite Zseq_app, (Zseq_snoc 1 q), !flat_map_app, IH. f_equal.
  replace (0 + Z.of_nat (4 * q)) with (4 * Z.of_nat q) by lia.
  rewrite report_four by lia. cbn [flat_map]. rewrite app_nil_r.
  f_equal. lia.
Qed.

Lemma report_rest q r :
  (r < 4)%nat -> flat_map report_of (Zseq (4 * Z.of_nat q) r) = [].
Proof.
  intros Hr.
  destruct r as [|[|[|[|r]]]]; [| | | |lia]; cbn [Zseq flat_map];
    rewrite ?report_nothing by (try lia; Z.div_mod_to_equations; lia);
    reflexivity.
Qed.

(** The output of the whole loop: one line and one flush for each
    multiple of four up to [numSamples], in ascending order. *)
Lemma report_all numSamples :
  flat_map report_of (Zseq 0 (Z.to_nat numSamples))
  = flat_map (fun k => checkpoint_of (4 * k)) (Zseq 1 (Z.to_nat (numSamples / 4))).
Proof.
  destruct (Z.le_gt_cases 0 numSamples) as [Hn|Hn].
  - replace (Z.to_nat numSamples)
      with (4 * Z.to_nat (numSamples / 4) + Z.to_nat (numSamples mod 4))%nat
      by (Z.div_mod_to_equations; lia).
    rewrite Zseq_app, flat_map_app, report_fours.
    replace (0 + Z.of_nat (4 * Z.to_nat (numSamples / 4)))
      with (4 * Z.of_nat (Z.to_nat (numSamples / 4))) by lia.
    rewrite report_rest by (Z.div_mod_to_equations; lia).
    now rewrite app_nil_r.
  - replace (Z.to_nat numSamples) with O by lia.
    replace (Z.to_nat (numSamples / 4)) with O
      by (Z.div_mod_to_equations; lia).
    reflexivity.
Qed.

End Report.

Lemma printed_checkpoints {libc : Libc} samplePoints functionNumber
  numSequences reference (counts : list Z) :
  List.length
    (printed (flat_map (fun k => checkpoint samplePoints functionNumber
                                   numSequences reference (4 * k)) counts))
  = List.length counts.
Proof.
  induction counts as [|k counts IH]; [reflexivity|].
  cbn [flat_map checkpoint app printed List.length]. now rewrite IH.
Qed.

(** C2 as stated fails: on a sequence whose running sum overflows the
    one line printed is [4 inf], with no decimal point in it. *)
Lemma report_line_without_decimals :
  (forall exp sin indet,
     main (libc := libc_decimal exp sin) indet
       (only_file "huge.data" four_huge)
       ["funcsamp2D"; "lineary"; "huge.data"; "4"; "1"]%string
     = Exited 0 [Printf ("4 inf" ++ nl)%string; Fflush]) /\
  (forall negative_nan, format_f negative_nan infinity = "inf"%string) /\
  after_point ("4 inf" ++ nl)%string = None /\
  (forall negative_nan, six_decimals (format_f negative_nan infinity) = false).
Proof.
  split; [intros exp sin indet; vm_compute; reflexivity|].
  repeat split; reflexivity.
Qed.

(** C2, amended.  Within the capacity of the sample table the estimator
    completes and its output is, for each multiple of four up to
    numSamples in ascending order, one line followed by one flush; the
    line holds the sample count, a space, and the average error printed
    with [%f], which has exactly six digits after the decimal point
    exactly when the average error is a number (not an infinity, not
    NaN; a NaN is printed as [nan] or [-nan], by its sign bit).  For
    numSamples = 1024 that is 256 lines, for the counts 4 * k with
    k = 1, ..., 256. *)
Theorem report_every_fourth_count :
  forall (libc : Libc) (samplePoints : table) (functionNumber numSequences : Z)
    (reference : double) (numSamples : Z),
  numSamples <= MAXSAMPLES -> numSequences <= MAXTABLES ->
  exists st,
    estimate_errors samplePoints functionNumber numSequences reference numSamples
    = Ok st /\
    stdout st
    = flat_map
        (fun k =>
           [Printf (format_i (4 * k) ++ " "
                    ++ format_f
                         (averageError_nan_sign samplePoints functionNumber
                            numSequences reference (4 * k - 1))
                         (averageError samplePoints functionNumber
                            numSequences reference (4 * k - 1))
                    ++ nl)%string;
            Fflush])
        (Zseq 1 (Z.to_nat (numSamples / 4))) /\
    (forall (negative_nan : bool) (a : double),
       six_decimals (format_f negative_nan a) = finite a) /\
    (numSamples = 1024 ->
     List.length (printed (stdout st)) = 256%nat /\
     Z.to_nat (numSamples / 4) = 256%nat).
Proof.
  intros libc samplePoints functionNumber numSequences reference numSamples HN Hn.
  eexists. split; [apply estimate_errors_spec, within_capacity_intro; assumption|].
  cbn [stdout]. rewrite report_all.
  split; [reflexivity|]. split; [apply six_decimals_format_f|].
  intros ->. split; [|reflexivity].
  now rewrite (printed_checkpoints samplePoints functionNumber numSequences reference).
Qed.

Lemma report_every_fourth_count_witness :
  1024 <= MAXSAMPLES /\ 3 <= MAXTABLES /\
  forall libc : Libc,
  exists st,
    estimate_errors samplePoints_init 14 3 0.5%float 1024 = Ok st /\
    stdout st
    = flat_map
        (fun k =>
           [Printf (format_i (4 * k) ++ " "
                    ++ format_f
                         (averageError_nan_sign samplePoints_init 14 3
                            0.5%float (4 * k - 1))
                         (averageError samplePoints_init 14 3 0.5%float
                            (4 * k - 1))
                    ++ nl)%string;
            Fflush])
        (Zseq 1 (Z.to_nat (1024 / 4))) /\
    (forall (negative_nan : bool) (a : double),
       six_decimals (format_f negative_nan a) = finite a) /\
    (1024 = 1024 ->
     List.length (printed (stdout st)) = 256%nat /\
     Z.to_nat (1024 / 4) = 256%nat).
Proof.
  split; [unfold MAXSAMPLES; lia|].
  split; [unfold MAXTABLES; lia|].
  intros libc.
  apply (report_every_fourth_count libc samplePoints_init 14 3 0.5%float 1024);
    [unfold MAXSAMPLES | unfold MAXTABLES]; lia.
Defined.

(** ** C8: a corpus at the centroid under [bilinear] *)

Lemma fold_left_ext_in {A B : Type} (f g : A -> B -> A) (l : list B) :
  (forall a b, In b l -> f a b = g a b) ->
  forall a, fold_left f l a = fold_left g l a.
Proof.
  induction l as [|b l IH]; intros H a; [reflexivity|].
  cbn [fold_left]. rewrite H by now left. apply IH.
  intros a' b' Hb'. apply H. now right.
Qed.

Lemma centroid_estimates_MAXSAMPLES :
  centroid_estimates (Z.to_nat MAXSAMPLES) 0 0%float = true.
Proof. vm_compute. reflexivity. Qed.

Lemma zero_over_counts_MAXTABLES :
  zero_over_counts 1 (Z.to_nat MAXTABLES) = true.
Proof. vm_compute. reflexivity. Qed.

Lemma centroid_estimates_le (k k' : nat) (s : Z) (sum : double) :
  (k' <= k)%nat ->
  centroid_estimates k s sum = true -> centroid_estimates k' s sum = true.
Proof.
  revert k s sum. induction k' as [|k' IH]; intros k s sum Hk H; [reflexivity|].
  destruct k as [|k]; [lia|]. cbn [centroid_estimates] in *.
  apply andb_prop in H. destruct H as [H1 H2]. rewrite H1. cbn [andb].
  apply IH with k; [lia | exact H2].
Qed.

(** What the check establishes, on the sum taken as the loop takes it. *)
Lemma centroid_estimates_spec (k : nat) :
  forall (s : Z) (sum : double) (from : Z) (j : nat),
  centroid_estimates k s sum = true -> (j < k)%nat ->
  (fold_left (fun sum (_ : Z) => sum + bilinear 0.5%float 0.5%float)%double
     (Zseq from (S j)) sum
   / double_of_int (s + Z.of_nat j + 1))%double = 0.25%float.
Proof.
  induction k as [|k IH]; intros s sum from j H Hj; [lia|].
  cbn [centroid_estimates] in H. apply andb_prop in H. destruct H as [H1 H2].
  destruct j as [|j].
  - cbn [Zseq fold_left]. rewrite Z.add_0_r.
    apply FloatAxioms.Leibniz.eqb_spec, H1.
  - replace (s + Z.of_nat (S j) + 1) with (s + 1 + Z.of_nat j + 1) by lia.
    change (Zseq from (S (S j))) with (from :: Zseq (from + 1) (S j)).
    cbn [fold_left]. apply IH; [exact H2 | lia].
Qed.

Lemma zero_over_count (n : Z) :
  1 <= n <= MAXTABLES -> (0%float / double_of_int n)%double = 0%float.
Proof.
  intros Hn. pose proof zero_over_counts_MAXTABLES as H.
  unfold zero_over_counts in H. rewrite forallb_forall in H.
  apply FloatAxioms.Leibniz.eqb_spec, H, In_Zseq.
  unfold MAXTABLES in *. lia.
Qed.

Lemma fold_add_zeros (l : list double) :
  (forall e, In e l -> e = 0%float) -> fold_left PrimFloat.add l 0%float = 0%float.
Proof.
  induction l as [|e l IH]; intros H; [reflexivity|].
  cbn [fold_left]. rewrite (H e) by now left.
  change (0 + 0)%float with 0%float. apply IH. intros e' He'. apply H. now right.
Qed.

Lemma fold_MAX_zeros (l : list double) :
  (forall e, In e l -> e = 0%float) ->
  fold_left (fun m e => MAX e m) l 0%float = 0%float.
Proof.
  induction l as [|e l IH]; intros H; [reflexivity|].
  cbn [fold_left]. rewrite (H e) by now left.
  change (MAX 0%float 0%float) with 0%float. apply IH.
  intros e' He'. apply H. now right.
Qed.

Section Centroid.
Context {libc : Libc}.
Variable samplePoints : table.
Variables numSequences numSamples : Z.
Hypothesis within : numSamples <= MAXSAMPLES.
Hypothesis centroid :
  forall t s, 0 <= t < numSequences -> 0 <= s < numSamples ->
              samplePoints t s = mkPoint 0.5%float 0.5%float.

Lemma centroid_estimate t s :
  0 <= t < numSequences -> 0 <= s < numSamples ->
  estimate samplePoints 8 t s = 0.25%float.
Proof.
  intros Ht Hs. unfold estimate, runningSum.
  rewrite (fold_left_ext_in _
             (fun sum (_ : Z) => sum + bilinear 0.5%float 0.5%float)%double).
  - replace (Z.to_nat (s + 1)) with (S (Z.to_nat s)) by lia.
    replace (double_of_int (s + 1))
      with (double_of_int (0 + Z.of_nat (Z.to_nat s) + 1)) by (f_equal; lia).
    apply centroid_estimates_spec with (Z.to_nat MAXSAMPLES).
    + apply centroid_estimates_MAXSAMPLES.
    + lia.
  - intros a i Hi. apply In_Zseq in Hi.
    rewrite centroid by lia. reflexivity.
Qed.

Lemma centroid_error t s :
  0 <= t < numSequences -> 0 <= s < numSamples ->
  error samplePoints 8 0.25%float t s = 0%float.
Proof.
  intros Ht Hs. unfold error. rewrite centroid_estimate by assumption. reflexivity.
Qed.

Lemma centroid_errors s e :
  0 <= s < numSamples ->
  In e (errors samplePoints 8 numSequences 0.25%float s) -> e = 0%float.
Proof.
  intros Hs He. unfold errors in He. apply in_map_iff in He.
  destruct He as (t & <- & Ht). apply In_Zseq in Ht. apply centroid_error; lia.
Qed.

Lemma centroid_averageError s :
  1 <= numSequences <= MAXTABLES -> 0 <= s < numSamples ->
  averageError samplePoints 8 numSequences 0.25%float s = 0%float.
Proof.
  intros Hn Hs. unfold averageError.
  rewrite fold_add_zeros by (intros e; apply centroid_errors, Hs).
  apply zero_over_count, Hn.
Qed.

Lemma centroid_maxError s :
  0 <= s < numSamples ->
  maxError samplePoints 8 numSequences 0.25%float s = 0%float.
Proof.
  intros Hs. unfold maxError.
  apply fold_MAX_zeros. intros e. apply centroid_errors, Hs.
Qed.

End Centroid.

Lemma array_get_map (f : Z -> double) (n : nat) (t : Z) :
  0 <= t < Z.of_nat n -> array_get (map f (Zseq 0 n)) t = f t.
Proof.
  intros Ht. unfold array_get.
  apply nth_error_nth. rewrite nth_error_map.
  rewrite nth_error_Zseq by (apply Nat2Z.inj_lt; lia).
  cbn [option_map]. do 2 f_equal. lia.
Qed.

(** C8 as stated fails when no sequence is read: with numSequences = 0
    the average error is 0.0 / 0 at every sample count, a NaN and not 0,
    and the line printed reads [4 -nan]. *)
Lemma centroid_without_sequence :
  (forall exp sin indet,
     main (libc := libc_decimal exp sin) indet
       (only_file "centroid.data" four_centroids)
       ["funcsamp2D"; "bilinear"; "centroid.data"; "4"; "0"]%string
     = Exited 0 [Printf ("4 -nan" ++ nl)%string; Fflush]) /\
  (forall libc : Libc,
     estimate_errors (fun _ _ => mkPoint 0.5%float 0.5%float) 8 0 0.25%float 4
     = Ok (mkEstimator []
             [Printf ("4 -nan" ++ nl)%string; Fflush]
             [mkRow 1 nan 0%float; mkRow 2 nan 0%float; mkRow 3 nan 0%float;
              mkRow 4 nan 0%float])) /\
  PrimFloat.eqb nan 0%float = false /\
  PrimFloat.is_nan (0%float / double_of_int 0)%double = true.
Proof.
  split; [intros exp sin indet; vm_compute; reflexivity|].
  split; [intros libc; vm_compute; reflexivity|].
  split; reflexivity.
Qed.

(** C8, amended.  On a corpus whose every point is the centroid
    (0.5, 0.5), with at least one sequence and within the capacity of the
    sample table, the estimator run with [bilinear] (f(x,y) = xy, reference
    0.25) completes.  At every sample count the running sum that the loop
    holds for each sequence, divided by the count, is 0.25, and its
    distance to the reference is 0; every row has the average error 0 and
    the maximum 0, and every line printed reads [0.000000] after its
    count. *)
Theorem centroid_bilinear_exact :
  forall (libc : Libc) (samplePoints : table) (numSequences numSamples : Z),
  numSamples <= MAXSAMPLES -> 1 <= numSequences <= MAXTABLES ->
  (forall t s, 0 <= t < numSequences -> 0 <= s < numSamples ->
               samplePoints t s = mkPoint 0.5%float 0.5%float) ->
  find_function "bilinear" = 8 /\
  refValue (functionTable_at 8) = 0.25%float /\
  (forall x y, applyFunction 8 (mkPoint x y) = (x * y)%double) /\
  (forall t s, 0 <= t < numSequences -> 0 <= s < numSamples ->
     estimate samplePoints 8 t s = 0.25%float /\
     error samplePoints 8 0.25%float t s = 0%float) /\
  (forall count, 1 <= count <= numSamples ->
     exists st,
       estimate_errors samplePoints 8 numSequences 0.25%float count = Ok st /\
       List.length (sumresults st) = Z.to_nat numSequences /\
       forall t, 0 <= t < numSequences ->
         (array_get (sumresults st) t / double_of_int count)%double = 0.25%float /\
         fabs (array_get (sumresults st) t / double_of_int count - 0.25%float)%double
         = 0%float) /\
  exists st,
    estimate_errors samplePoints 8 numSequences 0.25%float numSamples = Ok st /\
    rows st
    = map (fun s => mkRow (s + 1) 0%float 0%float) (Zseq 0 (Z.to_nat numSamples)) /\
    stdout st
    = flat_map
        (fun k => [Printf (format_i (4 * k) ++ " 0.000000" ++ nl)%string; Fflush])
        (Zseq 1 (Z.to_nat (numSamples / 4))).
Proof.
  intros libc samplePoints numSequences numSamples HN Hn Hc.
  split; [reflexivity|]. split; [reflexivity|]. split; [reflexivity|].
  split.
  { intros t s Ht Hs.
    split;
      [apply (centroid_estimate samplePoints numSequences numSamples HN Hc)
      | apply (centroid_error samplePoints numSequences numSamples HN Hc)];
      assumption. }
  split.
  { intros count Hcount. eexists.
    split; [apply estimate_errors_spec, within_capacity_intro; lia|].
    cbn [sumresults]. split; [now rewrite length_map, Zseq_length|].
    intros t Ht. rewrite array_get_map by lia.
    pose proof (centroid_estimate samplePoints numSequences numSamples HN Hc
                  t (count - 1)) as He.
    unfold estimate in He. replace (count - 1 + 1) with count in He by lia.
    rewrite He by lia. split; reflexivity. }
  eexists. split; [apply estimate_errors_spec, within_capacity_intro; lia|].
  cbn [rows stdout]. split.
  - apply map_ext_in. intros s Hs. apply In_Zseq in Hs.
    rewrite (centroid_averageError samplePoints numSequences numSamples HN Hc)
      by lia.
    rewrite (centroid_maxError samplePoints numSequences numSamples HN Hc) by lia.
    reflexivity.
  - rewrite report_all, !flat_map_concat_map. f_equal.
    apply map_ext_in. intros k Hk. apply In_Zseq in Hk. unfold checkpoint.
    rewrite (centroid_averageError samplePoints numSequences numSamples HN Hc)
      by (try assumption; Z.div_mod_to_equations; lia).
    reflexivity.
Qed.

Lemma centroid_bilinear_exact_witness :
  8 <= MAXSAMPLES /\ 1 <= 2 <= MAXTABLES /\
  (forall t s, 0 <= t < 2 -> 0 <= s < 8 ->
     (fun _ _ => mkPoint 0.5%float 0.5%float) t s = mkPoint 0.5%float 0.5%float) /\
  forall libc : Libc,
  find_function "bilinear" = 8 /\
  refValue (functionTable_at 8) = 0.25%float /\
  (forall x y, applyFunction 8 (mkPoint x y) = (x * y)%double) /\
  (forall t s, 0 <= t < 2 -> 0 <= s < 8 ->
     estimate (fun _ _ => mkPoint 0.5%float 0.5%float) 8 t s = 0.25%float /\
     error (fun _ _ => mkPoint 0.5%float 0.5%float) 8 0.25%float t s = 0%float) /\
  (forall count, 1 <= count <= 8 ->
     exists st,
       estimate_errors (fun _ _ => mkPoint 0.5%float 0.5%float) 8 2 0.25%float count
       = Ok st /\
       List.length (sumresults st) = Z.to_nat 2 /\
       forall t, 0 <= t < 2 ->
         (array_get (sumresults st) t / double_of_int count)%double = 0.25%float /\
         fabs (array_get (sumresults st) t / double_of_int count - 0.25%float)%double
         = 0%float) /\
  exists st,
    estimate_errors (fun _ _ => mkPoint 0.5%float 0.5%float) 8 2 0.25%float 8
    = Ok st /\
    rows st
    = map (fun s => mkRow (s + 1) 0%float 0%float) (Zseq 0 (Z.to_nat 8)) /\
    stdout st
    = flat_map
        (fun k => [Printf (format_i (4 * k) ++ " 0.000000" ++ nl)%string; Fflush])
        (Zseq 1 (Z.to_nat (8 / 4))).
Proof.
  split; [unfold MAXSAMPLES; lia|].
  split; [unfold MAXTABLES; lia|].
  split; [reflexivity|].
  intros libc.
  apply (centroid_bilinear_exact libc (fun _ _ => mkPoint 0.5%float 0.5%float) 2 8);
    [unfold MAXSAMPLES; lia | unfold MAXTABLES; lia | reflexivity].
Defined.

(** ** C9: the four corners under [quarterdisk] *)

(** C9.  With numSamples = 4, numSequences = 1 and the corners (0,0),
    (1,0), (0,1), (1,1) as the corpus, [quarterdisk] (index 0, reference
    0.5) is 1 at (0,0) and 0 at the three other corners, the running
    estimate after 4 samples is 0.25, the error is 0.25, and the output is
    the single line [4 0.250000], flushed; the same output is what [main]
    prints on a file that holds these four points. *)
Theorem four_corners_quarterdisk :
  forall libc : Libc,
  find_function "quarterdisk" = 0 /\
  refValue (functionTable_at 0) = 0.5%float /\
  map (applyFunction 0)
    [mkPoint 0 0; mkPoint 1 0; mkPoint 0 1; mkPoint 1 1]%float
  = [1; 0; 0; 0]%float /\
  (0%float < 2 / M_PI)%double = true /\ (1%float < 2 / M_PI)%double = false /\
  estimate corner_table 0 0 3 = 0.25%float /\
  error corner_table 0 0.5%float 0 3 = 0.25%float /\
  (exists st,
     estimate_errors corner_table 0 1 0.5%float 4 = Ok st /\
     stdout st = [Printf ("4 0.250000" ++ nl)%string; Fflush]) /\
  forall exp sin indet,
    main (libc := libc_decimal exp sin) indet
      (only_file "corners.data" four_corners)
      ["funcsamp2D"; "quarterdisk"; "corners.data"; "4"; "1"]%string
    = Exited 0 [Printf ("4 0.250000" ++ nl)%string; Fflush].
Proof.
  intros libc.
  do 7 (split; [reflexivity|]).
  split.
  - eexists. split; vm_compute; reflexivity.
  - intros exp sin indet. vm_compute. reflexivity.
Qed.

(** ** C10: the bounds of [samplePoints] *)

Lemma for_loop_in_bounds {St : Type} (body : Z -> St -> result St) :
  forall k from st,
  (forall i st, from <= i < from + Z.of_nat k ->
                is_OutOfBounds (body i st) = false) ->
  is_OutOfBounds (for_loop k from body st) = false.
Proof.
  induction k as [|k IH]; intros from st H; [reflexivity|].
  cbn [for_loop]. pose proof (H from st) as H0.
  destruct (body from st) as [st'| |t s]; cbn [bind]; try reflexivity.
  - apply IH. intros i st'' Hi. apply H. lia.
  - apply H0. lia.
Qed.

Lemma for_loop_break_in_bounds {St : Type} (body : Z -> St -> result (St + St)) :
  forall k from st,
  (forall i st, from <= i < from + Z.of_nat k ->
                is_OutOfBounds (body i st) = false) ->
  is_OutOfBounds (for_loop_break k from body st) = false.
Proof.
  induction k as [|k IH]; intros from st H; [reflexivity|].
  cbn [for_loop_break]. pose proof (H from st) as H0.
  destruct (body from st) as [[st'|st']| |t s]; cbn [bind]; try reflexivity.
  - apply IH. intros i st'' Hi. apply H. lia.
  - apply H0. lia.
Qed.

Lemma map_constant {A : Type} (a : A) (k : nat) :
  forall from, map (fun _ : Z => a) (Zseq from k) = repeat a k.
Proof.
  induction k as [|k IH]; intros from; cbn [repeat Zseq map];
    [reflexivity | now rewrite IH].
Qed.

Section Bounds.
Context {libc : Libc}.
Variable indet : Indeterminate.

Lemma skipLines_in_bounds t n fd :
  is_OutOfBounds (skipLines indet t n fd) = false.
Proof.
  unfold skipLines. apply for_loop_in_bounds. intros i st _.
  destruct (skipLine (indet_c indet t i) st); reflexivity.
Qed.

Lemma read_sample_in_bounds t s st :
  in_bounds t s = true -> is_OutOfBounds (read_sample t s st) = false.
Proof.
  intros H. unfold read_sample, table_set.
  destruct (fscanf_lf_lf (r_fd st) (r_x st) (r_y st)) as [[[ok x] y] fd].
  destruct (ok =? -1); [reflexivity|]. rewrite H. reflexivity.
Qed.

Lemma read_sequence_in_bounds numSamples t st :
  (forall s, 0 <= s < numSamples -> in_bounds t s = true) ->
  is_OutOfBounds (read_sequence indet numSamples t st) = false.
Proof.
  intros H. unfold read_sequence.
  pose proof (for_loop_break_in_bounds (read_sample t) (Z.to_nat numSamples) 0 st)
    as Hloop.
  destruct (for_loop_break (Z.to_nat numSamples) 0 (read_sample t) st)
    as [st'| |t' s'].
  - cbn [bind]. pose proof (skipLines_in_bounds t 2 (r_fd st')) as Hskip.
    destruct (skipLines indet t 2 (r_fd st')); [reflexivity | reflexivity | exact Hskip].
  - reflexivity.
  - apply Hloop. intros i st'' Hi. apply read_sample_in_bounds, H. lia.
Qed.

(** The reader writes inside the table when the declared counts are
    within its capacity, or when one of them is not positive. *)
Lemma read_tables_in_bounds numSamples numSequences fd :
  within_capacity numSamples numSequences || no_access numSamples numSequences
  = true ->
  is_OutOfBounds (read_tables indet numSamples numSequences fd) = false.
Proof.
  intros H. unfold read_tables.
  pose proof (skipLines_in_bounds (-1) 3 fd) as Hskip.
  destruct (skipLines indet (-1) 3 fd) as [fd'| |t s];
    [|reflexivity|exact Hskip].
  cbn [bind]. apply for_loop_in_bounds. intros t st Ht.
  apply read_sequence_in_bounds. intros s Hs.
  unfold within_capacity, no_access in H.
  apply in_bounds_within; lia.
Qed.

End Bounds.

Section EstimatorBounds.
Context {libc : Libc}.
Variable samplePoints : table.
Variables functionNumber numSequences : Z.
Variable reference : double.

(** With more sequences than rows, the first pass over the sequences
    leaves the table at row [MAXTABLES]. *)
Lemma sample_body_too_many_sequences st :
  MAXTABLES < numSequences ->
  sumresults st = repeat 0%float (Z.to_nat numSequences) ->
  sample_body samplePoints functionNumber numSequences reference 0 st
  = OutOfBounds MAXTABLES 0.
Proof.
  intros Hn Hsum. unfold sample_body. rewrite Hsum.
  replace (Z.to_nat numSequences)
    with (Z.to_nat MAXTABLES + S (Z.to_nat (numSequences - MAXTABLES - 1)))%nat
    by (unfold MAXTABLES in *; lia).
  rewrite for_loop_app, repeat_app.
  pose proof (sequence_loop_spec samplePoints functionNumber reference 0
                (Z.to_nat MAXTABLES) [] (fun _ => 0%float)
                (repeat 0%float (S (Z.to_nat (numSequences - MAXTABLES - 1))))
                0%float 0%float) as H.
  cbn [List.length app Z.of_nat] in H.
  replace (map (fun _ : Z => 0%float) (Zseq 0 (Z.to_nat MAXTABLES)))
    with (repeat 0%float (Z.to_nat MAXTABLES)) in H.
  - rewrite H.
    2:{ intros t Ht. apply in_bounds_within; unfold MAXSAMPLES, MAXTABLES in *; lia. }
    cbn [bind for_loop]. unfold sequence_body at 1.
    unfold evaluateFunction, table_get.
    replace (0 + Z.of_nat (Z.to_nat MAXTABLES)) with MAXTABLES
      by (unfold MAXTABLES; lia).
    reflexivity.
  - symmetry. apply map_constant.
Qed.

(** The estimator reads outside the table exactly when both counts are
    positive and one of them exceeds the capacity. *)
Lemma estimate_errors_out_of_bounds numSamples :
  is_OutOfBounds
    (estimate_errors samplePoints functionNumber numSequences reference numSamples)
  = negb (within_capacity numSamples numSequences
          || no_access numSamples numSequences).
Proof.
  destruct (within_capacity numSamples numSequences
            || no_access numSamples numSequences) eqn:E; cbn [negb].
  - rewrite estimate_errors_spec by exact E. reflexivity.
  - unfold within_capacity, no_access in E.
    destruct (Z.le_gt_cases numSequences MAXTABLES) as [Hn|Hn].
    + unfold estimate_errors.
      replace (Z.to_nat numSamples)
        with (Z.to_nat MAXSAMPLES + S (Z.to_nat (numSamples - MAXSAMPLES - 1)))%nat
        by (unfold MAXSAMPLES in *; lia).
      rewrite for_loop_app, samples_loop_spec;
        cbn [sumresults]; try lia; [| |apply running_initial].
      * cbn [bind for_loop]. unfold sample_body at 1. cbn [sumresults].
        replace (Z.to_nat numSequences) with (S (Z.to_nat (numSequences - 1)))
          by lia.
        cbn [for_loop]. unfold sequence_body at 1.
        unfold evaluateFunction, table_get.
        replace (0 + Z.of_nat (Z.to_nat MAXSAMPLES)) with MAXSAMPLES
          by (unfold MAXSAMPLES; lia).
        reflexivity.
      * intros t s Ht Hs. apply in_bounds_within; lia.
    + unfold estimate_errors.
      replace (Z.to_nat numSamples) with (S (Z.to_nat (numSamples - 1))) by lia.
      cbn [for_loop]. rewrite sample_body_too_many_sequences; auto.
Qed.

End EstimatorBounds.

(** C10 as stated fails in its last part: 5000 samples of 0 sequences
    are outside the precondition, and nothing is read or written outside
    the table; the run ends normally. *)
Lemma beyond_capacity_without_access :
  within_capacity 5000 0 = false /\
  (forall (libc : Libc) indet fd,
     is_OutOfBounds (read_tables indet 5000 0 fd) = false) /\
  (forall (libc : Libc) samplePoints functionNumber reference,
     is_OutOfBounds
       (estimate_errors samplePoints functionNumber 0 reference 5000) = false) /\
  (forall exp sin indet,
     exists out,
       main (libc := libc_decimal exp sin) indet
         (only_file "corners.data" four_corners)
         ["funcsamp2D"; "lineary"; "corners.data"; "5000"; "0"]%string
       = Exited 0 out).
Proof.
  split; [reflexivity|]. split; [|split].
  - intros libc indet fd. apply read_tables_in_bounds. reflexivity.
  - intros libc samplePoints functionNumber reference.
    now rewrite estimate_errors_out_of_bounds.
  - intros exp sin indet. eexists. vm_compute. reflexivity.
Qed.

(** C10, amended.  The declared counts reach the loops unchecked: a run
    with numSamples = 4097 on a file that holds 4097 pairs writes
    samplePoints[0][4096].  When numSamples <= MAXSAMPLES and numSequences
    <= MAXTABLES, or when one of the two is not positive, the reader
    writes within the bounds of the table; the estimator reads outside
    them exactly when both counts are positive and one of them exceeds
    its capacity. *)
Theorem sample_table_bounds :
  forall (libc : Libc) (indet : Indeterminate) (numSamples numSequences : Z),
  (forall fd,
     within_capacity numSamples numSequences
     || no_access numSamples numSequences = true ->
     is_OutOfBounds (read_tables indet numSamples numSequences fd) = false) /\
  (forall samplePoints functionNumber reference,
     is_OutOfBounds
       (estimate_errors samplePoints functionNumber numSequences reference
          numSamples)
     = negb (within_capacity numSamples numSequences
             || no_access numSamples numSequences)) /\
  (forall exp sin,
     main (libc := libc_decimal exp sin) indet
       (only_file "many.data" one_too_many)
       ["funcsamp2D"; "lineary"; "many.data"; "4097"; "1"]%string
     = Undefined 0 MAXSAMPLES).
Proof.
  intros libc indet numSamples numSequences. split; [|split].
  - intros fd. apply read_tables_in_bounds.
  - intros samplePoints functionNumber reference.
    apply estimate_errors_out_of_bounds.
  - intros exp sin. vm_compute. reflexivity.
Qed.

Lemma sample_table_bounds_witness :
  within_capacity 4 3 || no_access 4 3 = true /\
  forall (libc : Libc) (indet : Indeterminate),
    is_OutOfBounds (read_tables indet 4 3 three_alike) = false.
Proof.
  split; [reflexivity|]. intros libc indet.
  apply (sample_table_bounds libc indet 4 3). reflexivity.
Defined.

(** ** C5 and C6: the lookup of the integrand *)

Lemma strcmp_eq (a b : string) : strcmp a b = 0 <-> a = b.
Proof.
  unfold strcmp. split.
  - intros H. apply String.compare_eq_iff.
    destruct (String.compare a b); [reflexivity | discriminate | discriminate].
  - intros <-. pose proof (String.compare_antisym a a) as H.
    destruct (String.compare a a); [reflexivity | discriminate | discriminate].
Qed.

(** When no entry from [i] on has the name, the loop ends with [i] past
    the entries it went through. *)
Lemma find_function_from_absent functionName :
  forall n i,
  (forall j, i <= j < i + Z.of_nat n ->
             name (functionTable_at j) <> functionName) ->
  find_function_from n i functionName = i + Z.of_nat n.
Proof.
  induction n as [|n IH]; intros i H; cbn [find_function_from]; [lia|].
  destruct (strcmp functionName (name (functionTable_at i)) =? 0) eqn:E.
  - apply Z.eqb_eq, strcmp_eq in E. exfalso. apply (H i); [lia | now symmetry].
  - rewrite IH; [lia|]. intros j Hj. apply H. lia.
Qed.

Lemma find_function_absent functionName :
  ~ In functionName (map name functionTable) ->
  find_function functionName = NUMFUNCTIONS.
Proof.
  intros H. unfold find_function.
  rewrite find_function_from_absent; [reflexivity|].
  intros j Hj E. apply H. rewrite <- E. unfold functionTable_at.
  apply in_map, nth_In. unfold NUMFUNCTIONS in Hj. cbn in *. lia.
Qed.

(** Every entry of the catalogue is found at its own index, with its own
    reference value and evaluation function. *)
Lemma find_function_catalog {libc : Libc} (i : nat) functionName f ref :
  nth_error catalog i = Some (functionName, f, ref) ->
  find_function functionName = Z.of_nat i /\
  Z.of_nat i < NUMFUNCTIONS /\
  name (functionTable_at (Z.of_nat i)) = functionName /\
  refValue (functionTable_at (Z.of_nat i)) = ref /\
  forall x y, applyFunction (Z.of_nat i) (mkPoint x y) = f x y.
Proof.
  intros H.
  do 18 (destruct i as [|i];
         [injection H as <- <- <-; repeat split; reflexivity|]).
  destruct i; discriminate.
Qed.

(** C5.  On a command line [funcsamp2D functionName samplesFilename] with
    at most two more arguments: when functionName is not one of the 18
    names of the catalogue, [main] prints one diagnostic, which contains
    the name, prints nothing else and exits with status 1; when it is the
    name of an entry, the lookup gives the index of that entry, the
    [switch] applies the entry's evaluation function, the reference is the
    entry's reference value, and [main] goes on with these. *)
Theorem function_lookup :
  forall (libc : Libc) (indet : Indeterminate)
    (fopen : string -> option stream)
    (program functionName samplesFilename : string) (rest : list string),
  (List.length rest <= 2)%nat ->
  List.length catalog = Z.to_nat NUMFUNCTIONS /\
  map (fun e => fst (fst e)) catalog = map name functionTable /\
  (~ In functionName (map name functionTable) ->
   main indet fopen (program :: functionName :: samplesFilename :: rest)
   = Exited 1 [Printf (unknown_function functionName)] /\
   contains (unknown_function functionName) functionName) /\
  (forall (i : nat) f ref,
     nth_error catalog i = Some (functionName, f, ref) ->
     find_function functionName = Z.of_nat i /\
     (forall x y, applyFunction (Z.of_nat i) (mkPoint x y) = f x y) /\
     refValue (functionTable_at (Z.of_nat i)) = ref /\
     main indet fopen (program :: functionName :: samplesFilename :: rest)
     = run_resolved indet fopen (Z.of_nat i) ref samplesFilename
         (match rest with a :: _ => atoi a | [] => 1024 end)
         (match rest with _ :: b :: _ => atoi b | _ => 100 end)).
Proof.
  intros libc indet fopen program functionName samplesFilename rest Hrest.
  split; [reflexivity|]. split; [reflexivity|].
  assert ((Z.of_nat (List.length (program :: functionName :: samplesFilename :: rest)) <? 3)
          || (Z.of_nat (List.length (program :: functionName :: samplesFilename :: rest)) >? 5)
          = false) as Hargc.
  { cbn [List.length]. rewrite Z.gtb_ltb.
    apply orb_false_intro; apply Z.ltb_ge; lia. }
  split.
  - intros Habsent. split.
    + unfold main. rewrite Hargc. cbn [nth].
      rewrite (find_function_absent functionName Habsent). reflexivity.
    + exists "Unknown function: '"%string, ("'" ++ nl)%string. reflexivity.
  - intros i f ref Hi.
    destruct (find_function_catalog i functionName f ref Hi)
      as (Hfind & Hlt & _ & Href & Hf).
    split; [exact Hfind|]. split; [exact Hf|]. split; [exact Href|].
    unfold main. rewrite Hargc. cbn [nth]. rewrite Hfind.
    replace (Z.of_nat i =? NUMFUNCTIONS) with false by lia.
    rewrite Href. unfold run_resolved.
    destruct rest as [|a [|b [|c rest]]]; cbn [List.length] in *;
      try reflexivity. lia.
Qed.

Lemma function_lookup_witness :
  (List.length ["4"; "1"]%string <= 2)%nat /\
  ~ In "bogus"%string (map name functionTable) /\
  forall (libc : Libc) (indet : Indeterminate),
  main indet (only_file "corners.data" four_corners)
    ["funcsamp2D"; "bogus"; "corners.data"; "4"; "1"]%string
  = Exited 1 [Printf (unknown_function "bogus")] /\
  contains (unknown_function "bogus") "bogus".
Proof.
  assert (~ In "bogus"%string (map name functionTable)) as Habsent.
  { cbn. intros H.
    repeat (destruct H as [H|H]; [discriminate H|]). exact H. }
  split; [cbn; lia|]. split; [exact Habsent|]. intros libc indet.
  destruct (function_lookup libc indet (only_file "corners.data" four_corners)
              "funcsamp2D" "bogus" "corners.data" ["4"; "1"]%string)
    as (_ & _ & Hunknown & _); [cbn; lia|].
  apply Hunknown, Habsent.
Defined.

(** C6.  Each of the six integrands of one variable is evaluated on one
    coordinate of the sample point, whatever the other is: [stepx],
    [rampx], [gaussianx] and [sin2x] on x, [lineary] and [siny] on y. *)
Theorem one_dimensional_axes :
  forall (libc : Libc) (x y other : double),
  applyFunction (find_function "stepx") (mkPoint x y) = step x /\
  applyFunction (find_function "stepx") (mkPoint x other) = step x /\
  applyFunction (find_function "rampx") (mkPoint x y) = ramp x /\
  applyFunction (find_function "rampx") (mkPoint x other) = ramp x /\
  applyFunction (find_function "gaussianx") (mkPoint x y) = gaussian1D x /\
  applyFunction (find_function "gaussianx") (mkPoint x other) = gaussian1D x /\
  applyFunction (find_function "sin2x") (mkPoint x y) = sin2x x /\
  applyFunction (find_function "sin2x") (mkPoint x other) = sin2x x /\
  applyFunction (find_function "lineary") (mkPoint x y) = linear y /\
  applyFunction (find_function "lineary") (mkPoint other y) = linear y /\
  applyFunction (find_function "siny") (mkPoint x y) = sinx y /\
  applyFunction (find_function "siny") (mkPoint other y) = sinx y /\
  map find_function ["stepx"; "rampx"; "lineary"; "gaussianx"; "siny"; "sin2x"]%string
  = [12; 13; 14; 15; 16; 17].
Proof. intros libc x y other. repeat split; reflexivity. Qed.

(** ** The corpus reader *)

Section Reader.
Context {libc : Libc}.
Variable indet : Indeterminate.

(** [fscanf] answers [EOF] only when the stream is exhausted. *)
Lemma fscanf_lf_lf_EOF fd x y x' y' fd' :
  fscanf_lf_lf fd x y = (-1, x', y', fd') -> fd' = [] /\ x' = x /\ y' = y.
Proof.
  unfold fscanf_lf_lf.
  destruct (skip_space fd) as [|c fd1]; [intros H; injection H; auto|].
  destruct (scan_double (c :: fd1)) as [[vx|] fd2]; [|discriminate].
  destruct (skip_space fd2) as [|c' fd3]; [discriminate|].
  destruct (scan_double (c' :: fd3)) as [[vy|] fd4]; discriminate.
Qed.

Lemma fscanf_lf_lf_nil x y : fscanf_lf_lf [] x y = (-1, x, y, []).
Proof. reflexivity. Qed.

Lemma skipLines_nil t n fd' : skipLines indet t n [] = Ok fd' -> fd' = [].
Proof.
  unfold skipLines. generalize 0 as line.
  induction n as [|n IH]; intros line H; cbn [for_loop] in H.
  - now injection H.
  - cbn [skipLine] in H.
    destruct (Ascii.eqb (indet_c indet t line) newline); [|discriminate].
    cbn [bind] in H. apply IH in H. exact H.
Qed.

(** The loop over the samples of sequence [t], from slot [s0] with [k]
    slots to go: it stores into some number of slots from [s0] on and
    leaves every other cell of the table as it was; when it stores into
    fewer than [k], it stopped on an exhausted stream. *)
Lemma read_samples_spec t :
  forall k s0 st st',
  for_loop_break k s0 (read_sample t) st = Ok st' ->
  exists stored,
    0 <= stored <= Z.of_nat k /\
    (forall t' s', ~ (t' = t /\ s0 <= s' < s0 + stored) ->
       r_samplePoints st' t' s' = r_samplePoints st t' s') /\
    (stored < Z.of_nat k -> r_fd st' = []) /\
    (r_fd st = [] -> r_fd st' = []).
Proof.
  induction k as [|k IH]; intros s0 st st' H; cbn [for_loop_break] in H.
  - injection H as <-. exists 0. repeat split; try lia; auto.
  - unfold read_sample at 1 in H.
    destruct (fscanf_lf_lf (r_fd st) (r_x st) (r_y st)) as [[[ok x] y] fd] eqn:E.
    destruct (ok =? -1) eqn:Hok.
    + cbn [bind] in H. injection H as <-. apply Z.eqb_eq in Hok. subst ok.
      apply fscanf_lf_lf_EOF in E. destruct E as (-> & _ & _).
      exists 0. cbn [r_samplePoints r_fd]. repeat split; try lia; auto.
    + unfold table_set in H. destruct (in_bounds t s0); [|discriminate].
      cbn [bind] in H. apply IH in H.
      destruct H as (stored & Hrange & Hkeep & Hstop & Hnil).
      cbn [r_samplePoints r_fd] in *.
      exists (stored + 1). split; [lia|]. split; [|split].
      * intros t' s' Hout. rewrite Hkeep by lia.
        destruct ((t' =? t) && (s' =? s0)) eqn:Hts; [|reflexivity].
        apply andb_prop in Hts. destruct Hts as [Ht Hs].
        apply Z.eqb_eq in Ht, Hs. exfalso. apply Hout. lia.
      * intros Hlt. apply Hstop. lia.
      * intros Hfd. rewrite Hfd, fscanf_lf_lf_nil in E.
        injection E as <- _ _ _. discriminate.
Qed.

(** One sequence, with the two lines skipped after it. *)
Lemma read_sequence_spec numSamples t st st' :
  read_sequence indet numSamples t st = Ok st' ->
  exists stored,
    0 <= stored <= Z.of_nat (Z.to_nat numSamples) /\
    (forall t' s', ~ (t' = t /\ 0 <= s' < stored) ->
       r_samplePoints st' t' s' = r_samplePoints st t' s') /\
    (stored < Z.of_nat (Z.to_nat numSamples) -> r_fd st' = []) /\
    (r_fd st = [] -> r_fd st' = []).
Proof.
  unfold read_sequence. intros H.
  destruct (for_loop_break (Z.to_nat numSamples) 0 (read_sample t) st)
    as [st1| |] eqn:E; try discriminate.
  cbn [bind] in H.
  destruct (skipLines indet t 2 (r_fd st1)) as [fd2| |] eqn:E2; try discriminate.
  cbn [bind] in H. injection H as <-.
  apply read_samples_spec in E.
  destruct E as (stored & Hrange & Hkeep & Hstop & Hnil).
  exists stored. cbn [r_samplePoints r_fd]. split; [exact Hrange|].
  split; [intros t' s' Hout; apply Hkeep; lia|].
  split.
  - intros Hlt. rewrite (Hstop Hlt) in E2. apply skipLines_nil in E2. exact E2.
  - intros Hfd. rewrite (Hnil Hfd) in E2. apply skipLines_nil in E2. exact E2.
Qed.

End Reader.

(** ** C3: what becomes of the slots that were not read *)


(** ** C4: the reading phase at the end of the file *)

Lemma skipLine_at_end_of_file (c : ascii) :
  skipLine c [] = if Ascii.eqb c newline then Some [] else None.
Proof. reflexivity. Qed.

(** C4 fails on the code: [skipLine] ignores the value of [fscanf] and
    tests a character that is not read any more once the file is at its
    end.  A file without a newline hangs the reading at the header; the
    file cut inside the line after two pairs of a sequence of 10 hangs it
    after that sequence, and [main] never returns; the file that ends
    right after the two pairs hangs it unless the indeterminate [c]
    happens to hold a newline.  In each case no number of passes ends the
    loop of [skipLine]. *)
Theorem reading_hangs_at_end_of_file :
  forall (indet : Indeterminate),
  (forall (libc : Libc) numSamples numSequences,
     read_tables indet numSamples numSequences
       (list_ascii_of_string "// no newline") = Hang) /\
  (forall exp sin,
     read_tables (libc := libc_decimal exp sin) indet 10 1 cut_in_a_line = Hang /\
     main (libc := libc_decimal exp sin) indet
       (only_file "cut.data" cut_in_a_line)
       ["funcsamp2D"; "quarterdisk"; "cut.data"; "10"; "1"]%string
     = NeverReturns) /\
  (forall exp sin c x y,
     is_Hang (read_tables (libc := libc_decimal exp sin) (indeterminate c x y)
                10 1 two_pairs)
     = negb (Ascii.eqb c newline)) /\
  (forall c fuel,
     skipLine_steps fuel (c, [])
     = if Ascii.eqb c newline
       then match fuel with O => None | S _ => Some [] end
       else None).
Proof.
  intros indet. split; [|split; [|split]].
  - intros libc numSamples numSequences. reflexivity.
  - intros exp sin. split; vm_compute; reflexivity.
  - intros exp sin c x y.
    destruct c as [[] [] [] [] [] [] [] []]; vm_compute; reflexivity.
  - intros c fuel. destruct (Ascii.eqb c newline) eqn:E.
    + destruct fuel; [reflexivity|]. cbn. unfold skipLine_body. cbn.
      now rewrite E.
    + apply skipLine_never_returns. cbn. now rewrite E.
Qed.

(* ================================================================= *)
(** * Further properties of the code *)

(** ** [skipLine] on a stream that holds a newline *)

Lemma skipLine_steps_line (line : stream) :
  forall (c : ascii) (rest : stream),
  forallb (fun ch => negb (Ascii.eqb ch newline)) line = true ->
  skipLine_steps (S (List.length line)) (c, line ++ newline :: rest)%list = Some rest /\
  skipLine_steps (List.length line) (c, line ++ newline :: rest)%list = None.
Proof.
  induction line as [|ch line IH]; intros c rest H.
  - split; reflexivity.
  - cbn [forallb] in H. apply andb_prop in H. destruct H as [Hch Hline].
    destruct (IH ch rest Hline) as [IH1 IH2].
    cbn [List.length]. split.
    + change (skipLine_steps (S (S (List.length line))) (c, ((ch :: line) ++ newline :: rest)%list))
        with (match skipLine_body (c, ((ch :: line) ++ newline :: rest)%list) with
              | inl fd => Some fd
              | inr st' => skipLine_steps (S (List.length line)) st'
              end).
      unfold skipLine_body. cbn [fst snd app fscanf_c].
      destruct (Ascii.eqb ch newline); [discriminate | exact IH1].
    + cbn [skipLine_steps]. unfold skipLine_body. cbn [fst snd app fscanf_c].
      destruct (Ascii.eqb ch newline); [discriminate | exact IH2].
Qed.

(** X1.  On a stream that holds a newline, [skipLine] ends whatever its
    uninitialised [c] holds: the loop runs one pass for each character up
    to and with the first newline, no fewer, and leaves the stream right
    after that newline. *)
Theorem skipLine_consumes_one_line :
  forall (c : ascii) (line rest : stream),
  forallb (fun ch => negb (Ascii.eqb ch newline)) line = true ->
  skipLine_steps (S (List.length line)) (c, line ++ newline :: rest)%list = Some rest /\
  skipLine_steps (List.length line) (c, line ++ newline :: rest)%list = None /\
  skipLine c (line ++ newline :: rest) = Some rest.
Proof.
  intros c line rest H.
  destruct (skipLine_steps_line line c rest H) as [H1 H2].
  split; [exact H1|]. split; [exact H2|].
  apply skipLine_steps_iff. eexists. exact H1.
Qed.

Lemma skipLine_consumes_one_line_witness :
  forallb (fun ch => negb (Ascii.eqb ch newline))
    (list_ascii_of_string "// Sequence 0:") = true /\
  skipLine_steps 15 ("x"%char, list_ascii_of_string "// Sequence 0:" ++ newline :: list_ascii_of_string "0.5 0.5")%list
  = Some (list_ascii_of_string "0.5 0.5") /\
  skipLine_steps 14 ("x"%char, list_ascii_of_string "// Sequence 0:" ++ newline :: list_ascii_of_string "0.5 0.5")%list
  = None /\
  skipLine "x" (list_ascii_of_string "// Sequence 0:" ++ newline :: list_ascii_of_string "0.5 0.5")
  = Some (list_ascii_of_string "0.5 0.5").
Proof.
  split; [reflexivity|].
  apply (skipLine_consumes_one_line "x" (list_ascii_of_string "// Sequence 0:")
           (list_ascii_of_string "0.5 0.5")).
  reflexivity.
Defined.

(** ** The command line *)

Lemma find_function_from_spec (functionName : string) :
  forall n i,
  i <= find_function_from n i functionName <= i + Z.of_nat n /\
  (forall j, i <= j < find_function_from n i functionName ->
     name (functionTable_at j) <> functionName) /\
  (find_function_from n i functionName < i + Z.of_nat n ->
   name (functionTable_at (find_function_from n i functionName)) = functionName).
Proof.
  induction n as [|n IH]; intros i; cbn [find_function_from].
  - split; [lia|]. split; intros; lia.
  - destruct (strcmp functionName (name (functionTable_at i)) =? 0) eqn:E.
    + apply Z.eqb_eq, strcmp_eq in E.
      split; [lia|]. split; [intros; lia | intros _; now symmetry].
    + destruct (IH (i + 1)) as (Hr & Hbefore & Hat).
      split; [lia|]. split.
      * intros j Hj. destruct (Z.eq_dec j i) as [->|Hne].
        -- intros Heq. apply Z.eqb_neq in E. apply E, strcmp_eq. now symmetry.
        -- apply Hbefore. lia.
      * intros Hlt. apply Hat. lia.
Qed.

Lemma In_functionTable (functionName : string) :
  In functionName (map name functionTable) <->
  exists j, 0 <= j < NUMFUNCTIONS /\ name (functionTable_at j) = functionName.
Proof.
  split.
  - intros H. apply (In_nth _ _ EmptyString) in H. destruct H as (k & Hk & Hnth).
    exists (Z.of_nat k). rewrite length_map in Hk. split.
    + change (List.length functionTable) with (Z.to_nat NUMFUNCTIONS) in Hk.
      unfold NUMFUNCTIONS in *. lia.
    + unfold functionTable_at. rewrite Nat2Z.id.
      rewrite <- Hnth.
      change EmptyString with (name (mkFunctions "" 0%float)) at 2.
      now rewrite map_nth.
  - intros (j & Hj & Hname). rewrite <- Hname. unfold functionTable_at.
    change (name (nth (Z.to_nat j) functionTable (mkFunctions "" 0%float)))
      with ((fun f => name f) (nth (Z.to_nat j) functionTable (mkFunctions "" 0%float))).
    rewrite <- map_nth. apply nth_In. rewrite length_map.
    change (List.length functionTable) with (Z.to_nat NUMFUNCTIONS).
    unfold NUMFUNCTIONS in *. lia.
Qed.

Lemma find_function_present (functionName : string) :
  In functionName (map name functionTable) ->
  find_function functionName < NUMFUNCTIONS.
Proof.
  intros H. apply In_functionTable in H. destruct H as (j & Hj & Hname).
  unfold find_function.
  destruct (find_function_from_spec functionName (Z.to_nat NUMFUNCTIONS) 0)
    as (Hr & Hbefore & _).
  destruct (Z_lt_ge_dec
              (find_function_from (Z.to_nat NUMFUNCTIONS) 0 functionName) NUMFUNCTIONS)
    as [Hlt|Hge]; [exact Hlt|].
  exfalso. apply (Hbefore j); [lia | exact Hname].
Qed.

(** X6.  The lookup gives an index from 0 to NUMFUNCTIONS; it is below
    NUMFUNCTIONS exactly for the names of [functionTable], and then it is
    the first index whose entry has that very name. *)
Theorem function_lookup_exact :
  forall functionName : string,
  0 <= find_function functionName <= NUMFUNCTIONS /\
  (find_function functionName < NUMFUNCTIONS <->
   In functionName (map name functionTable)) /\
  (find_function functionName < NUMFUNCTIONS ->
   name (functionTable_at (find_function functionName)) = functionName) /\
  (forall j, 0 <= j < find_function functionName ->
     name (functionTable_at j) <> functionName).
Proof.
  intros functionName.
  destruct (find_function_from_spec functionName (Z.to_nat NUMFUNCTIONS) 0)
    as (Hr & Hbefore & Hat).
  fold (find_function functionName) in Hr, Hbefore, Hat.
  split; [exact Hr|]. split; [|split; [exact Hat | exact Hbefore]].
  split.
  - intros Hlt. apply In_functionTable. exists (find_function functionName).
    split; [lia | apply Hat, Hlt].
  - apply find_function_present.
Qed.

Lemma function_lookup_exact_witness :
  find_function "bilinear" = 8 /\
  0 <= find_function "bilinear" <= NUMFUNCTIONS /\
  (find_function "bilinear" < NUMFUNCTIONS <->
   In "bilinear"%string (map name functionTable)) /\
  (find_function "bilinear" < NUMFUNCTIONS ->
   name (functionTable_at (find_function "bilinear")) = "bilinear"%string) /\
  (forall j, 0 <= j < find_function "bilinear" ->
     name (functionTable_at j) <> "bilinear"%string).
Proof.
  split; [reflexivity|]. apply (function_lookup_exact "bilinear").
Defined.

(** X2.  [main] prints the usage line and returns 1 exactly when [argv]
    has fewer than 3 or more than 5 entries; no file is opened and no name
    is looked up then. *)
Theorem usage_on_wrong_argument_count :
  forall (libc : Libc) (indet : Indeterminate)
    (fopen : string -> option stream) (argv : list string),
  main indet fopen argv = Exited 1 [Printf usage]
  <-> (List.length argv < 3 \/ 5 < List.length argv)%nat.
Proof.
  intros libc indet fopen argv. unfold main.
  destruct ((Z.of_nat (List.length argv) <? 3) || (Z.of_nat (List.length argv) >? 5))
    eqn:Hargc.
  - split; [intros _ | reflexivity].
    apply orb_true_iff in Hargc. destruct Hargc as [H|H].
    + apply Z.ltb_lt in H. lia.
    + rewrite Z.gtb_ltb in H. apply Z.ltb_lt in H. lia.
  - apply orb_false_iff in Hargc. destruct Hargc as [H3 H5].
    apply Z.ltb_ge in H3. rewrite Z.gtb_ltb in H5. apply Z.ltb_ge in H5.
    split; [|lia]. intros H. exfalso.
    destruct (find_function (nth 1 argv EmptyString) =? NUMFUNCTIONS);
      [discriminate H|].
    destruct (fopen (nth 2 argv EmptyString)); [|discriminate H].
    match type of H with
    | match ?r with _ => _ end = _ => destruct r; discriminate H
    end.
Qed.

(** X3.  When the function is known and the samples file cannot be
    opened, [main] prints [cannot open file '...'] with the name of the
    file and exits with 1, whatever the counts are. *)
Theorem cannot_open_samples_file :
  forall (libc : Libc) (indet : Indeterminate)
    (fopen : string -> option stream)
    (program functionName samplesFilename : string) (rest : list string),
  (List.length rest <= 2)%nat ->
  In functionName (map name functionTable) ->
  fopen samplesFilename = None ->
  main indet fopen (program :: functionName :: samplesFilename :: rest)
  = Exited 1 [Printf (cannot_open samplesFilename)] /\
  contains (cannot_open samplesFilename) samplesFilename.
Proof.
  intros libc indet fopen program functionName samplesFilename rest Hrest Hin Hopen.
  split.
  - unfold main.
    replace ((Z.of_nat (List.length (program :: functionName :: samplesFilename :: rest)) <? 3)
             || (Z.of_nat (List.length (program :: functionName :: samplesFilename :: rest)) >? 5))
      with false.
    + cbn [nth]. apply find_function_present in Hin.
      destruct (find_function functionName =? NUMFUNCTIONS) eqn:E.
      * apply Z.eqb_eq in E. lia.
      * now rewrite Hopen.
    + symmetry. apply orb_false_iff. cbn [List.length]. split.
      * apply Z.ltb_ge. lia.
      * rewrite Z.gtb_ltb. apply Z.ltb_ge. lia.
  - exists "cannot open file '"%string, ("'" ++ nl)%string. reflexivity.
Qed.

Lemma cannot_open_samples_file_witness :
  (List.length ["4"; "1"]%string <= 2)%nat /\
  In "sinxy"%string (map name functionTable) /\
  only_file "corners.data" four_corners "missing.data" = None /\
  forall (libc : Libc) (indet : Indeterminate),
  main indet (only_file "corners.data" four_corners)
    ["funcsamp2D"; "sinxy"; "missing.data"; "4"; "1"]%string
  = Exited 1 [Printf (cannot_open "missing.data")] /\
  contains (cannot_open "missing.data") "missing.data".
Proof.
  split; [cbn; lia|].
  split; [cbn; tauto|].
  split; [reflexivity|].
  intros libc indet.
  apply (cannot_open_samples_file libc indet (only_file "corners.data" four_corners)
           "funcsamp2D" "sinxy" "missing.data" ["4"; "1"]%string).
  - cbn; lia.
  - cbn; tauto.
  - reflexivity.
Defined.

(** X4.  The counts that are not given are 1024 samples and 100
    sequences: a run with no count is the run with [1024 100], and a run
    with numSamples alone is the run with that numSamples and [100]. *)
Theorem default_counts :
  forall (libc : Libc) (indet : Indeterminate)
    (fopen : string -> option stream)
    (program functionName samplesFilename numSamples : string),
  main indet fopen [program; functionName; samplesFilename]
  = main indet fopen [program; functionName; samplesFilename; "1024"; "100"]%string /\
  main indet fopen [program; functionName; samplesFilename; numSamples]
  = main indet fopen [program; functionName; samplesFilename; numSamples; "100"]%string.
Proof.
  intros libc indet fopen program functionName samplesFilename numSamples.
  unfold main. cbn [List.length nth].
  change (atoi "1024") with 1024. change (atoi "100") with 100.
  split; reflexivity.
Qed.

Lemma flat_map_lines {A : Type} (text : A -> string) (l : list A) :
  flat_map (fun a => [Printf (text a); Fflush]) l
  = flat_map (fun line => [Printf line; Fflush]) (map text l).
Proof. induction l as [|a l IH]; cbn; [reflexivity | now rewrite IH]. Qed.

Lemma estimate_errors_Ok_stdout {libc : Libc} (samplePoints : table)
  (functionNumber numSequences : Z) (reference : double) (numSamples : Z)
  (st : estimator_state) :
  estimate_errors samplePoints functionNumber numSequences reference numSamples
  = Ok st ->
  stdout st
  = flat_map (fun line => [Printf line; Fflush])
      (map (fun k => report_line (4 * k)
                       (averageError_nan_sign samplePoints functionNumber
                          numSequences reference (4 * k - 1))
                       (averageError samplePoints functionNumber numSequences
                          reference (4 * k - 1)))
         (Zseq 1 (Z.to_nat (numSamples / 4)))).
Proof.
  intros H.
  pose proof (estimate_errors_out_of_bounds samplePoints functionNumber
                numSequences reference numSamples) as Hb.
  rewrite H in Hb. cbn [is_OutOfBounds] in Hb.
  symmetry in Hb. apply negb_false_iff in Hb.
  rewrite (estimate_errors_spec _ _ _ _ _ Hb) in H.
  injection H as <-. cbn [stdout].
  rewrite report_all. unfold checkpoint.
  apply (flat_map_lines
           (fun k => report_line (4 * k)
                       (averageError_nan_sign samplePoints functionNumber
                          numSequences reference (4 * k - 1))
                       (averageError samplePoints functionNumber numSequences
                          reference (4 * k - 1)))).
Qed.

(** X5.  When [main] ends, its status is 0 or 1.  With 1 it has printed
    one message and nothing else: the usage line, the unknown function or
    the file that cannot be opened.  With 0 all it has printed are lines,
    each followed by a flush. *)
Theorem exit_status :
  forall (libc : Libc) (indet : Indeterminate)
    (fopen : string -> option stream) (argv : list string)
    (status : Z) (out : list event),
  main indet fopen argv = Exited status out ->
  (status = 1 /\
   (out = [Printf usage] \/
    out = [Printf (unknown_function (nth 1 argv EmptyString))] \/
    out = [Printf (cannot_open (nth 2 argv EmptyString))])) \/
  (status = 0 /\
   exists lines, out = flat_map (fun line => [Printf line; Fflush]) lines).
Proof.
  intros libc indet fopen argv status out. unfold main.
  destruct ((Z.of_nat (List.length argv) <? 3) || (Z.of_nat (List.length argv) >? 5)).
  { intros H. injection H as <- <-. left. split; [reflexivity | now left]. }
  destruct (find_function (nth 1 argv EmptyString) =? NUMFUNCTIONS).
  { intros H. injection H as <- <-. left. split; [reflexivity | right; now left]. }
  destruct (fopen (nth 2 argv EmptyString)) as [fd|].
  2: { intros H. injection H as <- <-. left. split; [reflexivity | right; now right]. }
  destruct (read_tables _ _ _ fd) as [st| |t s]; cbn [bind]; try discriminate.
  match goal with
  | |- match ?r with _ => _ end = _ -> _ => destruct r as [est| |t s] eqn:E
  end; try discriminate.
  intros H. injection H as <- <-. right. split; [reflexivity|].
  eexists. apply (estimate_errors_Ok_stdout _ _ _ _ _ _ E).
Qed.

Lemma exit_status_witness :
  main (libc := libc_decimal (fun a => a) (fun a => a))
    (indeterminate newline 0%float 0%float)
    (only_file "corners.data" four_corners)
    ["funcsamp2D"; "quarterdisk"; "corners.data"; "4"; "1"]%string
  = Exited 0 [Printf ("4 0.250000" ++ nl)%string; Fflush] /\
  ((0 = 1 /\
    ([Printf ("4 0.250000" ++ nl)%string; Fflush] = [Printf usage] \/
     [Printf ("4 0.250000" ++ nl)%string; Fflush]
     = [Printf (unknown_function
                  (nth 1 ["funcsamp2D"; "quarterdisk"; "corners.data"; "4"; "1"]%string
                     EmptyString))] \/
     [Printf ("4 0.250000" ++ nl)%string; Fflush]
     = [Printf (cannot_open
                  (nth 2 ["funcsamp2D"; "quarterdisk"; "corners.data"; "4"; "1"]%string
                     EmptyString))])) \/
   (0 = 0 /\
    exists lines,
      [Printf ("4 0.250000" ++ nl)%string; Fflush]
      = flat_map (fun line => [Printf line; Fflush]) lines)).
Proof.
  split; [vm_compute; reflexivity|].
  apply (exit_status (libc_decimal (fun a => a) (fun a => a))
           (indeterminate newline 0%float 0%float)
           (only_file "corners.data" four_corners)
           ["funcsamp2D"; "quarterdisk"; "corners.data"; "4"; "1"]%string).
  vm_compute; reflexivity.
Defined.

(** ** [evaluateFunction] *)

Lemma applyFunction_default {libc : Libc} (functionNum : Z) (sample : Point) :
  functionNum < 0 \/ NUMFUNCTIONS <= functionNum ->
  applyFunction functionNum sample = 0%float.
Proof.
  unfold NUMFUNCTIONS. intros H.
  destruct functionNum as [|p|p]; [lia | | reflexivity].
  do 5 (try (destruct p as [p|p|]; try reflexivity; try lia)).
Qed.

(** X7.  [evaluateFunction] fetches [samplePoints[t][s]] before it looks
    at [functionNum]; for a [functionNum] that is no case of its [switch]
    the value is the 0.0 that [result] starts with. *)
Theorem evaluateFunction_outside_the_switch :
  forall (libc : Libc) (samplePoints : table) (functionNum t s : Z),
  functionNum < 0 \/ NUMFUNCTIONS <= functionNum ->
  evaluateFunction samplePoints functionNum t s
  = if in_bounds t s then Ok 0%float else OutOfBounds t s.
Proof.
  intros libc samplePoints functionNum t s H.
  unfold evaluateFunction, table_get.
  destruct (in_bounds t s); cbn [bind]; [|reflexivity].
  now rewrite applyFunction_default.
Qed.

Lemma evaluateFunction_outside_the_switch_witness :
  (18 < 0 \/ NUMFUNCTIONS <= 18) /\
  forall libc : Libc,
  evaluateFunction corner_table 18 0 3
  = if in_bounds 0 3 then Ok 0%float else OutOfBounds 0 3.
Proof.
  split; [right; unfold NUMFUNCTIONS; lia|].
  intros libc.
  apply (evaluateFunction_outside_the_switch libc corner_table 18 0 3).
  right; unfold NUMFUNCTIONS; lia.
Defined.

(** ** The estimator: what it reads, and how its output grows *)

Lemma for_loop_ext {St : Type} (body body' : Z -> St -> result St) :
  forall k from st,
  (forall i st, from <= i < from + Z.of_nat k -> body i st = body' i st) ->
  for_loop k from body st = for_loop k from body' st.
Proof.
  induction k as [|k IH]; intros from st H; cbn [for_loop]; [reflexivity|].
  rewrite (H from st) by lia.
  destruct (body' from st) as [st'| |t s]; cbn [bind]; try reflexivity.
  apply IH. intros i st0 Hi. apply H. lia.
Qed.

Lemma overlay_inside numSamples numSequences inside outside t s :
  0 <= t < numSequences -> 0 <= s < numSamples ->
  overlay numSamples numSequences inside outside t s = inside t s.
Proof.
  intros Ht Hs. unfold overlay.
  replace (0 <=? t) with true by (symmetry; apply Z.leb_le; lia).
  replace (t <? numSequences) with true by (symmetry; apply Z.ltb_lt; lia).
  replace (0 <=? s) with true by (symmetry; apply Z.leb_le; lia).
  replace (s <? numSamples) with true by (symmetry; apply Z.ltb_lt; lia).
  reflexivity.
Qed.

Lemma estimate_errors_ext {libc : Libc} (samplePoints samplePoints' : table)
  (functionNumber numSequences : Z) (reference : double) (numSamples : Z) :
  (forall t s, 0 <= t < numSequences -> 0 <= s < numSamples ->
     samplePoints t s = samplePoints' t s) ->
  estimate_errors samplePoints functionNumber numSequences reference numSamples
  = estimate_errors samplePoints' functionNumber numSequences reference numSamples.
Proof.
  intros H.
  unfold estimate_errors. apply for_loop_ext. intros s st Hs.
  unfold sample_body.
  rewrite (for_loop_ext
             (sequence_body samplePoints functionNumber reference s)
             (sequence_body samplePoints' functionNumber reference s));
    [reflexivity|].
  intros t [[[sums sumerror] maxerror] sign] Ht.
  unfold sequence_body, evaluateFunction, table_get.
  destruct (in_bounds t s); [|reflexivity].
  rewrite (H t s) by lia. reflexivity.
Qed.

(** X8.  The estimator reads [samplePoints[t][s]] for t < numSequences
    and s < numSamples only: on two tables that agree there it ends the
    same way, with the same sums, the same output and the same rows,
    whatever the rest of the tables holds. *)
Theorem estimator_reads_the_declared_block :
  forall (libc : Libc) (samplePoints samplePoints' : table)
    (functionNumber numSequences : Z) (reference : double) (numSamples : Z),
  (forall t s, 0 <= t < numSequences -> 0 <= s < numSamples ->
     samplePoints t s = samplePoints' t s) ->
  estimate_errors samplePoints functionNumber numSequences reference numSamples
  = estimate_errors samplePoints' functionNumber numSequences reference numSamples.
Proof.
  intros libc samplePoints samplePoints' functionNumber numSequences reference
    numSamples H.
  apply estimate_errors_ext, H.
Qed.

Lemma estimator_reads_the_declared_block_witness :
  (forall t s, 0 <= t < 1 -> 0 <= s < 4 ->
     overlay 4 1 corner_table (fun _ _ => mkPoint 7%float 7%float) t s
     = corner_table t s) /\
  forall libc : Libc,
  estimate_errors (overlay 4 1 corner_table (fun _ _ => mkPoint 7%float 7%float))
    0 1 0.5%float 4
  = estimate_errors corner_table 0 1 0.5%float 4.
Proof.
  split; [intros t s Ht Hs; apply overlay_inside; lia|].
  intros libc.
  apply (estimator_reads_the_declared_block libc
           (overlay 4 1 corner_table (fun _ _ => mkPoint 7%float 7%float))
           corner_table 0 1 0.5%float 4).
  intros t s Ht Hs. apply overlay_inside; lia.
Defined.

(** X9.  A run on fewer samples prints the first lines of the run on
    more samples of the same table: within the capacity of the sample
    table, the rows and the output for numSamples are a prefix of those
    for any greater count.  The samples after the last multiple of four
    print nothing: two counts with the same quotient by 4 give the same
    output, and below 4 samples nothing is printed. *)
Theorem fewer_samples_give_a_prefix :
  forall (libc : Libc) (samplePoints : table) (functionNumber numSequences : Z)
    (reference : double) (numSamples moreSamples : Z),
  numSamples <= moreSamples -> moreSamples <= MAXSAMPLES ->
  numSequences <= MAXTABLES ->
  exists st st' more_rows more_out,
    estimate_errors samplePoints functionNumber numSequences reference numSamples
    = Ok st /\
    estimate_errors samplePoints functionNumber numSequences reference moreSamples
    = Ok st' /\
    rows st' = (rows st ++ more_rows)%list /\
    stdout st' = (stdout st ++ more_out)%list /\
    (numSamples / 4 = moreSamples / 4 -> stdout st' = stdout st) /\
    (numSamples < 4 -> stdout st = []).
Proof.
  intros libc samplePoints functionNumber numSequences reference numSamples
    moreSamples Hle HN Hn.
  rewrite (estimate_errors_spec samplePoints functionNumber numSequences reference
             numSamples) by (apply within_capacity_intro; lia).
  rewrite (estimate_errors_spec samplePoints functionNumber numSequences reference
             moreSamples) by (apply within_capacity_intro; lia).
  do 4 eexists. split; [reflexivity|]. split; [reflexivity|]. cbn [rows stdout].
  split; [|split; [|split]].
  - replace (Z.to_nat moreSamples)
      with (Z.to_nat numSamples + (Z.to_nat moreSamples - Z.to_nat numSamples))%nat
      by lia.
    rewrite Zseq_app, map_app. reflexivity.
  - replace (Z.to_nat moreSamples)
      with (Z.to_nat numSamples + (Z.to_nat moreSamples - Z.to_nat numSamples))%nat
      by lia.
    rewrite Zseq_app, flat_map_app. reflexivity.
  - intros Hq. rewrite !report_all. now rewrite Hq.
  - intros H4. rewrite report_all.
    replace (Z.to_nat (numSamples / 4)) with 0%nat; [reflexivity|].
    destruct (Z_lt_ge_dec numSamples 0) as [Hneg|Hpos].
    + assert (numSamples / 4 < 0) by (apply Z.div_lt_upper_bound; lia). lia.
    + rewrite Z.div_small by lia. reflexivity.
Qed.

Lemma fewer_samples_give_a_prefix_witness :
  4 <= 8 /\ 8 <= MAXSAMPLES /\ 1 <= MAXTABLES /\
  forall libc : Libc,
  exists st st' more_rows more_out,
    estimate_errors corner_table 0 1 0.5%float 4 = Ok st /\
    estimate_errors corner_table 0 1 0.5%float 8 = Ok st' /\
    rows st' = (rows st ++ more_rows)%list /\
    stdout st' = (stdout st ++ more_out)%list /\
    (4 / 4 = 8 / 4 -> stdout st' = stdout st) /\
    (4 < 4 -> stdout st = []).
Proof.
  split; [lia|]. split; [unfold MAXSAMPLES; lia|]. split; [unfold MAXTABLES; lia|].
  intros libc.
  apply (fewer_samples_give_a_prefix libc corner_table 0 1 0.5%float 4 8);
    [lia | unfold MAXSAMPLES; lia | unfold MAXTABLES; lia].
Defined.

(** X10.  With numSequences = 0 the estimator reads no sample, whatever
    numSamples is: every average error is 0.0 / 0, the NaN that the
    division makes, whose sign bit is set, every maximum is 0, and one line
    in four is printed, with [-nan] for that NaN. *)
Theorem no_sequence_gives_nan :
  forall (libc : Libc) (samplePoints : table) (functionNumber : Z)
    (reference : double) (numSamples : Z),
  estimate_errors samplePoints functionNumber 0 reference numSamples
  = Ok (mkEstimator []
          (flat_map
             (fun k => [Printf (format_i (4 * k) ++ " -nan" ++ nl)%string; Fflush])
             (Zseq 1 (Z.to_nat (numSamples / 4))))
          (map (fun s => mkRow (s + 1) nan 0%float)
             (Zseq 0 (Z.to_nat numSamples)))) /\
  PrimFloat.is_nan (0%float / double_of_int 0)%double = true /\
  nan_sign 0%float false (double_of_int 0) false = true.
Proof.
  intros libc samplePoints functionNumber reference numSamples.
  split; [|split; reflexivity].
  rewrite estimate_errors_spec.
  - rewrite report_all. reflexivity.
  - unfold no_access. cbn. now rewrite !orb_true_r.
Qed.

(** ** The integrands under an exchange of the coordinates *)

Lemma SFmul_comm x y : SFmul prec emax x y = SFmul prec emax y x.
Proof.
  destruct x as [sx|sx| |sx mx ex], y as [sy|sy| |sy my ey]; cbn;
    rewrite ?(xorb_comm sx sy); try reflexivity.
  now rewrite Pos.mul_comm, Z.add_comm.
Qed.

Lemma SFadd_comm x y : SFadd prec emax x y = SFadd prec emax y x.
Proof.
  destruct x as [sx|sx| |sx mx ex], y as [sy|sy| |sy my ey]; cbn;
    try reflexivity; try (destruct sx, sy; reflexivity).
  rewrite (Z.min_comm ey ex). f_equal. apply Z.add_comm.
Qed.

Lemma double_mul_comm (a b : double) : (a * b = b * a)%double.
Proof.
  apply Prim2SF_inj. rewrite !mul_spec. apply SFmul_comm.
Qed.

Lemma double_add_comm (a b : double) : (a + b = b + a)%double.
Proof.
  apply Prim2SF_inj. rewrite !add_spec. apply SFadd_comm.
Qed.

Lemma binary_round_aux_opp sx mx ex lx :
  binary_round_aux prec emax (negb sx) mx ex lx
  = SFopp (binary_round_aux prec emax sx mx ex lx).
Proof.
  unfold binary_round_aux.
  destruct (shr_fexp prec emax mx ex lx) as [mrs' e'].
  destruct (shr_fexp prec emax _ e' loc_Exact) as [mrs'' e''].
  destruct (shr_m mrs''); cbn; try reflexivity.
  destruct (_ <=? _); reflexivity.
Qed.

Lemma SFmul_opp_l x y :
  SFmul prec emax (SFopp x) y = SFopp (SFmul prec emax x y).
Proof.
  destruct x as [sx|sx| |sx mx ex], y as [sy|sy| |sy my ey]; cbn;
    try reflexivity; try (now rewrite <- negb_xorb_l).
  rewrite <- negb_xorb_l. apply binary_round_aux_opp.
Qed.

Lemma SFsub_opp_swap a b :
  SFsub prec emax (SFopp a) b = SFsub prec emax (SFopp b) a.
Proof.
  destruct a as [sa|sa| |sa ma ea], b as [sb|sb| |sb mb eb]; cbn;
    try reflexivity; try (destruct sa, sb; reflexivity);
    try (destruct sa; reflexivity); try (destruct sb; reflexivity).
  rewrite (Z.min_comm eb ea). f_equal.
  destruct sa, sb; cbn; lia.
Qed.

(** [(-a) * a - b * b] is [(-b) * b - a * a]. *)
Lemma double_gaussian_exponent (a b : double) :
  ((- a) * a - b * b = (- b) * b - a * a)%double.
Proof.
  apply Prim2SF_inj. rewrite !sub_spec, !mul_spec, !opp_spec.
  unfold SF64sub, SF64mul. rewrite !SFmul_opp_l. apply SFsub_opp_swap.
Qed.

Lemma symmetric_integrands {libc : Libc} (x y : double) :
  quarterdisk x y = quarterdisk y x /\
  fulldisk x y = fulldisk y x /\
  triangle x y = triangle y x /\
  quarterdiskramp x y = quarterdiskramp y x /\
  fulldiskramp x y = fulldiskramp y x /\
  quartergaussian2D x y = quartergaussian2D y x /\
  fullgaussian2D x y = fullgaussian2D y x /\
  bilinear x y = bilinear y x /\
  sinxy x y = sinxy y x /\
  sininvr x y = sininvr y x.
Proof.
  unfold quarterdisk, fulldisk, triangle, quarterdiskramp, fulldiskramp,
    quartergaussian2D, fullgaussian2D, bilinear, sinxy, sininvr.
  cbv zeta.
  rewrite (double_add_comm (x * x) (y * y)).
  rewrite (double_add_comm ((x - 0.5%float) * (x - 0.5%float))
             ((y - 0.5%float) * (y - 0.5%float))).
  rewrite (double_add_comm x y).
  rewrite (double_gaussian_exponent x y).
  rewrite (double_gaussian_exponent (x - 0.5%float) (y - 0.5%float)).
  rewrite (double_mul_comm x y).
  repeat (split; [reflexivity|]). reflexivity.
Qed.

(** X11.  Ten of the integrands of two variables give the same value at
    (x, y) and at (y, x), in double arithmetic and for every x and y: the
    two disks, the triangle, the two disk ramps, the two Gaussians,
    [bilinear], [sinxy] and [sininvr].  [biquadratic], evaluated as
    ((x*x)*y)*y, does not: it differs at (0.1, 0.3) and (0.3, 0.1). *)
Theorem integrands_exchange_coordinates :
  forall (libc : Libc) (x y : double),
  (quarterdisk x y = quarterdisk y x /\
   fulldisk x y = fulldisk y x /\
   triangle x y = triangle y x /\
   quarterdiskramp x y = quarterdiskramp y x /\
   fulldiskramp x y = fulldiskramp y x /\
   quartergaussian2D x y = quartergaussian2D y x /\
   fullgaussian2D x y = fullgaussian2D y x /\
   bilinear x y = bilinear y x /\
   sinxy x y = sinxy y x /\
   sininvr x y = sininvr y x) /\
  biquadratic 0.1%float 0.3%float <> biquadratic 0.3%float 0.1%float.
Proof.
  intros libc x y. split; [apply symmetric_integrands|].
  intros H. apply (f_equal Prim2SF) in H. vm_compute in H. discriminate H.
Qed.

(** ** The integrands under a change of sign of a coordinate *)

Lemma SFopp_involutive x : SFopp (SFopp x) = x.
Proof. destruct x as [s|s| |s m e]; cbn; now rewrite ?negb_involutive. Qed.

Lemma double_opp_involutive (a : double) : (- - a = a)%double.
Proof. apply Prim2SF_inj. rewrite !opp_spec. apply SFopp_involutive. Qed.

Lemma double_mul_opp_l (a b : double) : ((- a) * b = - (a * b))%double.
Proof.
  apply Prim2SF_inj. rewrite opp_spec, !mul_spec, opp_spec. apply SFmul_opp_l.
Qed.

Lemma double_mul_opp_r (a b : double) : (a * (- b) = - (a * b))%double.
Proof.
  now rewrite (double_mul_comm a (- b)), double_mul_opp_l, (double_mul_comm b a).
Qed.

(** X27.  The integrands that are centred at the origin do not depend on
    the signs of the coordinates, in double arithmetic and for every x
    and y: [quarterdisk], [quarterdiskramp], [quartergaussian2D],
    [biquadratic] and [sininvr] give the same value at (-x, y) and at
    (x, -y) as at (x, y), and [gaussian1D] the same at -x as at x;
    [bilinear] changes its sign with each coordinate. *)
Theorem integrands_change_of_sign :
  forall (libc : Libc) (x y : double),
  (quarterdisk (- x) y = quarterdisk x y /\
   quarterdisk x (- y) = quarterdisk x y) /\
  (quarterdiskramp (- x) y = quarterdiskramp x y /\
   quarterdiskramp x (- y) = quarterdiskramp x y) /\
  (quartergaussian2D (- x) y = quartergaussian2D x y /\
   quartergaussian2D x (- y) = quartergaussian2D x y) /\
  (biquadratic (- x) y = biquadratic x y /\
   biquadratic x (- y) = biquadratic x y) /\
  (sininvr (- x) y = sininvr x y /\ sininvr x (- y) = sininvr x y) /\
  gaussian1D (- x) = gaussian1D x /\
  (bilinear (- x) y = (- bilinear x y)%double /\
   bilinear x (- y) = (- bilinear x y)%double).
Proof.
  intros libc x y.
  unfold quarterdisk, quarterdiskramp, quartergaussian2D, biquadratic, sininvr,
    gaussian1D, bilinear.
  cbv zeta.
  repeat split;
    repeat (rewrite double_mul_opp_l || rewrite double_mul_opp_r
            || rewrite double_opp_involutive);
    reflexivity.
Qed.

(** ** Signs and values of the integrands *)

Lemma is_nan_eq (a : double) : PrimFloat.is_nan a = true -> Prim2SF a = S754_nan.
Proof.
  rewrite is_nan_spec. destruct (Prim2SF a); cbn; congruence.
Qed.

Lemma double_lt_nan_l (a b : double) :
  PrimFloat.is_nan a = true -> (a < b)%double = false.
Proof.
  intros H. rewrite ltb_spec, (is_nan_eq a H). reflexivity.
Qed.

Lemma double_mul_nan (a b : double) :
  PrimFloat.is_nan a = true \/ PrimFloat.is_nan b = true ->
  PrimFloat.is_nan (a * b)%double = true.
Proof.
  intros H. rewrite is_nan_spec, mul_spec. unfold SF64mul.
  destruct H as [H|H]; rewrite (is_nan_eq _ H);
    [|destruct (Prim2SF a)]; reflexivity.
Qed.

Lemma double_add_nan (a b : double) :
  PrimFloat.is_nan a = true \/ PrimFloat.is_nan b = true ->
  PrimFloat.is_nan (a + b)%double = true.
Proof.
  intros H. rewrite is_nan_spec, add_spec. unfold SF64add.
  destruct H as [H|H]; rewrite (is_nan_eq _ H);
    [|destruct (Prim2SF a)]; reflexivity.
Qed.

Lemma double_sub_nan (a b : double) :
  PrimFloat.is_nan a = true \/ PrimFloat.is_nan b = true ->
  PrimFloat.is_nan (a - b)%double = true.
Proof.
  intros H. rewrite is_nan_spec, sub_spec. unfold SF64sub.
  destruct H as [H|H]; rewrite (is_nan_eq _ H);
    [|destruct (Prim2SF a)]; reflexivity.
Qed.

Lemma discontinuous_values {libc : Libc} (functionNumber : Z) (sample : Point) :
  In functionNumber [0; 1; 2; 12] ->
  applyFunction functionNumber sample = 1%float \/
  applyFunction functionNumber sample = 0%float.
Proof.
  intros H. cbn [In] in H.
  repeat (destruct H as [<-|H];
          [cbn [applyFunction];
           unfold quarterdisk, fulldisk, triangle, step; cbv zeta;
           destruct (_ < _)%double; auto|]).
  contradiction.
Qed.

(** X12.  The four discontinuous integrands take no value but 1 and 0,
    and a sample with a NaN coordinate counts as outside: there they give
    0. *)
Theorem discontinuous_integrands_values :
  forall x y : double,
  (quarterdisk x y = 1%float \/ quarterdisk x y = 0%float) /\
  (fulldisk x y = 1%float \/ fulldisk x y = 0%float) /\
  (triangle x y = 1%float \/ triangle x y = 0%float) /\
  (step x = 1%float \/ step x = 0%float) /\
  (PrimFloat.is_nan x = true \/ PrimFloat.is_nan y = true ->
   quarterdisk x y = 0%float /\ fulldisk x y = 0%float /\
   triangle x y = 0%float) /\
  (PrimFloat.is_nan x = true -> step x = 0%float).
Proof.
  intros x y. unfold quarterdisk, fulldisk, triangle, step. cbv zeta.
  split; [destruct (_ < _)%double; auto|].
  split; [destruct (_ < _)%double; auto|].
  split; [destruct (_ < _)%double; auto|].
  split; [destruct (_ < _)%double; auto|].
  split.
  - intros H.
    rewrite (double_lt_nan_l (x * x + y * y)%double).
    2: { apply double_add_nan.
         destruct H as [H|H]; [left | right]; apply double_mul_nan; auto. }
    rewrite (double_lt_nan_l ((x - 0.5%float) * (x - 0.5%float)
                              + (y - 0.5%float) * (y - 0.5%float))%double).
    2: { apply double_add_nan.
         destruct H as [H|H]; [left | right];
           apply double_mul_nan; left; apply double_sub_nan; auto. }
    rewrite (double_lt_nan_l (x + y)%double) by (apply double_add_nan, H).
    auto.
  - intros H. now rewrite double_lt_nan_l.
Qed.

Lemma discontinuous_integrands_values_witness :
  PrimFloat.is_nan nan = true /\
  map (fun y => quarterdisk nan y) [0%float; 1%float] = [0%float; 0%float] /\
  (quarterdisk nan 0%float = 1%float \/ quarterdisk nan 0%float = 0%float) /\
  (fulldisk nan 0%float = 1%float \/ fulldisk nan 0%float = 0%float) /\
  (triangle nan 0%float = 1%float \/ triangle nan 0%float = 0%float) /\
  (step nan = 1%float \/ step nan = 0%float) /\
  (PrimFloat.is_nan nan = true \/ PrimFloat.is_nan 0%float = true ->
   quarterdisk nan 0%float = 0%float /\ fulldisk nan 0%float = 0%float /\
   triangle nan 0%float = 0%float) /\
  (PrimFloat.is_nan nan = true -> step nan = 0%float).
Proof.
  split; [reflexivity|]. split; [reflexivity|].
  apply (discontinuous_integrands_values nan 0%float).
Defined.

Lemma binary_round_aux_sign sx mx ex lx :
  SFsign_is sx (binary_round_aux prec emax sx mx ex lx) = true.
Proof.
  unfold binary_round_aux.
  destruct (shr_fexp prec emax mx ex lx) as [mrs' e'].
  destruct (shr_fexp prec emax _ e' loc_Exact) as [mrs'' e''].
  destruct (shr_m mrs''); cbn; try reflexivity; try apply eqb_reflx.
  destruct (_ <=? _); cbn; apply eqb_reflx.
Qed.

Lemma SFmul_sign sx sy x y :
  SFsign_is sx x = true -> SFsign_is sy y = true ->
  SFsign_is (xorb sx sy) (SFmul prec emax x y) = true.
Proof.
  destruct x as [s1|s1| |s1 m1 e1], y as [s2|s2| |s2 m2 e2]; cbn;
    intros H1 H2; try reflexivity;
    try (apply eqb_prop in H1; apply eqb_prop in H2; subst;
         first [apply eqb_reflx | apply binary_round_aux_sign]).
Qed.

Lemma SFsign_is_total x : exists s, SFsign_is s x = true.
Proof.
  destruct x as [s|s| |s m e]; cbn;
    first [exists s; apply eqb_reflx | exists false; reflexivity].
Qed.

Lemma SFsign_is_not_negative x :
  SFsign_is false x = true <-> SFnot_negative x = true.
Proof.
  destruct x as [[|]|[|]| |[|] m e]; cbn; split; congruence.
Qed.

(** X13.  [biquadratic] is never negative, whatever the signs of x and
    y: its value is not below 0, and it is 0 or above unless it is NaN.
    [bilinear] is not negative on coordinates that are not. *)
Theorem biquadratic_is_not_negative :
  forall x y : double,
  (biquadratic x y < 0%float)%double = false /\
  (PrimFloat.is_nan (biquadratic x y) = false ->
   (0%float <= biquadratic x y)%double = true) /\
  (not_negative x = true -> not_negative y = true ->
   not_negative (bilinear x y) = true).
Proof.
  intros x y.
  assert (Hbq : not_negative (biquadratic x y) = true).
  { unfold not_negative, biquadratic. rewrite !mul_spec. unfold SF64mul.
    apply (proj1 (SFsign_is_not_negative _)).
    destruct (SFsign_is_total (Prim2SF x)) as [sx Hx].
    destruct (SFsign_is_total (Prim2SF y)) as [sy Hy].
    replace false with (xorb (xorb (xorb sx sx) sy) sy)
      by (destruct sx, sy; reflexivity).
    apply (SFmul_sign (xorb (xorb sx sx) sy) sy); [|exact Hy].
    apply (SFmul_sign (xorb sx sx) sy); [|exact Hy].
    apply (SFmul_sign sx sx); exact Hx. }
  split; [apply not_negative_lt_0, Hbq|].
  split; [intros Hnan; apply not_negative_ge_0; assumption|].
  intros Hx Hy. unfold not_negative, bilinear in *.
  rewrite mul_spec. apply (proj1 (SFsign_is_not_negative _)).
  apply (SFmul_sign false false); apply (proj2 (SFsign_is_not_negative _)); assumption.
Qed.

Lemma biquadratic_is_not_negative_witness :
  not_negative 0.5%float = true /\ not_negative 0.25%float = true /\
  biquadratic (-0.5)%float (-0.25)%float = 0.015625%float /\
  (biquadratic (-0.5)%float (-0.25)%float < 0%float)%double = false /\
  (PrimFloat.is_nan (biquadratic (-0.5)%float (-0.25)%float) = false ->
   (0%float <= biquadratic (-0.5)%float (-0.25)%float)%double = true) /\
  (not_negative (-0.5)%float = true -> not_negative (-0.25)%float = true ->
   not_negative (bilinear (-0.5)%float (-0.25)%float) = true).
Proof.
  split; [reflexivity|]. split; [reflexivity|]. split; [reflexivity|].
  apply (biquadratic_is_not_negative (-0.5)%float (-0.25)%float).
Defined.

(** ** The decimal conversion before white space *)

Lemma span_digits_app (a : stream) (c : ascii) (rest : stream) :
  is_digit c = false ->
  span_digits (a ++ c :: rest)
  = (fst (span_digits a), (snd (span_digits a) ++ c :: rest)%list).
Proof.
  intros Hc. induction a as [|d a IH]; cbn [app span_digits].
  - now rewrite Hc.
  - destruct (is_digit d); [|reflexivity].
    rewrite IH. destruct (span_digits a) as [ds r]. reflexivity.
Qed.

Lemma scan_sign_app (a : stream) (c : ascii) (rest : stream) :
  isspace c = true ->
  scan_sign (a ++ c :: rest)
  = (fst (scan_sign a), (snd (scan_sign a) ++ c :: rest)%list).
Proof.
  intros Hc. destruct a as [|d a]; cbn [app].
  - ascii_cases c; try discriminate Hc; reflexivity.
  - ascii_cases d; reflexivity.
Qed.

Lemma isspace_not_digit (c : ascii) : isspace c = true -> is_digit c = false.
Proof. ascii_cases c; intros H; try discriminate H; reflexivity. Qed.

Lemma scan_exponent_app (a : stream) (c : ascii) (rest : stream) :
  isspace c = true ->
  scan_exponent (a ++ c :: rest)
  = (fst (scan_exponent a), (snd (scan_exponent a) ++ c :: rest)%list).
Proof.
  intros Hc. destruct a as [|d a]; cbn [app].
  - cbn [scan_exponent].
    replace (Ascii.eqb c "e" || Ascii.eqb c "E") with false; [reflexivity|].
    ascii_cases c; try discriminate Hc; reflexivity.
  - cbn [scan_exponent].
    destruct (Ascii.eqb d "e" || Ascii.eqb d "E"); [|reflexivity].
    rewrite (scan_sign_app a c rest Hc).
    destruct (scan_sign a) as [neg fd2]. cbn [fst snd].
    rewrite (span_digits_app fd2 c rest (isspace_not_digit c Hc)).
    destruct (span_digits fd2) as [[|d' ds] fd3]; reflexivity.
Qed.

Lemma scan_fraction_app (a : stream) (c : ascii) (rest : stream) :
  isspace c = true ->
  scan_fraction (a ++ c :: rest)
  = (fst (scan_fraction a), (snd (scan_fraction a) ++ c :: rest)%list).
Proof.
  intros Hc. destruct a as [|d a]; cbn [app].
  - ascii_cases c; try discriminate Hc; reflexivity.
  - ascii_cases d; try reflexivity.
    cbn [scan_fraction].
    now rewrite (span_digits_app a c rest (isspace_not_digit c Hc)).
Qed.

Lemma decimal_scan_parts (a : stream) :
  decimal_scan a
  = let (neg, fd1) := scan_sign a in
    let (ip, fd2) := span_digits fd1 in
    let (fp, fd3) := scan_fraction fd2 in
    match (ip ++ fp)%list with
    | [] => (None, a)
    | ds =>
        let (ex, fd4) := scan_exponent fd3 in
        (Some (decimal_value neg (digits_value ds)
                 (ex - Z.of_nat (List.length fp))), fd4)
    end.
Proof. reflexivity. Qed.

Lemma decimal_scan_app (a : stream) (c : ascii) (rest : stream) :
  isspace c = true ->
  decimal_scan (a ++ c :: rest)
  = (fst (decimal_scan a), (snd (decimal_scan a) ++ c :: rest)%list).
Proof.
  intros Hc. rewrite !decimal_scan_parts.
  rewrite (scan_sign_app a c rest Hc).
  destruct (scan_sign a) as [neg fd1]. cbn [fst snd].
  rewrite (span_digits_app fd1 c rest (isspace_not_digit c Hc)).
  destruct (span_digits fd1) as [ip fd2]. cbn [fst snd].
  rewrite (scan_fraction_app fd2 c rest Hc).
  destruct (scan_fraction fd2) as [fp fd3]. cbn [fst snd].
  destruct (ip ++ fp)%list as [|d ds]; [reflexivity|].
  rewrite (scan_exponent_app fd3 c rest Hc).
  destruct (scan_exponent fd3) as [ex fd4]. reflexivity.
Qed.

(** A failed conversion leaves the whole text to read. *)
Lemma decimal_scan_None (a : stream) :
  fst (decimal_scan a) = None -> snd (decimal_scan a) = a.
Proof.
  rewrite decimal_scan_parts.
  destruct (scan_sign a) as [neg fd1].
  destruct (span_digits fd1) as [ip fd2].
  destruct (scan_fraction fd2) as [fp fd3].
  destruct (ip ++ fp)%list as [|d ds]; [reflexivity|].
  destruct (scan_exponent fd3) as [ex fd4]. discriminate.
Qed.

(** ** The reader on a well-formed file *)

Lemma file_of_lines_app (a b : list string) :
  file_of_lines (a ++ b) = (file_of_lines a ++ file_of_lines b)%list.
Proof.
  induction a as [|l a IH]; cbn [app file_of_lines]; [reflexivity|].
  now rewrite IH, <- app_assoc.
Qed.

Lemma skip_space_spaces (ws fd : stream) :
  forallb isspace ws = true -> skip_space (ws ++ fd) = skip_space fd.
Proof.
  induction ws as [|c ws IH]; cbn [app forallb skip_space]; [reflexivity|].
  intros H. apply andb_prop in H. destruct H as [Hc Hws].
  rewrite Hc. apply IH, Hws.
Qed.

Lemma decimal_scan_space (c : ascii) (fd : stream) :
  isspace c = true -> fst (decimal_scan (c :: fd)) = None.
Proof.
  intros Hc. ascii_cases c; try discriminate Hc; reflexivity.
Qed.

Lemma number_text_spec (a : string) :
  number_text a = true ->
  decimal_scan (list_ascii_of_string a) = (Some (number_value a), []) /\
  exists c fd, list_ascii_of_string a = c :: fd /\ isspace c = false.
Proof.
  unfold number_text, number_value. intros H.
  destruct (decimal_scan (list_ascii_of_string a)) as [[v|] [|d left]] eqn:E;
    try discriminate H.
  split; [reflexivity|].
  destruct (list_ascii_of_string a) as [|c fd]; [discriminate E|].
  exists c, fd. split; [reflexivity|].
  destruct (isspace c) eqn:Hc; [|reflexivity].
  pose proof (decimal_scan_space c fd Hc) as Hn. rewrite E in Hn. discriminate Hn.
Qed.

Section Decimal.
Variables exp sin : double -> double.
Variable indet : Indeterminate.

(** One pair on its line, after white space: both values are stored and
    the newline that ends the line is left to read. *)
Lemma fscanf_lf_lf_pair (ws : stream) (p : string * string) (rest : stream)
  (x y : double) :
  forallb isspace ws = true ->
  number_text (fst p) && number_text (snd p) = true ->
  fscanf_lf_lf (libc := libc_decimal exp sin)
    (ws ++ list_ascii_of_string (sample_line p) ++ newline :: rest) x y
  = (2, number_value (fst p), number_value (snd p), newline :: rest).
Proof.
  intros Hws Hp. apply andb_prop in Hp. destruct Hp as [Ha Hb].
  destruct (number_text_spec _ Ha) as (Ea & ca & fa & Eca & Hca).
  destruct (number_text_spec _ Hb) as (Eb & cb & fb & Ecb & Hcb).
  unfold sample_line, fscanf_lf_lf.
  rewrite (skip_space_spaces ws _ Hws).
  rewrite !list_ascii_of_string_app. cbn [list_ascii_of_string app].
  rewrite <- !app_assoc. cbn [app].
  rewrite Eca. cbn [app skip_space]. rewrite Hca.
  change (scan_double (ca :: fa ++ " "%char :: list_ascii_of_string (snd p) ++ newline :: rest)%list)
    with (decimal_scan ((ca :: fa) ++ " "%char :: list_ascii_of_string (snd p) ++ newline :: rest)%list).
  rewrite decimal_scan_app by reflexivity.
  rewrite <- Eca, Ea. cbn [fst snd app skip_space].
  change (isspace " ") with true. cbv iota.
  rewrite Ecb. cbn [app skip_space]. rewrite Hcb.
  change (scan_double (cb :: fb ++ newline :: rest)%list)
    with (decimal_scan ((cb :: fb) ++ newline :: rest)%list).
  rewrite decimal_scan_app by reflexivity.
  rewrite <- Ecb, Eb. reflexivity.
Qed.

Lemma last_cons_indep {A : Type} (l : list A) (a d d' : A) :
  last (a :: l) d = last (a :: l) d'.
Proof.
  revert a. induction l as [|b l IH]; intros a; [reflexivity|].
  change (last (a :: b :: l) d) with (last (b :: l) d).
  change (last (a :: b :: l) d') with (last (b :: l) d').
  apply IH.
Qed.

(** The samples of one sequence, the first one after the white space
    [ws]: all are stored in row [t] from column [s0] on, and the loop goes
    on after them with the newline of the last line still to read. *)
Lemma read_samples_lines (t : Z) :
  forall (ps : list (string * string)) (p : string * string) (s0 : Z)
    (st : reader_state) (ws tail : stream),
  forallb isspace ws = true ->
  forallb (fun p => number_text (fst p) && number_text (snd p)) (p :: ps) = true ->
  (forall s, s0 <= s < s0 + Z.of_nat (List.length (p :: ps)) ->
     in_bounds t s = true) ->
  r_fd st = (ws ++ file_of_lines (map sample_line (p :: ps)) ++ tail)%list ->
  exists st',
    (forall k,
       for_loop_break (List.length (p :: ps) + k) s0
         (read_sample (libc := libc_decimal exp sin) t) st
       = for_loop_break k (s0 + Z.of_nat (List.length (p :: ps)))
           (read_sample (libc := libc_decimal exp sin) t) st') /\
    r_fd st' = newline :: tail /\
    mkPoint (r_x st') (r_y st') = sample_point (last ps p) /\
    forall t' s',
      r_samplePoints st' t' s'
      = if (t' =? t) && (s0 <=? s')
        then match nth_error (p :: ps) (Z.to_nat (s' - s0)) with
             | Some q => sample_point q
             | None => r_samplePoints st t' s'
             end
        else r_samplePoints st t' s'.
Proof.
  induction ps as [|p' ps IH]; intros p s0 st ws tail Hws Hgood Hbounds Hfd.
  - cbn [forallb] in Hgood. apply andb_prop in Hgood. destruct Hgood as [Hp _].
    eexists. split; [|split; [|split]].
    + intros k. cbn [List.length Nat.add for_loop_break]. unfold read_sample at 1.
      rewrite Hfd. cbn [map file_of_lines app]. rewrite <- app_assoc. cbn [app].
      rewrite (fscanf_lf_lf_pair ws p tail _ _ Hws Hp).
      change (2 =? -1) with false. cbv iota.
      unfold table_set. rewrite (Hbounds s0) by (cbn [List.length]; lia).
      cbn [bind]. reflexivity.
    + reflexivity.
    + reflexivity.
    + intros t' s'. cbn [r_samplePoints].
      destruct (Z.eqb_spec t' t) as [->|Ht]; cbn [andb].
      * destruct (Z.eqb_spec s' s0) as [->|Hs].
        -- rewrite Z.leb_refl, Z.sub_diag. reflexivity.
        -- destruct (Z.leb_spec s0 s'); [|reflexivity].
           replace (Z.to_nat (s' - s0)) with (S (Z.to_nat (s' - s0 - 1))) by lia.
           cbn [nth_error]. now destruct (Z.to_nat (s' - s0 - 1)).
      * reflexivity.
  - cbn [forallb] in Hgood. apply andb_prop in Hgood. destruct Hgood as [Hp Hrest].
    pose (st1 := mkReader
                   (newline :: file_of_lines (map sample_line (p' :: ps)) ++ tail)%list
                   (number_value (fst p)) (number_value (snd p))
                   (fun t' s' => if (t' =? t) && (s' =? s0)
                                 then mkPoint (number_value (fst p)) (number_value (snd p))
                                 else r_samplePoints st t' s')).
    destruct (IH p' (s0 + 1) st1 [newline] tail) as (st' & Hloop & Hfd' & Hxy & Htab).
    + reflexivity.
    + exact Hrest.
    + intros s Hs. apply Hbounds.
      change (List.length (p :: p' :: ps)) with (S (List.length (p' :: ps))). lia.
    + reflexivity.
    + exists st'. split; [|split; [|split]].
      * intros k.
        change (List.length (p :: p' :: ps) + k)%nat
          with (S (List.length (p' :: ps) + k)).
        cbn [for_loop_break]. unfold read_sample at 1.
        rewrite Hfd. cbn [map file_of_lines app]. rewrite <- app_assoc. cbn [app].
        rewrite (fscanf_lf_lf_pair ws p _ _ _ Hws Hp).
        change (2 =? -1) with false. cbv iota.
        unfold table_set.
        rewrite (Hbounds s0) by (change (List.length (p :: p' :: ps))
                                   with (S (List.length (p' :: ps))); lia).
        cbn [bind].
        match goal with
        | |- for_loop_break ?n ?i ?b _ = ?rhs =>
            change (for_loop_break n i b st1 = rhs)
        end.
        rewrite Hloop.
        f_equal. change (List.length (p :: p' :: ps)) with (S (List.length (p' :: ps))).
        lia.
      * exact Hfd'.
      * rewrite Hxy. f_equal.
        destruct ps as [|q ps]; [reflexivity|].
        change (last (q :: ps) p' = last (q :: ps) p).
        apply last_cons_indep.
      * intros t' s'. rewrite Htab. cbn [r_samplePoints st1].
        destruct (Z.eqb_spec t' t) as [->|Ht]; cbn [andb]; [|reflexivity].
        destruct (Z.eqb_spec s' s0) as [->|Hs].
        -- rewrite Z.leb_refl, Z.sub_diag.
           replace (s0 + 1 <=? s0) with false by (symmetry; apply Z.leb_gt; lia).
           reflexivity.
        -- destruct (Z.leb_spec (s0 + 1) s'), (Z.leb_spec s0 s'); try lia;
             [|reflexivity].
           replace (Z.to_nat (s' - s0)) with (S (Z.to_nat (s' - (s0 + 1)))) by lia.
           cbn [nth_error]. reflexivity.
Qed.

(** [n] lines are skipped by [n] calls of [skipLine], whatever their
    uninitialised [c] holds. *)
Lemma skip_lines (body : Z -> ascii) :
  forall (lines : list string) (i : Z) (rest : stream),
  forallb one_line lines = true ->
  for_loop (List.length lines) i
    (fun line fd =>
       match skipLine (body line) fd with
       | Some fd' => Ok fd'
       | None => Hang
       end) (file_of_lines lines ++ rest)%list
  = Ok rest.
Proof.
  induction lines as [|l lines IH]; intros i rest H; [reflexivity|].
  cbn [forallb] in H. apply andb_prop in H. destruct H as [Hl Hlines].
  cbn [List.length for_loop file_of_lines]. rewrite <- app_assoc. cbn [app].
  rewrite (skipLine_line _ l _ Hl). cbn [bind]. apply IH, Hlines.
Qed.

Lemma read_sequence_lines (numSamples t : Z)
  (sq : list (string * string) * string) (st : reader_state) (tail : stream) :
  1 <= numSamples <= MAXSAMPLES -> 0 <= t < MAXTABLES ->
  well_formed numSamples sq = true ->
  r_fd st = (file_of_lines (sequence_lines sq) ++ tail)%list ->
  exists st',
    read_sequence (libc := libc_decimal exp sin) indet numSamples t st = Ok st' /\
    r_fd st' = tail /\
    forall t' s',
      r_samplePoints st' t' s'
      = if (t' =? t) && (0 <=? s')
        then match nth_error (fst sq) (Z.to_nat s') with
             | Some q => sample_point q
             | None => r_samplePoints st t' s'
             end
        else r_samplePoints st t' s'.
Proof.
  intros HN Ht Hwf Hfd. unfold well_formed in Hwf.
  apply andb_prop in Hwf. destruct Hwf as [Hwf Hline].
  apply andb_prop in Hwf. destruct Hwf as [Hlen Hgood].
  apply Z.eqb_eq in Hlen.
  destruct sq as [[|p ps] following]; cbn [fst snd] in *;
    [cbn [List.length] in Hlen; lia|].
  unfold read_sequence.
  replace (Z.to_nat numSamples) with (List.length (p :: ps)) by lia.
  destruct (read_samples_lines t ps p 0 st [] (file_of_lines [following] ++ tail))
    as (st1 & Hloop & Hfd1 & _ & Htab).
  - reflexivity.
  - exact Hgood.
  - intros s Hs. apply in_bounds_within; lia.
  - rewrite Hfd. unfold sequence_lines. cbn [fst snd].
    rewrite file_of_lines_app, <- app_assoc. reflexivity.
  - specialize (Hloop 0%nat). rewrite Nat.add_0_r in Hloop.
    rewrite Hloop. cbn [for_loop_break bind]. unfold skipLines.
    rewrite Hfd1.
    change (newline :: file_of_lines [following] ++ tail)%list
      with (file_of_lines [EmptyString; following] ++ tail)%list.
    assert (Hskip : forallb one_line [EmptyString; following] = true)
      by (cbn [forallb]; rewrite Hline; reflexivity).
    pose proof (skip_lines (indet_c indet t) [EmptyString; following] 0 tail Hskip)
      as Hlines.
    cbn [List.length] in Hlines. rewrite Hlines.
    cbn [bind]. eexists. split; [reflexivity|]. cbn [r_fd r_samplePoints].
    split; [reflexivity|]. intros t' s'. rewrite Htab.
    now rewrite Z.sub_0_r.
Qed.

Lemma read_sequences_lines (numSamples : Z) :
  forall (seqs : list (list (string * string) * string)) (t0 : Z)
    (st : reader_state) (tail : stream),
  1 <= numSamples <= MAXSAMPLES ->
  0 <= t0 -> t0 + Z.of_nat (List.length seqs) <= MAXTABLES ->
  forallb (well_formed numSamples) seqs = true ->
  r_fd st = (file_of_lines (flat_map sequence_lines seqs) ++ tail)%list ->
  exists st',
    for_loop (List.length seqs) t0
      (read_sequence (libc := libc_decimal exp sin) indet numSamples) st = Ok st' /\
    r_fd st' = tail /\
    forall t s,
      r_samplePoints st' t s
      = if (t0 <=? t) && (0 <=? s)
        then match nth_error seqs (Z.to_nat (t - t0)) with
             | Some sq =>
                 match nth_error (fst sq) (Z.to_nat s) with
                 | Some q => sample_point q
                 | None => r_samplePoints st t s
                 end
             | None => r_samplePoints st t s
             end
        else r_samplePoints st t s.
Proof.
  induction seqs as [|sq seqs IH]; intros t0 st tail HN Ht0 Hcap Hwf Hfd.
  - cbn [List.length for_loop]. exists st. split; [reflexivity|].
    split; [exact Hfd|]. intros t s.
    destruct ((t0 <=? t) && (0 <=? s)); [|reflexivity].
    now destruct (Z.to_nat (t - t0)).
  - cbn [forallb] in Hwf. apply andb_prop in Hwf. destruct Hwf as [Hsq Hseqs].
    cbn [List.length] in Hcap.
    destruct (read_sequence_lines numSamples t0 sq st
                (file_of_lines (flat_map sequence_lines seqs) ++ tail))
      as (st1 & Hseq & Hfd1 & Htab1); [lia | lia | exact Hsq | |].
    { rewrite Hfd. cbn [flat_map]. now rewrite file_of_lines_app, <- app_assoc. }
    destruct (IH (t0 + 1) st1 tail HN) as (st' & Hloop & Hfd' & Htab);
      [lia | lia | exact Hseqs | exact Hfd1 |].
    cbn [List.length for_loop]. rewrite Hseq. cbn [bind].
    exists st'. split; [exact Hloop|]. split; [exact Hfd'|].
    intros t s. rewrite Htab.
    destruct (Z.leb_spec 0 s) as [Hs|Hs]; rewrite ?andb_false_r, ?andb_true_r.
    + destruct (Z.eqb_spec t t0) as [->|Hne].
      * replace (t0 + 1 <=? t0) with false by (symmetry; apply Z.leb_gt; lia).
        rewrite Z.leb_refl, Z.sub_diag. cbn [nth_error].
        rewrite Htab1, Z.eqb_refl. cbn [andb].
        replace (0 <=? s) with true by (symmetry; apply Z.leb_le; lia).
        reflexivity.
      * destruct (Z.leb_spec (t0 + 1) t), (Z.leb_spec t0 t); try lia.
        -- replace (Z.to_nat (t - t0)) with (S (Z.to_nat (t - (t0 + 1)))) by lia.
           cbn [nth_error]. rewrite Htab1.
           replace (t =? t0) with false by (symmetry; apply Z.eqb_neq; lia).
           reflexivity.
        -- rewrite Htab1.
           replace (t =? t0) with false by (symmetry; apply Z.eqb_neq; lia).
           reflexivity.
    + rewrite Htab1.
      replace (0 <=? s) with false by (symmetry; apply Z.leb_gt; lia).
      now rewrite andb_false_r.
Qed.

Lemma read_tables_corpus (numSamples : Z) (h1 h2 h3 : string)
  (seqs : list (list (string * string) * string)) (rest : stream) :
  1 <= numSamples <= MAXSAMPLES ->
  Z.of_nat (List.length seqs) <= MAXTABLES ->
  forallb one_line [h1; h2; h3] = true ->
  forallb (well_formed numSamples) seqs = true ->
  exists st,
    read_tables (libc := libc_decimal exp sin) indet numSamples
      (Z.of_nat (List.length seqs)) (corpus_file h1 h2 h3 seqs ++ rest) = Ok st /\
    r_fd st = rest /\
    forall t s, r_samplePoints st t s = corpus_table seqs t s.
Proof.
  intros HN Hcap Hheader Hwf. unfold read_tables, skipLines, corpus_file.
  rewrite file_of_lines_app, <- app_assoc.
  pose proof (skip_lines (indet_c indet (-1)) [h1; h2; h3] 0
                (file_of_lines (flat_map sequence_lines seqs) ++ rest) Hheader)
    as Hlines.
  cbn [List.length] in Hlines. rewrite Hlines.
  cbn [bind]. rewrite Nat2Z.id.
  match goal with
  | |- exists st, for_loop _ _ _ ?st0 = _ /\ _ =>
      destruct (read_sequences_lines numSamples seqs 0 st0 rest HN)
        as (st & Hloop & Hfd & Htab); [lia | lia | exact Hwf | reflexivity |]
  end.
  exists st. split; [exact Hloop|]. split; [exact Hfd|].
  intros t s. rewrite Htab. cbn [r_samplePoints]. unfold corpus_table.
  rewrite Z.sub_0_r.
  destruct ((0 <=? t) && (0 <=? s)); [|reflexivity].
  destruct (nth_error seqs (Z.to_nat t)) as [sq|]; [|reflexivity].
  destruct (nth_error (fst sq) (Z.to_nat s)); reflexivity.
Qed.

End Decimal.

(** X14.  On a well-formed file (three lines of header, then for each
    sequence numSamples lines of two decimal numbers and one more line),
    with counts within the capacity of the sample table, the reading ends
    with the whole file read, in whatever state the uninitialised locals
    are, and [samplePoints[t][s]] holds the two numbers of line s of
    sequence t; the rest of the table is still zero. *)
Theorem reads_a_well_formed_file :
  forall (exp sin : double -> double) (indet : Indeterminate) (numSamples : Z)
    (h1 h2 h3 : string) (seqs : list (list (string * string) * string))
    (rest : stream),
  1 <= numSamples <= MAXSAMPLES ->
  Z.of_nat (List.length seqs) <= MAXTABLES ->
  forallb one_line [h1; h2; h3] = true ->
  forallb (well_formed numSamples) seqs = true ->
  exists st,
    read_tables (libc := libc_decimal exp sin) indet numSamples
      (Z.of_nat (List.length seqs)) (corpus_file h1 h2 h3 seqs ++ rest) = Ok st /\
    r_fd st = rest /\
    forall t s, r_samplePoints st t s = corpus_table seqs t s.
Proof.
  intros exp sin indet numSamples h1 h2 h3 seqs rest HN Hcap Hheader Hwf.
  apply read_tables_corpus; assumption.
Qed.

Lemma reads_a_well_formed_file_witness :
  1 <= 4 <= MAXSAMPLES /\
  Z.of_nat (List.length corner_sequences) <= MAXTABLES /\
  forallb one_line
    ["// Table of 1 sequence of 4 samples"; "// (the corners)"; "// Sequence 0:"]%string
  = true /\
  forallb (well_formed 4) corner_sequences = true /\
  corpus_file "// Table of 1 sequence of 4 samples" "// (the corners)"
    "// Sequence 0:" corner_sequences = four_corners /\
  map (corpus_table corner_sequences 0) [0; 1; 2; 3; 4]
  = map (corner_table 0) [0; 1; 2; 3; 4] /\
  forall (exp sin : double -> double) (indet : Indeterminate),
  exists st,
    read_tables (libc := libc_decimal exp sin) indet 4
      (Z.of_nat (List.length corner_sequences))
      (corpus_file "// Table of 1 sequence of 4 samples" "// (the corners)"
         "// Sequence 0:" corner_sequences ++ []) = Ok st /\
    r_fd st = [] /\
    forall t s, r_samplePoints st t s = corpus_table corner_sequences t s.
Proof.
  split; [unfold MAXSAMPLES; lia|].
  split; [unfold MAXTABLES; cbn; lia|].
  split; [vm_compute; reflexivity|].
  split; [vm_compute; reflexivity|].
  split; [vm_compute; reflexivity|].
  split; [vm_compute; reflexivity|].
  intros exp sin indet.
  apply (reads_a_well_formed_file exp sin indet 4
           "// Table of 1 sequence of 4 samples" "// (the corners)" "// Sequence 0:"
           corner_sequences []).
  - unfold MAXSAMPLES; lia.
  - unfold MAXTABLES; cbn; lia.
  - vm_compute; reflexivity.
  - vm_compute; reflexivity.
Defined.

Lemma only_file_same (filename : string) (fd : stream) :
  only_file filename fd filename = Some fd.
Proof. unfold only_file. now rewrite String.eqb_refl. Qed.



(** ** The header *)

Lemma read_tables_header {libc : Libc} (indet : Indeterminate)
  (numSamples numSequences : Z) (h1 h2 h3 : string) (body : stream) :
  forallb one_line [h1; h2; h3] = true ->
  read_tables indet numSamples numSequences (file_of_lines [h1; h2; h3] ++ body)
  = for_loop (Z.to_nat numSequences) 0 (read_sequence indet numSamples)
      (mkReader body (indet_x indet) (indet_y indet) samplePoints_init).
Proof.
  intros H. unfold read_tables, skipLines.
  pose proof (skip_lines (indet_c indet (-1)) [h1; h2; h3] 0 body H) as Hlines.
  cbn [List.length] in Hlines. now rewrite Hlines.
Qed.

(** X16.  What the first three lines of the samples file say is never
    looked at: two files that differ in these lines only are read the
    same way, and [main] ends the same way on them. *)
Theorem header_lines_are_ignored :
  forall (libc : Libc) (indet : Indeterminate) (numSamples numSequences : Z)
    (h1 h2 h3 k1 k2 k3 : string) (body : stream)
    (samplesFilename : string) (argv : list string),
  forallb one_line [h1; h2; h3; k1; k2; k3] = true ->
  read_tables indet numSamples numSequences (file_of_lines [h1; h2; h3] ++ body)
  = read_tables indet numSamples numSequences (file_of_lines [k1; k2; k3] ++ body) /\
  main indet (only_file samplesFilename (file_of_lines [h1; h2; h3] ++ body)) argv
  = main indet (only_file samplesFilename (file_of_lines [k1; k2; k3] ++ body)) argv.
Proof.
  intros libc indet numSamples numSequences h1 h2 h3 k1 k2 k3 body
    samplesFilename argv H.
  cbn [forallb] in H.
  apply andb_prop in H. destruct H as [H1 H].
  apply andb_prop in H. destruct H as [H2 H].
  apply andb_prop in H. destruct H as [H3 H].
  assert (Hh : forallb one_line [h1; h2; h3] = true)
    by (cbn [forallb]; now rewrite H1, H2, H3).
  assert (Hk : forallb one_line [k1; k2; k3] = true) by exact H.
  split.
  - now rewrite !read_tables_header.
  - unfold main, only_file.
    destruct (_ || _); [reflexivity|].
    destruct (_ =? NUMFUNCTIONS); [reflexivity|].
    destruct (String.eqb _ samplesFilename); [|reflexivity].
    now rewrite !read_tables_header.
Qed.

Lemma header_lines_are_ignored_witness :
  forallb one_line
    ["// Table of 1 sequence of 4 samples"; "// (the corners)"; "// Sequence 0:";
     ""; "anything"; "0.5 0.5"]%string = true /\
  forall (libc : Libc) (indet : Indeterminate) (body : stream) (argv : list string),
  read_tables indet 4 1
    (file_of_lines ["// Table of 1 sequence of 4 samples"; "// (the corners)";
                    "// Sequence 0:"]%string ++ body)
  = read_tables indet 4 1 (file_of_lines [""; "anything"; "0.5 0.5"]%string ++ body) /\
  main indet
    (only_file "corners.data"
       (file_of_lines ["// Table of 1 sequence of 4 samples"; "// (the corners)";
                       "// Sequence 0:"]%string ++ body)) argv
  = main indet
      (only_file "corners.data"
         (file_of_lines [""; "anything"; "0.5 0.5"]%string ++ body)) argv.
Proof.
  split; [vm_compute; reflexivity|].
  intros libc indet body argv.
  apply (header_lines_are_ignored libc indet 4 1
           "// Table of 1 sequence of 4 samples" "// (the corners)" "// Sequence 0:"
           "" "anything" "0.5 0.5" body "corners.data" argv).
  vm_compute; reflexivity.
Defined.

(** ** A sequence shorter than numSamples *)

Lemma no_number_spec (text : string) :
  no_number text = true ->
  exists c fd,
    list_ascii_of_string text = c :: fd /\ isspace c = false /\
    fst (decimal_scan (c :: fd)) = None.
Proof.
  unfold no_number. destruct (list_ascii_of_string text) as [|c fd];
    [discriminate|].
  intros H. exists c, fd. split; [reflexivity|].
  split; ascii_cases c; try discriminate H; reflexivity.
Qed.

(** Before a text that is no number nothing is converted and nothing is
    read but the white space. *)
Lemma fscanf_lf_lf_no_number (exp sin : double -> double) (ws : stream)
  (text : string) (rest : stream) (x y : double) :
  forallb isspace ws = true ->
  no_number text = true ->
  fscanf_lf_lf (libc := libc_decimal exp sin)
    (ws ++ list_ascii_of_string text ++ newline :: rest) x y
  = (0, x, y, (list_ascii_of_string text ++ newline :: rest)%list).
Proof.
  intros Hws Hn. destruct (no_number_spec text Hn) as (c & fd & E & Hc & Hnone).
  unfold fscanf_lf_lf. rewrite (skip_space_spaces ws _ Hws).
  rewrite E. cbn [app skip_space]. rewrite Hc.
  change (scan_double (c :: fd ++ newline :: rest)%list)
    with (decimal_scan ((c :: fd) ++ newline :: rest)%list).
  rewrite decimal_scan_app by reflexivity.
  rewrite (decimal_scan_None _ Hnone), Hnone. reflexivity.
Qed.

(** The loop over the samples before such a text: every pass stores the
    [x] and [y] of the pass before. *)
Lemma read_samples_stall (exp sin : double -> double) (t : Z) (text : string)
  (rest : stream) :
  no_number text = true ->
  forall (k : nat) (s0 : Z) (st : reader_state) (ws : stream),
  forallb isspace ws = true ->
  (forall s, s0 <= s < s0 + Z.of_nat k -> in_bounds t s = true) ->
  r_fd st = (ws ++ list_ascii_of_string text ++ newline :: rest)%list ->
  exists st',
    for_loop_break k s0 (read_sample (libc := libc_decimal exp sin) t) st = Ok st' /\
    r_fd st'
    = ((match k with O => ws | S _ => [] end)
       ++ list_ascii_of_string text ++ newline :: rest)%list /\
    forall t' s',
      r_samplePoints st' t' s'
      = if (t' =? t) && (s0 <=? s') && (s' <? s0 + Z.of_nat k)
        then mkPoint (r_x st) (r_y st)
        else r_samplePoints st t' s'.
Proof.
  intros Hn. induction k as [|k IH]; intros s0 st ws Hws Hbounds Hfd.
  - exists st. split; [reflexivity|]. split; [exact Hfd|].
    intros t' s'.
    replace (s' <? s0 + Z.of_nat 0) with (s' <? s0) by (f_equal; lia).
    destruct (t' =? t); cbn [andb]; [|reflexivity].
    destruct (Z.leb_spec s0 s'), (Z.ltb_spec s' s0); try lia; reflexivity.
  - cbn [for_loop_break]. unfold read_sample at 1.
    rewrite Hfd, (fscanf_lf_lf_no_number exp sin ws text rest _ _ Hws Hn).
    change (0 =? -1) with false. cbv iota.
    unfold table_set. rewrite (Hbounds s0) by lia. cbn [bind].
    match goal with
    | |- exists st', for_loop_break _ _ _ ?st1 = _ /\ _ =>
        destruct (IH (s0 + 1) st1 []) as (st' & Hloop & Hfd' & Htab)
    end.
    + reflexivity.
    + intros s Hs. apply Hbounds. lia.
    + reflexivity.
    + exists st'. split; [exact Hloop|]. split.
      * rewrite Hfd'. now destruct k.
      * intros t' s'. rewrite Htab. cbn [r_x r_y r_samplePoints].
        destruct (Z.eqb_spec t' t) as [->|Ht]; cbn [andb]; [|reflexivity].
        destruct (Z.eqb_spec s' s0) as [->|Hs].
        -- replace (s0 + 1 <=? s0) with false by (symmetry; apply Z.leb_gt; lia).
           rewrite Z.leb_refl.
           replace (s0 <? s0 + Z.of_nat (S k)) with true
             by (symmetry; apply Z.ltb_lt; lia).
           reflexivity.
        -- replace (s0 + 1 + Z.of_nat k) with (s0 + Z.of_nat (S k)) by lia.
           destruct (Z.leb_spec (s0 + 1) s'), (Z.leb_spec s0 s'); try lia;
             reflexivity.
Qed.

(** X17.  A sequence that holds fewer samples than numSamples is not
    cut short: at the comment that follows its last sample nothing is
    converted and nothing is read, so every remaining slot of the row is
    filled with the last sample again; then [skipLine] skips the comment
    and the line after it, which is lost. *)
Theorem short_sequence_repeats_its_last_sample :
  forall (exp sin : double -> double) (indet : Indeterminate) (numSamples : Z)
    (h1 h2 h3 : string) (p : string * string) (ps : list (string * string))
    (comment line : string) (rest : stream),
  Z.of_nat (List.length (p :: ps)) < numSamples <= MAXSAMPLES ->
  forallb one_line [h1; h2; h3; comment; line] = true ->
  forallb (fun p => number_text (fst p) && number_text (snd p)) (p :: ps) = true ->
  no_number comment = true ->
  exists st,
    read_tables (libc := libc_decimal exp sin) indet numSamples 1
      (file_of_lines ([h1; h2; h3] ++ map sample_line (p :: ps) ++ [comment; line])
       ++ rest) = Ok st /\
    r_fd st = rest /\
    forall s, 0 <= s < numSamples ->
      r_samplePoints st 0 s
      = match nth_error (p :: ps) (Z.to_nat s) with
        | Some q => sample_point q
        | None => sample_point (last ps p)
        end.
Proof.
  intros exp sin indet numSamples h1 h2 h3 p ps comment line rest HN Hlines
    Hgood Hcomment.
  cbn [forallb] in Hlines.
  apply andb_prop in Hlines. destruct Hlines as [H1 Hlines].
  apply andb_prop in Hlines. destruct Hlines as [H2 Hlines].
  apply andb_prop in Hlines. destruct Hlines as [H3 Hlines].
  assert (Hheader : forallb one_line [h1; h2; h3] = true)
    by (cbn [forallb]; now rewrite H1, H2, H3).
  rewrite file_of_lines_app, <- app_assoc.
  rewrite (read_tables_header indet numSamples 1 h1 h2 h3 _ Hheader).
  change (Z.to_nat 1) with 1%nat. cbn [for_loop]. unfold read_sequence.
  rewrite file_of_lines_app, <- app_assoc.
  match goal with
  | |- context [for_loop_break _ _ _ ?st0] =>
      destruct (read_samples_lines exp sin 0 ps p 0 st0 []
                  (file_of_lines [comment; line] ++ rest))
        as (st1 & Hloop & Hfd1 & Hxy & Htab1);
        [reflexivity | exact Hgood
         | intros s Hs; apply in_bounds_within; unfold MAXTABLES; lia
         | reflexivity |]
  end.
  replace (Z.to_nat numSamples)
    with (List.length (p :: ps) + (Z.to_nat numSamples - List.length (p :: ps)))%nat
    by lia.
  rewrite Hloop.
  destruct (read_samples_stall exp sin 0 comment (file_of_lines [line] ++ rest)
              Hcomment (Z.to_nat numSamples - List.length (p :: ps))
              (0 + Z.of_nat (List.length (p :: ps))) st1 [newline])
    as (st2 & Hstall & Hfd2 & Htab2).
  - reflexivity.
  - intros s Hs. apply in_bounds_within; unfold MAXTABLES; lia.
  - rewrite Hfd1. cbn [file_of_lines]. rewrite <- app_assoc. reflexivity.
  - rewrite Hstall. cbn [bind]. unfold skipLines. rewrite Hfd2.
    destruct (Z.to_nat numSamples - List.length (p :: ps))%nat as [|k] eqn:Ek;
      [lia|].
    cbn [app].
    pose proof (skip_lines (indet_c indet 0) [comment; line] 0 rest Hlines)
      as Hskip.
    cbn [List.length] in Hskip.
    replace (list_ascii_of_string comment ++ newline :: file_of_lines [line] ++ rest)%list
      with (file_of_lines [comment; line] ++ rest)%list
      by (cbn [file_of_lines]; rewrite <- app_assoc; reflexivity).
    rewrite Hskip. cbn [bind].
    eexists. split; [reflexivity|]. cbn [r_fd r_samplePoints].
    split; [reflexivity|].
    intros s Hs. rewrite Htab2, Htab1. cbn [r_samplePoints].
    rewrite Z.eqb_refl. cbn [andb]. rewrite Z.sub_0_r.
    replace (0 <=? s) with true by (symmetry; apply Z.leb_le; lia).
    destruct (Z.leb_spec (0 + Z.of_nat (List.length (p :: ps))) s) as [Hge|Hlt];
      cbn [andb].
    + replace (s <? 0 + Z.of_nat (List.length (p :: ps)) + Z.of_nat (S k)) with true
        by (symmetry; apply Z.ltb_lt; lia).
      rewrite Hxy.
      replace (nth_error (p :: ps) (Z.to_nat s)) with (@None (string * string));
        [reflexivity|].
      symmetry. apply nth_error_None. lia.
    + destruct (nth_error (p :: ps) (Z.to_nat s)) eqn:En; [reflexivity|].
      apply nth_error_None in En. lia.
Qed.

Lemma short_sequence_repeats_its_last_sample_witness :
  Z.of_nat (List.length [("0.1", "0.1"); ("0.1", "0.1")]%string) < 10 <= MAXSAMPLES /\
  forallb one_line
    ["// Table of 1 sequence of 10 samples"; "// (two only)"; "// Sequence 0:";
     "// Sequence 1:"; "// (none)"]%string = true /\
  forallb (fun p => number_text (fst p) && number_text (snd p))
    [("0.1", "0.1"); ("0.1", "0.1")]%string = true /\
  no_number "// Sequence 1:" = true /\
  (file_of_lines
     (["// Table of 1 sequence of 10 samples"; "// (two only)"; "// Sequence 0:"]%string
      ++ map sample_line [("0.1", "0.1"); ("0.1", "0.1")]%string
      ++ ["// Sequence 1:"; "// (none)"]%string) ++ [])%list = short_sequence /\
  forall (exp sin : double -> double) (indet : Indeterminate),
  exists st,
    read_tables (libc := libc_decimal exp sin) indet 10 1
      (file_of_lines
         (["// Table of 1 sequence of 10 samples"; "// (two only)"; "// Sequence 0:"]%string
          ++ map sample_line [("0.1", "0.1"); ("0.1", "0.1")]%string
          ++ ["// Sequence 1:"; "// (none)"]%string) ++ [])%list = Ok st /\
    r_fd st = [] /\
    forall s, 0 <= s < 10 ->
      r_samplePoints st 0 s
      = match nth_error [("0.1", "0.1"); ("0.1", "0.1")]%string (Z.to_nat s) with
        | Some q => sample_point q
        | None => sample_point (last [("0.1", "0.1")]%string ("0.1", "0.1")%string)
        end.
Proof.
  split; [cbn; unfold MAXSAMPLES; lia|].
  split; [vm_compute; reflexivity|].
  split; [vm_compute; reflexivity|].
  split; [vm_compute; reflexivity|].
  split; [vm_compute; reflexivity|].
  intros exp sin indet.
  apply (short_sequence_repeats_its_last_sample exp sin indet 10
           "// Table of 1 sequence of 10 samples" "// (two only)" "// Sequence 0:"
           ("0.1", "0.1")%string [("0.1", "0.1")%string]
           "// Sequence 1:" "// (none)" []).
  - cbn; unfold MAXSAMPLES; lia.
  - vm_compute; reflexivity.
  - vm_compute; reflexivity.
  - vm_compute; reflexivity.
Defined.

(** ** C3: a file that ends inside a sequence *)









(** ** The reading phase on a file whose lines are all ended *)















Section Ended.
Variables exp sin : double -> double.
Variable indet : Indeterminate.
Hypothesis indet_newline : forall t line, indet_c indet t line = newline.





End Ended.




(** ** The estimator and the integrand it is given *)

Lemma estimate_errors_values {libc : Libc} (samplePoints samplePoints' : table)
  (functionNumber functionNumber' numSequences : Z) (reference : double)
  (numSamples : Z) :
  (forall t s, 0 <= t < numSequences -> 0 <= s < numSamples ->
     applyFunction functionNumber (samplePoints t s)
     = applyFunction functionNumber' (samplePoints' t s)) ->
  estimate_errors samplePoints functionNumber numSequences reference numSamples
  = estimate_errors samplePoints' functionNumber' numSequences reference numSamples.
Proof.
  intros H.
  unfold estimate_errors. apply for_loop_ext. intros s st Hs.
  unfold sample_body.
  rewrite (for_loop_ext
             (sequence_body samplePoints functionNumber reference s)
             (sequence_body samplePoints' functionNumber' reference s));
    [reflexivity|].
  intros t [[[sums sumerror] maxerror] sign] Ht.
  unfold sequence_body, evaluateFunction, table_get.
  destruct (in_bounds t s); [|reflexivity].
  cbn [bind]. rewrite (H t s) by lia. reflexivity.
Qed.

Lemma applyFunction_exchanged {libc : Libc} (functionNumber : Z) (x y : double) :
  In functionNumber [0; 1; 2; 3; 4; 6; 7; 8; 10; 11] ->
  applyFunction functionNumber (mkPoint y x)
  = applyFunction functionNumber (mkPoint x y).
Proof.
  intros H.
  destruct (symmetric_integrands x y)
    as (H0 & H1 & H2 & H3 & H4 & H6 & H7 & H8 & H10 & H11).
  cbn [In] in H.
  repeat (destruct H as [<-|H]; [cbn [applyFunction Point_x Point_y]; congruence|]).
  contradiction.
Qed.

(** X20.  For the ten integrands that are symmetric in x and y (all of
    the twelve of two variables but [triangleramp] and [biquadratic]),
    a table and the table with x and y of every sample exchanged give the
    same sums, the same rows and the same output. *)
Theorem exchanged_samples_same_errors :
  forall (libc : Libc) (samplePoints : table) (functionNumber numSequences : Z)
    (reference : double) (numSamples : Z),
  In functionNumber [0; 1; 2; 3; 4; 6; 7; 8; 10; 11] ->
  estimate_errors (exchanged samplePoints) functionNumber numSequences reference
    numSamples
  = estimate_errors samplePoints functionNumber numSequences reference numSamples.
Proof.
  intros libc samplePoints functionNumber numSequences reference numSamples H.
  apply estimate_errors_values. intros t s _ _. unfold exchanged.
  rewrite (applyFunction_exchanged functionNumber
             (Point_x (samplePoints t s)) (Point_y (samplePoints t s)) H).
  now destruct (samplePoints t s).
Qed.

Lemma exchanged_samples_same_errors_witness :
  In 0 [0; 1; 2; 3; 4; 6; 7; 8; 10; 11] /\
  map (fun s => exchanged corner_table 0 s) [0; 1; 2; 3]
  = [mkPoint 0 0; mkPoint 0 1; mkPoint 1 0; mkPoint 1 1]%float /\
  forall libc : Libc,
  estimate_errors (exchanged corner_table) 0 1 0.5%float 4
  = estimate_errors corner_table 0 1 0.5%float 4.
Proof.
  split; [cbn; tauto|].
  split; [reflexivity|].
  intros libc.
  apply (exchanged_samples_same_errors libc corner_table 0 1 0.5%float 4).
  cbn; tauto.
Defined.

(** X21.  With an integrand of one variable the estimator depends on one
    coordinate of the samples only: on two tables whose samples have the
    same x it ends the same way for [stepx], [rampx], [gaussianx] and
    [sin2x], and on two tables whose samples have the same y for
    [lineary] and [siny]. *)
Theorem one_dimensional_errors :
  forall (libc : Libc) (samplePoints samplePoints' : table)
    (numSequences : Z) (reference : double) (numSamples : Z),
  ((forall t s, 0 <= t < numSequences -> 0 <= s < numSamples ->
      Point_x (samplePoints t s) = Point_x (samplePoints' t s)) ->
   forall functionNumber, In functionNumber [12; 13; 15; 17] ->
   estimate_errors samplePoints functionNumber numSequences reference numSamples
   = estimate_errors samplePoints' functionNumber numSequences reference numSamples) /\
  ((forall t s, 0 <= t < numSequences -> 0 <= s < numSamples ->
      Point_y (samplePoints t s) = Point_y (samplePoints' t s)) ->
   forall functionNumber, In functionNumber [14; 16] ->
   estimate_errors samplePoints functionNumber numSequences reference numSamples
   = estimate_errors samplePoints' functionNumber numSequences reference numSamples).
Proof.
  intros libc samplePoints samplePoints' numSequences reference numSamples.
  split; intros H functionNumber Hin; apply estimate_errors_values;
    intros t s Ht Hs; specialize (H t s Ht Hs); cbn [In] in Hin;
    repeat (destruct Hin as [<-|Hin];
            [cbn [applyFunction]; now rewrite H|]);
    contradiction.
Qed.

Lemma one_dimensional_errors_witness :
  (forall t s, 0 <= t < 1 -> 0 <= s < 4 ->
     Point_x (with_y 9%float corner_table t s) = Point_x (corner_table t s)) /\
  (forall t s, 0 <= t < 1 -> 0 <= s < 4 ->
     Point_y (with_x 9%float corner_table t s) = Point_y (corner_table t s)) /\
  In 12 [12; 13; 15; 17] /\ In 14 [14; 16] /\
  forall libc : Libc,
  estimate_errors (with_y 9%float corner_table) 12 1 (1%float / M_PI)%double 4
  = estimate_errors corner_table 12 1 (1%float / M_PI)%double 4 /\
  estimate_errors (with_x 9%float corner_table) 14 1 0.5%float 4
  = estimate_errors corner_table 14 1 0.5%float 4.
Proof.
  split; [reflexivity|]. split; [reflexivity|].
  split; [cbn; tauto|]. split; [cbn; tauto|].
  intros libc. split.
  - apply (proj1 (one_dimensional_errors libc (with_y 9%float corner_table)
                    corner_table 1 (1%float / M_PI)%double 4));
      [reflexivity | cbn; tauto].
  - apply (proj2 (one_dimensional_errors libc (with_x 9%float corner_table)
                    corner_table 1 0.5%float 4));
      [reflexivity | cbn; tauto].
Defined.

(** ** The piece-wise linear integrands *)

Lemma double_lt_le (a b : double) :
  (a < b)%double = true -> (a <= b)%double = true.
Proof.
  rewrite ltb_spec, leb_spec. unfold SFltb, SFleb.
  now destruct (SFcompare (Prim2SF a) (Prim2SF b)) as [[| |]|].
Qed.

Lemma double_le_nan (a b : double) :
  PrimFloat.is_nan a = true \/ PrimFloat.is_nan b = true ->
  (a <= b)%double = false.
Proof.
  intros H. rewrite leb_spec. unfold SFleb.
  destruct H as [H|H]; rewrite (is_nan_eq _ H);
    [|destruct (Prim2SF a)]; reflexivity.
Qed.

Lemma double_lt_nan (a b : double) :
  PrimFloat.is_nan a = true \/ PrimFloat.is_nan b = true ->
  (a < b)%double = false.
Proof.
  intros H. rewrite ltb_spec. unfold SFltb.
  destruct H as [H|H]; rewrite (is_nan_eq _ H);
    [|destruct (Prim2SF a)]; reflexivity.
Qed.

Lemma double_div_nan (a b : double) :
  PrimFloat.is_nan a = true \/ PrimFloat.is_nan b = true ->
  PrimFloat.is_nan (a / b)%double = true.
Proof.
  intros H. rewrite is_nan_spec, div_spec. unfold SF64div.
  destruct H as [H|H]; rewrite (is_nan_eq _ H);
    [|destruct (Prim2SF a)]; reflexivity.
Qed.

Lemma double_sqrt_nan (a : double) :
  PrimFloat.is_nan a = true -> PrimFloat.is_nan (sqrt a) = true.
Proof.
  intros H. unfold sqrt. rewrite is_nan_spec, sqrt_spec, (is_nan_eq _ H).
  reflexivity.
Qed.

Lemma double_le_exclusive (a b x : double) :
  (a <= b)%double = false ->
  (x <= b)%double = true -> (a <= x)%double = false.
Proof.
  intros Hab Hxb. destruct (a <= x)%double eqn:E; [|reflexivity].
  now rewrite (double_le_trans a x b E Hxb) in Hab.
Qed.

(** What a ramp between [inner] and [outer] gives at the radius [r]. *)
Lemma ramp_plateaus (inner outer r : double) :
  (outer <= inner)%double = false ->
  let value :=
    if (r <= inner)%double then 1%float
    else if (outer <= r)%double then 0%float
    else (1%float - (r - inner) / (outer - inner))%double in
  ((r <= inner)%double = true -> value = 1%float) /\
  ((outer <= r)%double = true -> value = 0%float) /\
  (PrimFloat.is_nan r = true -> PrimFloat.is_nan value = true).
Proof.
  intros Hgap value. subst value. split; [|split].
  - intros ->. reflexivity.
  - intros H. rewrite H.
    destruct (r <= inner)%double eqn:E; [|reflexivity].
    now rewrite (double_le_trans outer r inner H E) in Hgap.
  - intros H.
    rewrite (double_le_nan r inner) by now left.
    rewrite (double_le_nan outer r) by now right.
    apply double_sub_nan. right. apply double_div_nan. left.
    apply double_sub_nan. now left.
Qed.

(** X22.  The four piece-wise linear integrands are exactly 1 on their
    upper plateau and exactly 0 on their lower one: [ramp] up to 0.2 and
    from 0.4, the disk ramps up to their inner radius and from their
    outer one, [triangleramp] where 5 (y - x) is at least 0.5 and at most
    -0.5.  On a NaN coordinate they give NaN, where [sininvr] gives 1. *)
Theorem piecewise_linear_plateaus :
  forall (libc : Libc) (x y : double),
  (((x <= 0.2%float)%double = true -> ramp x = 1%float) /\
   ((0.4%float <= x)%double = true -> ramp x = 0%float) /\
   (PrimFloat.is_nan x = true -> PrimFloat.is_nan (ramp x) = true)) /\
  (((sqrt (x * x + y * y) <= 0.7%float)%double = true ->
    quarterdiskramp x y = 1%float) /\
   ((0.9%float <= sqrt (x * x + y * y))%double = true ->
    quarterdiskramp x y = 0%float) /\
   (PrimFloat.is_nan (sqrt (x * x + y * y)) = true ->
    PrimFloat.is_nan (quarterdiskramp x y) = true)) /\
  (((sqrt ((x - 0.5%float) * (x - 0.5%float)
           + (y - 0.5%float) * (y - 0.5%float)) <= 0.35%float)%double = true ->
    fulldiskramp x y = 1%float) /\
   ((0.45%float <= sqrt ((x - 0.5%float) * (x - 0.5%float)
                         + (y - 0.5%float) * (y - 0.5%float)))%double = true ->
    fulldiskramp x y = 0%float) /\
   (PrimFloat.is_nan (sqrt ((x - 0.5%float) * (x - 0.5%float)
                            + (y - 0.5%float) * (y - 0.5%float))) = true ->
    PrimFloat.is_nan (fulldiskramp x y) = true)) /\
  ((0.5%float <= 5%float * (y - x))%double = true -> triangleramp x y = 1%float) /\
  ((5%float * (y - x) <= (-0.5)%float)%double = true ->
   triangleramp x y = 0%float) /\
  (PrimFloat.is_nan x = true \/ PrimFloat.is_nan y = true ->
   PrimFloat.is_nan (triangleramp x y) = true /\
   PrimFloat.is_nan (quarterdiskramp x y) = true /\
   PrimFloat.is_nan (fulldiskramp x y) = true /\
   sininvr x y = 1%float).
Proof.
  intros libc x y.
  split; [exact (ramp_plateaus 0.2%float 0.4%float x eq_refl)|].
  split; [exact (ramp_plateaus 0.7%float 0.9%float (sqrt (x * x + y * y)) eq_refl)|].
  split; [exact (ramp_plateaus 0.35%float 0.45%float
                   (sqrt ((x - 0.5%float) * (x - 0.5%float)
                          + (y - 0.5%float) * (y - 0.5%float))) eq_refl)|].
  split; [|split].
  - intros H. unfold triangleramp. cbv zeta. rewrite H. reflexivity.
  - intros H. unfold triangleramp. cbv zeta.
    rewrite (double_le_exclusive 0.5%float (-0.5)%float _ eq_refl H), H.
    reflexivity.
  - intros H.
    assert (Hr : PrimFloat.is_nan (sqrt (x * x + y * y)) = true).
    { apply double_sqrt_nan, double_add_nan.
      destruct H as [H|H]; [left | right]; apply double_mul_nan; auto. }
    assert (Hr' : PrimFloat.is_nan
                    (sqrt ((x - 0.5%float) * (x - 0.5%float)
                           + (y - 0.5%float) * (y - 0.5%float))) = true).
    { apply double_sqrt_nan, double_add_nan.
      destruct H as [H|H]; [left | right];
        apply double_mul_nan; left; apply double_sub_nan; auto. }
    assert (Hd : PrimFloat.is_nan (5%float * (y - x))%double = true).
    { apply double_mul_nan. right. apply double_sub_nan. tauto. }
    split; [|split; [|split]].
    + unfold triangleramp. cbv zeta.
      rewrite (double_le_nan 0.5%float _) by now right.
      rewrite (double_le_nan _ (-0.5)%float) by now left.
      apply double_add_nan. now left.
    + exact (proj2 (proj2 (ramp_plateaus 0.7%float 0.9%float _ eq_refl)) Hr).
    + exact (proj2 (proj2 (ramp_plateaus 0.35%float 0.45%float _ eq_refl)) Hr').
    + unfold sininvr. cbv zeta.
      now rewrite (double_lt_nan 0%float _) by now right.
Qed.

Lemma piecewise_linear_plateaus_witness :
  (0.1%float <= 0.2%float)%double = true /\
  (0.4%float <= 0.5%float)%double = true /\
  (0.5%float <= 5%float * (0.9%float - 0.1%float))%double = true /\
  (5%float * (0.1%float - 0.9%float) <= (-0.5)%float)%double = true /\
  forall libc : Libc,
  ramp 0.1%float = 1%float /\ ramp 0.5%float = 0%float /\
  triangleramp 0.1%float 0.9%float = 1%float /\
  triangleramp 0.9%float 0.1%float = 0%float.
Proof.
  split; [reflexivity|]. split; [reflexivity|].
  split; [reflexivity|]. split; [reflexivity|].
  intros libc.
  pose proof (piecewise_linear_plateaus libc 0.1%float 0.9%float)
    as ((Hup & _ & _) & _ & _ & Hone & _ & _).
  pose proof (piecewise_linear_plateaus libc 0.5%float 0.9%float)
    as ((_ & Hdown & _) & _).
  pose proof (piecewise_linear_plateaus libc 0.9%float 0.1%float)
    as (_ & _ & _ & _ & Hzero & _).
  split; [apply Hup; reflexivity|].
  split; [apply Hdown; reflexivity|].
  split; [apply Hone; reflexivity | apply Hzero; reflexivity].
Defined.

(** ** The macros [MIN] and [MAX] *)

(** X23.  [MIN] and [MAX] give one of their two arguments; on numbers
    [MIN] is at most both and [MAX] at least both, and if one of the
    arguments is NaN both give the second argument. *)
Theorem MIN_MAX_bounds :
  forall a b : double,
  (MIN a b = a \/ MIN a b = b) /\
  (MAX a b = a \/ MAX a b = b) /\
  (PrimFloat.is_nan a = false -> PrimFloat.is_nan b = false ->
   (MIN a b <= a)%double = true /\ (MIN a b <= b)%double = true /\
   (a <= MAX a b)%double = true /\ (b <= MAX a b)%double = true) /\
  (PrimFloat.is_nan a = true \/ PrimFloat.is_nan b = true ->
   MIN a b = b /\ MAX a b = b).
Proof.
  intros a b. unfold MIN, MAX.
  split; [destruct (a < b)%double; auto|].
  split; [destruct (b < a)%double; auto|].
  split.
  - intros Ha Hb.
    destruct (a < b)%double eqn:Eab, (b < a)%double eqn:Eba;
      repeat split;
      first [ now apply double_le_refl
            | now apply double_lt_le
            | now apply double_not_lt_le ].
  - intros H.
    rewrite (double_lt_nan a b H), (double_lt_nan b a) by tauto. auto.
Qed.

Lemma MIN_MAX_bounds_witness :
  PrimFloat.is_nan 1%float = false /\ PrimFloat.is_nan 2%float = false /\
  MIN 1%float 2%float = 1%float /\ MAX 1%float 2%float = 2%float /\
  (MIN 1%float 2%float <= 1%float)%double = true /\
  (MIN 1%float 2%float <= 2%float)%double = true /\
  (1%float <= MAX 1%float 2%float)%double = true /\
  (2%float <= MAX 1%float 2%float)%double = true.
Proof.
  split; [reflexivity|]. split; [reflexivity|].
  split; [reflexivity|]. split; [reflexivity|].
  apply (proj1 (proj2 (proj2 (MIN_MAX_bounds 1%float 2%float))));
    reflexivity.
Defined.

(** ** What the reader leaves alone *)

Lemma read_sequences_frame {libc : Libc} (indet : Indeterminate) (numSamples : Z) :
  forall (k : nat) (t0 : Z) (st st' : reader_state),
  for_loop k t0 (read_sequence indet numSamples) st = Ok st' ->
  forall t s,
  ~ (t0 <= t < t0 + Z.of_nat k /\ 0 <= s < numSamples) ->
  r_samplePoints st' t s = r_samplePoints st t s.
Proof.
  induction k as [|k IH]; intros t0 st st' H t s Hout.
  - cbn [for_loop] in H. now injection H as <-.
  - cbn [for_loop] in H.
    destruct (read_sequence indet numSamples t0 st) as [st1| |t1 s1] eqn:E;
      cbn [bind] in H; try discriminate H.
    destruct (read_sequence_spec indet numSamples t0 st st1 E)
      as (stored & Hstored & Hsame & _).
    rewrite (IH (t0 + 1) st1 st' H t s) by lia.
    apply Hsame. lia.
Qed.

(** X24.  The reader writes [samplePoints[t][s]] for t < numSequences
    and s < numSamples only: when the reading ends, every other cell of
    the table still holds the zero of its static initialisation,
    whatever the file holds. *)
Theorem reader_writes_the_declared_block :
  forall (libc : Libc) (indet : Indeterminate) (numSamples numSequences : Z)
    (fd : stream) (st : reader_state),
  read_tables indet numSamples numSequences fd = Ok st ->
  forall t s,
  ~ (0 <= t < numSequences /\ 0 <= s < numSamples) ->
  r_samplePoints st t s = mkPoint 0%float 0%float.
Proof.
  intros libc indet numSamples numSequences fd st H t s Hout.
  unfold read_tables in H.
  destruct (skipLines indet (-1) 3 fd) as [fd1| |t1 s1]; cbn [bind] in H;
    try discriminate H.
  rewrite (read_sequences_frame indet numSamples _ _ _ _ H t s) by lia.
  reflexivity.
Qed.

Lemma reader_writes_the_declared_block_witness :
  exists st,
    read_tables (libc := libc_decimal (fun a => a) (fun a => a))
      (indeterminate newline 0%float 0%float) 4 1 four_corners = Ok st /\
    forall t s, ~ (0 <= t < 1 /\ 0 <= s < 4) ->
      r_samplePoints st t s = mkPoint 0%float 0%float.
Proof.
  eexists. split; [vm_compute; reflexivity|].
  apply (reader_writes_the_declared_block (libc_decimal (fun a => a) (fun a => a))
           (indeterminate newline 0%float 0%float) 4 1 four_corners).
  vm_compute; reflexivity.
Defined.

(** ** The discontinuous integrands count exactly *)

Lemma counts_exactly_MAXSAMPLES : counts_exactly 0 (Z.to_nat MAXSAMPLES) = true.
Proof. vm_compute. reflexivity. Qed.

Lemma counts_exactly_spec (n : Z) :
  0 <= n < MAXSAMPLES ->
  (double_of_int n + 1%float)%double = double_of_int (n + 1) /\
  (double_of_int n + 0%float)%double = double_of_int n.
Proof.
  intros Hn. pose proof counts_exactly_MAXSAMPLES as H.
  unfold counts_exactly in H. rewrite forallb_forall in H.
  specialize (H n). rewrite In_Zseq in H.
  assert (Hin : 0 <= n < 0 + Z.of_nat (Z.to_nat MAXSAMPLES))
    by (unfold MAXSAMPLES in *; lia).
  apply H in Hin. apply andb_prop in Hin. destruct Hin as [H1 H0].
  split; now apply FloatAxioms.Leibniz.eqb_spec.
Qed.

Lemma hits_step {libc : Libc} (samplePoints : table) (functionNumber t s : Z) :
  0 <= s ->
  hits samplePoints functionNumber t s
  = hits samplePoints functionNumber t (s - 1)
    + if PrimFloat.Leibniz.eqb
           (applyFunction functionNumber (samplePoints t s)) 1%float
      then 1 else 0.
Proof.
  intros Hs. unfold hits.
  replace (Z.to_nat (s + 1)) with (S (Z.to_nat s)) by lia.
  rewrite Zseq_snoc, filter_app, length_app.
  replace (s - 1 + 1) with s by lia.
  replace (0 + Z.of_nat (Z.to_nat s)) with s by lia.
  cbn [filter].
  destruct (PrimFloat.Leibniz.eqb _ _); cbn [List.length]; lia.
Qed.

Lemma running_hits {libc : Libc} (samplePoints : table) (functionNumber t : Z) :
  In functionNumber [0; 1; 2; 12] ->
  forall n : nat,
  Z.of_nat n <= MAXSAMPLES ->
  0 <= hits samplePoints functionNumber t (Z.of_nat n - 1) <= Z.of_nat n /\
  runningSum samplePoints functionNumber t (Z.of_nat n - 1)
  = double_of_int (hits samplePoints functionNumber t (Z.of_nat n - 1)).
Proof.
  intros Hf. induction n as [|n IH]; intros Hn.
  - split; [cbn; lia | reflexivity].
  - destruct IH as [Hrange Hsum]; [lia|].
    replace (Z.of_nat (S n) - 1) with (Z.of_nat n) by lia.
    rewrite (hits_step samplePoints functionNumber t (Z.of_nat n)) by lia.
    rewrite (runningSum_step samplePoints functionNumber t (Z.of_nat n)) by lia.
    rewrite Hsum.
    destruct (counts_exactly_spec
                (hits samplePoints functionNumber t (Z.of_nat n - 1)))
      as [Hone Hzero]; [lia|].
    destruct (discontinuous_values functionNumber (samplePoints t (Z.of_nat n)) Hf)
      as [E|E]; rewrite E.
    + change (PrimFloat.Leibniz.eqb 1%float 1%float) with true. cbv iota.
      split; [lia | exact Hone].
    + change (PrimFloat.Leibniz.eqb 0%float 1%float) with false. cbv iota.
      rewrite Z.add_0_r. split; [lia | exact Hzero].
Qed.

(** X25.  For the four discontinuous integrands the running sum of a
    sequence is exact: after the samples 0, ..., s it is the number of
    the samples at which the integrand is 1, as a double, and the
    estimate is that count divided by s + 1, rounded once.  That count is
    what the estimator holds in [sumresults[t]] after s + 1 samples. *)
Theorem discontinuous_integrands_count_hits :
  forall (libc : Libc) (samplePoints : table) (functionNumber t s : Z),
  In functionNumber [0; 1; 2; 12] ->
  0 <= s < MAXSAMPLES ->
  0 <= hits samplePoints functionNumber t s <= s + 1 /\
  runningSum samplePoints functionNumber t s
  = double_of_int (hits samplePoints functionNumber t s) /\
  estimate samplePoints functionNumber t s
  = (double_of_int (hits samplePoints functionNumber t s)
     / double_of_int (s + 1))%double /\
  (forall (numSequences : Z) (reference : double),
     0 <= t < numSequences -> numSequences <= MAXTABLES ->
     exists st,
       estimate_errors samplePoints functionNumber numSequences reference (s + 1)
       = Ok st /\
       array_get (sumresults st) t
       = double_of_int (hits samplePoints functionNumber t s)).
Proof.
  intros libc samplePoints functionNumber t s Hf Hs.
  destruct (running_hits samplePoints functionNumber t Hf (Z.to_nat (s + 1)))
    as [Hrange Hsum]; [lia|].
  replace (Z.of_nat (Z.to_nat (s + 1)) - 1) with s in * by lia.
  split; [lia|]. split; [exact Hsum|].
  split; [unfold estimate; now rewrite Hsum|].
  intros numSequences reference Ht Hn. eexists.
  split; [apply estimate_errors_spec, within_capacity_intro; lia|].
  cbn [sumresults]. rewrite array_get_map by lia.
  replace (s + 1 - 1) with s by lia. exact Hsum.
Qed.

Lemma discontinuous_integrands_count_hits_witness :
  In 0 [0; 1; 2; 12] /\ 0 <= 3 < MAXSAMPLES /\
  forall libc : Libc,
  hits corner_table 0 0 3 = 1 /\
  0 <= hits corner_table 0 0 3 <= 3 + 1 /\
  runningSum corner_table 0 0 3 = double_of_int (hits corner_table 0 0 3) /\
  estimate corner_table 0 0 3
  = (double_of_int (hits corner_table 0 0 3) / double_of_int (3 + 1))%double /\
  (forall (numSequences : Z) (reference : double),
     0 <= 0 < numSequences -> numSequences <= MAXTABLES ->
     exists st,
       estimate_errors corner_table 0 numSequences reference (3 + 1) = Ok st /\
       array_get (sumresults st) 0 = double_of_int (hits corner_table 0 0 3)).
Proof.
  split; [cbn; tauto|].
  split; [unfold MAXSAMPLES; lia|].
  intros libc. split; [reflexivity|].
  apply (discontinuous_integrands_count_hits libc corner_table 0 0 3).
  - cbn; tauto.
  - unfold MAXSAMPLES; lia.
Defined.

(** ** The estimates of the discontinuous integrands *)

Lemma quotients_bounded_MAXSAMPLES :
  quotients_bounded [0.5%float; (1%float / M_PI)%double] (Z.to_nat MAXSAMPLES)
    1 1%float = true.
Proof. vm_compute. reflexivity. Qed.

Lemma quotients_bounded_from_spec (references : list double) (n : double) :
  forall (k : nat) (h0 h : Z),
  quotients_bounded_from references k (double_of_int h0) n = true ->
  0 <= h0 -> h0 + Z.of_nat k <= MAXSAMPLES + 1 ->
  h0 <= h < h0 + Z.of_nat k ->
  quotient_bounded references (double_of_int h) n = true.
Proof.
  induction k as [|k IH]; intros h0 h H H0 Hk Hh; [lia|].
  cbn [quotients_bounded_from] in H. apply andb_prop in H. destruct H as [Hhead Htail].
  destruct (Z.eq_dec h h0) as [->|Hne]; [exact Hhead|].
  apply (IH (h0 + 1) h); [|lia | lia | lia].
  destruct (counts_exactly_spec h0) as [<- _]; [lia | exact Htail].
Qed.

Lemma quotients_bounded_spec (references : list double) :
  forall (k count : nat) (n h : Z),
  quotients_bounded references k count (double_of_int (Z.of_nat count)) = true ->
  Z.of_nat count + Z.of_nat k <= MAXSAMPLES + 1 ->
  Z.of_nat count <= n < Z.of_nat count + Z.of_nat k ->
  0 <= h <= n ->
  quotient_bounded references (double_of_int h) (double_of_int n) = true.
Proof.
  induction k as [|k IH]; intros count n h H Hk Hn Hh; [lia|].
  cbn [quotients_bounded] in H. apply andb_prop in H. destruct H as [Hhead Htail].
  destruct (Z.eq_dec n (Z.of_nat count)) as [->|Hne].
  - apply (quotients_bounded_from_spec references _ (S count) 0 h Hhead); lia.
  - apply (IH (S count) n h); [|lia | lia | lia].
    destruct (counts_exactly_spec (Z.of_nat count)) as [Hone _]; [lia|].
    replace (Z.of_nat (S count)) with (Z.of_nat count + 1) by lia.
    rewrite <- Hone. exact Htail.
Qed.

Lemma discontinuous_reference (functionNumber : Z) :
  In functionNumber [0; 1; 2; 12] ->
  In (refValue (functionTable_at functionNumber))
    [0.5%float; (1%float / M_PI)%double].
Proof.
  intros H. cbn [In] in H.
  destruct H as [<-|[<-|[<-|[<-|[]]]]];
    first [left; reflexivity | right; left; reflexivity].
Qed.

(** X26.  For the four discontinuous integrands, and up to MAXSAMPLES
    samples, every estimate of a sequence is from 0 to 1, and its error
    against the reference value of the integrand is at most the greater
    of the reference value and of its distance to 1: 0.5 for the two
    disks and the triangle.  So it is of the estimate and the error that
    the estimator takes from [sumresults[t]] after s + 1 samples. *)
Theorem discontinuous_estimates_bounded :
  forall (libc : Libc) (samplePoints : table) (functionNumber t s : Z),
  In functionNumber [0; 1; 2; 12] ->
  0 <= s < MAXSAMPLES ->
  (0%float <= estimate samplePoints functionNumber t s)%double = true /\
  (estimate samplePoints functionNumber t s <= 1%float)%double = true /\
  (error samplePoints functionNumber (refValue (functionTable_at functionNumber)) t s
   <= MAX (refValue (functionTable_at functionNumber))
        (fabs (1%float - refValue (functionTable_at functionNumber))))%double
  = true /\
  map (fun f => MAX (refValue (functionTable_at f))
                  (fabs (1%float - refValue (functionTable_at f)))%double)
    [0; 1; 2]
  = [0.5; 0.5; 0.5]%float /\
  (forall (numSequences : Z),
     0 <= t < numSequences -> numSequences <= MAXTABLES ->
     exists st,
       estimate_errors samplePoints functionNumber numSequences
         (refValue (functionTable_at functionNumber)) (s + 1) = Ok st /\
       (0%float <= array_get (sumresults st) t / double_of_int (s + 1))%double
       = true /\
       (array_get (sumresults st) t / double_of_int (s + 1) <= 1%float)%double
       = true /\
       (fabs (array_get (sumresults st) t / double_of_int (s + 1)
              - refValue (functionTable_at functionNumber))
        <= MAX (refValue (functionTable_at functionNumber))
             (fabs (1%float - refValue (functionTable_at functionNumber))))%double
       = true).
Proof.
  intros libc samplePoints functionNumber t s Hf Hs.
  destruct (running_hits samplePoints functionNumber t Hf (Z.to_nat (s + 1)))
    as [Hrange Hsum]; [lia|].
  replace (Z.of_nat (Z.to_nat (s + 1)) - 1) with s in * by lia.
  assert (Hq : quotient_bounded [0.5%float; (1%float / M_PI)%double]
                 (double_of_int (hits samplePoints functionNumber t s))
                 (double_of_int (s + 1)) = true).
  { apply (quotients_bounded_spec _ (Z.to_nat MAXSAMPLES) 1).
    - exact quotients_bounded_MAXSAMPLES.
    - unfold MAXSAMPLES. lia.
    - unfold MAXSAMPLES in *. lia.
    - lia. }
  unfold quotient_bounded in Hq. cbv zeta in Hq.
  apply andb_prop in Hq. destruct Hq as [Hq Hrefs].
  apply andb_prop in Hq. destruct Hq as [H0 H1].
  rewrite forallb_forall in Hrefs.
  specialize (Hrefs _ (discontinuous_reference functionNumber Hf)).
  unfold error, estimate. rewrite Hsum.
  split; [exact H0|]. split; [exact H1|]. split; [exact Hrefs|].
  split; [reflexivity|].
  intros numSequences Ht Hn. eexists.
  split; [apply estimate_errors_spec, within_capacity_intro; lia|].
  cbn [sumresults]. rewrite array_get_map by lia.
  replace (s + 1 - 1) with s by lia. rewrite Hsum.
  split; [exact H0|]. split; [exact H1 | exact Hrefs].
Qed.

Lemma discontinuous_estimates_bounded_witness :
  In 0 [0; 1; 2; 12] /\ 0 <= 3 < MAXSAMPLES /\
  forall libc : Libc,
  (0%float <= estimate corner_table 0 0 3)%double = true /\
  (estimate corner_table 0 0 3 <= 1%float)%double = true /\
  (error corner_table 0 (refValue (functionTable_at 0)) 0 3
   <= MAX (refValue (functionTable_at 0))
        (fabs (1%float - refValue (functionTable_at 0))))%double
  = true /\
  map (fun f => MAX (refValue (functionTable_at f))
                  (fabs (1%float - refValue (functionTable_at f)))%double)
    [0; 1; 2]
  = [0.5; 0.5; 0.5]%float /\
  (forall (numSequences : Z),
     0 <= 0 < numSequences -> numSequences <= MAXTABLES ->
     exists st,
       estimate_errors corner_table 0 numSequences
         (refValue (functionTable_at 0)) (3 + 1) = Ok st /\
       (0%float <= array_get (sumresults st) 0 / double_of_int (3 + 1))%double
       = true /\
       (array_get (sumresults st) 0 / double_of_int (3 + 1) <= 1%float)%double
       = true /\
       (fabs (array_get (sumresults st) 0 / double_of_int (3 + 1)
              - refValue (functionTable_at 0))
        <= MAX (refValue (functionTable_at 0))
             (fabs (1%float - refValue (functionTable_at 0))))%double
       = true).
Proof.
  split; [cbn; tauto|].
  split; [unfold MAXSAMPLES; lia|].
  intros libc.
  apply (discontinuous_estimates_bounded libc corner_table 0 0 3).
  - cbn; tauto.
  - unfold MAXSAMPLES; lia.
Defined.
